(** * pyRouterJig: units, fractions, design persistence and the pass table

    A shallow embedding of [utils.py] and [serialize.py].

    Conventions of the embedding
    - Python [int] is [Z]; a Python [float] is a binary64 value, computed
      with the IEEE 754 specification of the standard library
      ([SpecFloat], precision 53, exponent bound 1024).
    - Python [str] is [string]; every [ascii] stands for one character
      (a code point below 256).
    - A raised exception is the [Raise] outcome of [result]; methods that
      mutate [self] return the updated object.
    - The class attribute [Units.quant] is interpreter-wide state and is
      threaded explicitly. *)

From Stdlib Require Import ZArith List Bool Lia Ascii String.
From Stdlib Require Import Decimal DecimalString DecimalFacts DecimalPos DecimalN DecimalZ.
From Stdlib Require Import SpecFloat.
Import ListNotations.

Local Open Scope string_scope.
Local Open Scope Z_scope.

(* ================================================================= *)
(** ** Exceptions and the error monad *)

Inductive exn : Type :=
| TypeError
| ValueError
| ZeroDivisionError
| OverflowError
| IndexError
| EOFError
| IOError
| AttributeError
| DecimalInvalidOperation
| DecimalDivisionByZero
| DecimalOverflow.

Inductive result (A : Type) : Type :=
| Ok (a : A)
| Raise (e : exn).

Arguments Ok {A} a.
Arguments Raise {A} e.

Definition bind {A B : Type} (m : result A) (k : A -> result B) : result B :=
  match m with
  | Ok a => k a
  | Raise e => Raise e
  end.

Notation "x <- m ;; k" := (bind m (fun x => k))
  (at level 61, m at next level, right associativity).
Notation "' p <- m ;; k" := (bind m (fun x => let p := x in k))
  (at level 61, p pattern, m at next level, right associativity).

(* ================================================================= *)
(** ** Python strings *)

Module PyStr.

Definition is_digit (c : ascii) : bool :=
  let n := nat_of_ascii c in (48 <=? n)%nat && (n <=? 57)%nat.

(** [str.isspace] on the characters below 256. *)
Definition is_space (c : ascii) : bool :=
  let n := nat_of_ascii c in
  ((9 <=? n)%nat && (n <=? 13)%nat) || ((28 <=? n)%nat && (n <=? 32)%nat)
  || (n =? 133)%nat || (n =? 160)%nat.

Definition is_empty (s : string) : bool :=
  match s with EmptyString => true | String _ _ => false end.

Fixpoint lstrip (s : string) : string :=
  match s with
  | EmptyString => EmptyString
  | String c r => if is_space c then lstrip r else s
  end.

Fixpoint rstrip (s : string) : string :=
  match s with
  | EmptyString => EmptyString
  | String c r =>
      let r' := rstrip r in
      if is_space c && is_empty r' then EmptyString else String c r'
  end.

(** [s.strip()] *)
Definition strip (s : string) : string := rstrip (lstrip s).

(** [s.find(c)] for a one-character needle; [-1] when absent. *)
Fixpoint find_from (c : ascii) (s : string) (i : Z) : Z :=
  match s with
  | EmptyString => -1
  | String d r => if Ascii.eqb d c then i else find_from c r (i + 1)
  end.

Definition find (c : ascii) (s : string) : Z := find_from c s 0.

(** [s[:n]] and [s[n:]] for [0 <= n]. *)
Fixpoint take (n : nat) (s : string) : string :=
  match n, s with
  | O, _ => EmptyString
  | S _, EmptyString => EmptyString
  | S k, String c r => String c (take k r)
  end.

Fixpoint drop (n : nat) (s : string) : string :=
  match n, s with
  | O, _ => s
  | S _, EmptyString => EmptyString
  | S k, String c r => drop k r
  end.

(** [s.replace(old, new, 1)]: the first occurrence only.  With an empty
    [old], Python inserts [new] in front. *)
Fixpoint replace_first (old new s : string) : string :=
  if String.prefix old s then new ++ drop (String.length old) s
  else match s with
       | EmptyString => EmptyString
       | String c r => String c (replace_first old new r)
       end.

(** [s.split(c)] for a one-character separator: empty pieces are kept. *)
Fixpoint split (c : ascii) (s : string) : list string :=
  match s with
  | EmptyString => [EmptyString]
  | String d r =>
      if Ascii.eqb d c then EmptyString :: split c r
      else match split c r with
           | [] => [String d EmptyString]
           | p :: ps => String d p :: ps
           end
  end.

(** [s.split(None)]: runs of white space separate, no empty pieces.
    [cur] is the piece being read. *)
Fixpoint split_ws_aux (s : string) (cur : option string) : list string :=
  match s with
  | EmptyString =>
      match cur with None => [] | Some w => [w] end
  | String c r =>
      if is_space c then
        match cur with
        | None => split_ws_aux r None
        | Some w => w :: split_ws_aux r None
        end
      else
        match cur with
        | None => split_ws_aux r (Some (String c EmptyString))
        | Some w => split_ws_aux r (Some (w ++ String c EmptyString))
        end
  end.

Definition split_ws (s : string) : list string := split_ws_aux s None.

(** ['%d' % z] *)
Definition of_Z (z : Z) : string := NilZero.string_of_int (Z.to_int z).

(** The digits of an [int()] argument, its underscores removed: an
    underscore is allowed only between two digits. *)
Fixpoint digits_body (s : string) (after_digit : bool) : option string :=
  match s with
  | EmptyString => if after_digit then Some EmptyString else None
  | String c r =>
      if is_digit c then
        match digits_body r true with
        | Some t => Some (String c t)
        | None => None
        end
      else if Ascii.eqb c "_" then
        if after_digit then digits_body r false else None
      else None
  end.

Definition unsigned_of_string (s : string) : result Z :=
  match digits_body s false with
  | None => Raise ValueError
  | Some t =>
      match NilEmpty.uint_of_string t with
      | Some d => Ok (Z.of_uint d)
      | None => Raise ValueError
      end
  end.

(** The white space [int()] skips around the digits: the ASCII
    characters of C's [isspace], and the white space above 127, which
    it turns into a space first (NEL and NBSP).  The separators
    0x1c-0x1f, white space for [str.strip], are not skipped: [int]
    raises [ValueError] on them. *)
Definition is_int_space (c : ascii) : bool :=
  let n := nat_of_ascii c in
  ((9 <=? n)%nat && (n <=? 13)%nat) || (n =? 32)%nat
  || (n =? 133)%nat || (n =? 160)%nat.

Fixpoint int_lstrip (s : string) : string :=
  match s with
  | EmptyString => EmptyString
  | String c r => if is_int_space c then int_lstrip r else s
  end.

Fixpoint int_rstrip (s : string) : string :=
  match s with
  | EmptyString => EmptyString
  | String c r =>
      let r' := int_rstrip r in
      if is_int_space c && is_empty r' then EmptyString else String c r'
  end.

(** [int(s)] in base 10: surrounding white space, an optional sign, and
    digits. *)
Definition to_Z (s : string) : result Z :=
  match int_rstrip (int_lstrip s) with
  | String "-" r => z <- unsigned_of_string r ;; Ok (- z)
  | String "+" r => unsigned_of_string r
  | t => unsigned_of_string t
  end.

(** [c * n] for a one-character string. *)
Fixpoint repeat (c : ascii) (n : nat) : string :=
  match n with
  | O => EmptyString
  | S k => String c (repeat c k)
  end.

(** ['%Ns' % s]: right-justified in a field of [n] characters. *)
Definition rjust (n : nat) (s : string) : string :=
  repeat " " (n - String.length s) ++ s.

(** [s.startswith(c)] and [s.endswith(c)] for a one-character [c]. *)
Definition starts_with (c : ascii) (s : string) : bool :=
  match s with
  | EmptyString => false
  | String d _ => Ascii.eqb d c
  end.

Fixpoint ends_with (c : ascii) (s : string) : bool :=
  match s with
  | EmptyString => false
  | String d r =>
      match r with
      | EmptyString => Ascii.eqb d c
      | String _ _ => ends_with c r
      end
  end.

(** [s.rfind(c)] for a one-character needle: the index of its last
    occurrence, [-1] when absent.  [i] is the index of the first
    character of [s], [last] the answer so far. *)
Fixpoint rfind_from (c : ascii) (s : string) (i last : Z) : Z :=
  match s with
  | EmptyString => last
  | String d r => rfind_from c r (i + 1) (if Ascii.eqb d c then i else last)
  end.

Definition rfind (c : ascii) (s : string) : Z := rfind_from c s 0 (-1).

(** [s[:-k]] for [1 <= k]: [s] without its last [k] characters, the
    empty string when [s] has fewer. *)
Definition drop_last (k : nat) (s : string) : string :=
  take (String.length s - k) s.

End PyStr.


(* ================================================================= *)
(** ** Python numbers *)

(** A number: an [int] or a [float]. *)
Inductive pynum : Type :=
| NInt (z : Z)
| NFloat (f : spec_float).

(** The objects that cross the persistence stream or reach a constructor
    untyped. *)
#[warnings="-register-all"]
Inductive pyval : Type :=
| PNone
| PBool (b : bool)
| PNum (n : pynum)
| PStr (s : string)
| PList (l : list pyval).

(** [n / d] for [0 <= n] and [0 < d], rounded to the nearest integer,
    ties to the even one. *)
Definition div_half_even (n d : Z) : Z :=
  let q := n / d in
  let r := n mod d in
  match 2 * r ?= d with
  | Lt => q
  | Gt => q + 1
  | Eq => if Z.even q then q else q + 1
  end.

Module PyFloat.

Definition prec : Z := 53.
Definition emax : Z := 1024.

Definition is_zero (f : spec_float) : bool :=
  match f with S754_zero _ => true | _ => false end.

Definition sign_bit (f : spec_float) : bool :=
  match f with
  | S754_zero s | S754_infinity s | S754_finite s _ _ => s
  | S754_nan => false
  end.

(** The exact value of a finite float as a fraction [(n, d)] of its
    magnitude, [0 <= n] and [0 < d]. *)
Definition magnitude (f : spec_float) : option (Z * Z) :=
  match f with
  | S754_zero _ => Some (0, 1)
  | S754_finite _ m e =>
      if 0 <=? e then Some (Zpos m * 2 ^ e, 1) else Some (Zpos m, 2 ^ (- e))
  | _ => None
  end.

(** [a / b] on two [int]s (true division): the correctly rounded
    quotient. *)
Definition int_true_div (a b : Z) : result spec_float :=
  match a, b with
  | _, Z0 => Raise ZeroDivisionError
  | Z0, _ => Ok (S754_zero (b <? 0))
  | _, _ =>
      let s := xorb (a <? 0) (b <? 0) in
      let '(q, e, l) := SFdiv_core_binary prec emax (Z.abs a) 0 (Z.abs b) 0 in
      match binary_round_aux prec emax s q e l with
      | S754_infinity _ => Raise OverflowError
      | f => Ok f
      end
  end.

(** [float(z)] *)
Definition of_Z (z : Z) : result spec_float :=
  match binary_normalize prec emax z 0 false with
  | S754_infinity _ => Raise OverflowError
  | f => Ok f
  end.

(** [int(f)]: truncation toward zero. *)
Definition to_Z (f : spec_float) : result Z :=
  match f with
  | S754_nan => Raise ValueError
  | S754_infinity _ => Raise OverflowError
  | S754_zero _ => Ok 0
  | S754_finite s m e =>
      let a := if 0 <=? e then Zpos m * 2 ^ e else Zpos m / 2 ^ (- e) in
      Ok (if s then - a else a)
  end.

(** [round(f)] with one argument: the nearest [int], ties to even. *)
Definition round (f : spec_float) : result Z :=
  match f with
  | S754_nan => Raise ValueError
  | S754_infinity _ => Raise OverflowError
  | S754_zero _ => Ok 0
  | S754_finite s m e =>
      let a := if 0 <=? e then Zpos m * 2 ^ e
               else div_half_even (Zpos m) (2 ^ (- e)) in
      Ok (if s then - a else a)
  end.

(** [x / y] on floats. *)
Definition div (x y : spec_float) : result spec_float :=
  if is_zero y then Raise ZeroDivisionError else Ok (SFdiv prec emax x y).

Definition mul (x y : spec_float) : spec_float := SFmul prec emax x y.
Definition add (x y : spec_float) : spec_float := SFadd prec emax x y.

(** The literal [25.4]. *)
Definition mm_per_inch : spec_float :=
  Eval vm_compute in
    match int_true_div 254 10 with Ok f => f | Raise _ => S754_nan end.

End PyFloat.

Module PyNum.

(** [float(n)] *)
Definition to_float (n : pynum) : result spec_float :=
  match n with
  | NInt z => PyFloat.of_Z z
  | NFloat f => Ok f
  end.

(** [int(n)] *)
Definition to_int (n : pynum) : result Z :=
  match n with
  | NInt z => Ok z
  | NFloat f => PyFloat.to_Z f
  end.

(** [n == k] against an [int]. *)
Definition eq_int (n : pynum) (k : Z) : bool :=
  match n with
  | NInt z => z =? k
  | NFloat f =>
      match f with
      | S754_zero _ => k =? 0
      | S754_finite s m e =>
          match PyFloat.magnitude f with
          | Some (a, d) => (a =? d * Z.abs k) && negb (k =? 0) && Bool.eqb s (k <? 0)
          | None => false
          end
      | _ => false
      end
  end.

(** [n > 0] *)
Definition gt0 (n : pynum) : bool :=
  match n with
  | NInt z => 0 <? z
  | NFloat (S754_finite false _ _) | NFloat (S754_infinity false) => true
  | NFloat _ => false
  end.

(** [a / b] *)
Definition div (a b : pynum) : result spec_float :=
  match a, b with
  | NInt x, NInt y => PyFloat.int_true_div x y
  | _, _ =>
      x <- to_float a ;;
      y <- to_float b ;;
      PyFloat.div x y
  end.

(** [a * b] *)
Definition mul (a b : pynum) : result pynum :=
  match a, b with
  | NInt x, NInt y => Ok (NInt (x * y))
  | _, _ =>
      x <- to_float a ;;
      y <- to_float b ;;
      Ok (NFloat (PyFloat.mul x y))
  end.

(** [a + b] *)
Definition add (a b : pynum) : result pynum :=
  match a, b with
  | NInt x, NInt y => Ok (NInt (x + y))
  | _, _ =>
      x <- to_float a ;;
      y <- to_float b ;;
      Ok (NFloat (PyFloat.add x y))
  end.

(** [round(n)] with one argument. *)
Definition round (n : pynum) : result Z :=
  match n with
  | NInt z => Ok z
  | NFloat f => PyFloat.round f
  end.

(** ['%d' % n] *)
Definition fmt_d (n : pynum) : result string :=
  z <- to_int n ;; Ok (PyStr.of_Z z).

(** [n in ks] for a list of [int]s. *)
Definition mem_ints (n : pynum) (ks : list Z) : bool :=
  existsb (eq_int n) ks.

End PyNum.

(* ================================================================= *)
(** ** Decimal arithmetic and number formatting *)

Module PyDecimal.

(** A finite [Decimal]: [(-1)^dneg * dcoef * 10^dexp]. *)
Record t : Type := mk { dneg : bool; dcoef : Z; dexp : Z }.

(** The number of decimal digits of [n], for [0 < n]. *)
Definition num_digits (n : Z) : Z := Z.of_nat (Decimal.nb_digits (N.to_uint (Z.to_N n))).

(** The largest [x] with [10^x <= n / d], for [0 < n] and [0 < d]. *)
Definition ilog10 (n d : Z) : Z :=
  let x := num_digits n - num_digits d in
  let above := if 0 <=? x then 10 ^ x * d <=? n else d <=? n * 10 ^ (- x) in
  if above then x else x - 1.

(** [n / d] rounded half-even to [p] significant digits: the pair
    [(m, x)] stands for [m * 10^(x - p + 1)] with [10^(p-1) <= m < 10^p]. *)
Definition round_sig (p n d : Z) : Z * Z :=
  let x := ilog10 n d in
  let shift := p - 1 - x in
  let m := if 0 <=? shift then div_half_even (n * 10 ^ shift) d
           else div_half_even n (d * 10 ^ (- shift)) in
  if m =? 10 ^ p then (10 ^ (p - 1), x + 1) else (m, x).

(** The default context: 28 digits, half-even, exponents up to 999999. *)
Definition context_prec : Z := 28.
Definition context_emax : Z := 999999.

(** [(Decimal(a) / Decimal(b)).quantize(q)] on the exact magnitudes
    [an/ad] and [bn/bd]; [neg] is the sign of the quotient. *)
Definition div_quantize (neg : bool) (an ad bn bd : Z) (q : t) : result t :=
  if bn =? 0 then
    Raise (if an =? 0 then DecimalInvalidOperation else DecimalDivisionByZero)
  else if an =? 0 then Ok (mk neg 0 (dexp q))
  else
    let '(m, x) := round_sig context_prec (an * bd) (ad * bn) in
    if context_emax <? x then Raise DecimalOverflow
    else
      let e := x - context_prec + 1 - dexp q in
      let c := if 0 <=? e then m * 10 ^ e else div_half_even m (10 ^ (- e)) in
      if 10 ^ context_prec <=? c then Raise DecimalInvalidOperation
      else Ok (mk neg c (dexp q)).

(** [float(d)]: the nearest binary64 value. *)
Definition to_float (d : t) : result spec_float :=
  if dcoef d =? 0 then Ok (S754_zero (dneg d))
  else
    let c := if dneg d then - dcoef d else dcoef d in
    if 0 <=? dexp d then PyFloat.of_Z (c * 10 ^ dexp d)
    else PyFloat.int_true_div c (10 ^ (- dexp d)).

(** The arithmetic of finite [Decimal]s in the default context, as the
    module [decimal] defines it.  The context traps [InvalidOperation],
    [DivisionByZero] and [Overflow]; the other signals only set flags. *)

Definition context_emin : Z := -999999.

(** The exponents of the last digit of the smallest subnormal and of
    the largest number of the context. *)
Definition etiny : Z := context_emin - context_prec + 1.
Definition etop : Z := context_emax - context_prec + 1.

(** [Decimal(z)] for an [int] *)
Definition of_Z (z : Z) : t := mk (z <? 0) (Z.abs z) 0.

(** [d.adjusted()]: the exponent of the first digit. *)
Definition adjusted (d : t) : Z := dexp d + num_digits (dcoef d) - 1.

(** [d._fix(context)]: the rounding every operation ends with. *)
Definition fix_context (d : t) : result t :=
  if dcoef d =? 0 then
    Ok (mk (dneg d) 0 (Z.min (Z.max (dexp d) etiny) context_emax))
  else
    let exp_min := num_digits (dcoef d) + dexp d - context_prec in
    if etop <? exp_min then Raise DecimalOverflow
    else
      let exp_min := Z.max exp_min etiny in
      if dexp d <? exp_min then
        let c := div_half_even (dcoef d) (10 ^ (exp_min - dexp d)) in
        if 10 ^ context_prec <=? c then
          if etop <? exp_min + 1 then Raise DecimalOverflow
          else Ok (mk (dneg d) (c / 10) (exp_min + 1))
        else Ok (mk (dneg d) c exp_min)
      else Ok d.

(** [d._rescale(e)] for [e <= dexp d]: zeros are appended. *)
Definition pad (d : t) (e : Z) : t :=
  mk (dneg d) (dcoef d * 10 ^ (dexp d - e)) e.

(** [a._divide(b)] for [b] other than zero: the integer quotient and
    the remainder. *)
Definition divide (a b : t) : result (t * t) :=
  let sign := xorb (dneg a) (dneg b) in
  let ideal_exp := Z.min (dexp a) (dexp b) in
  let expdiff := adjusted a - adjusted b in
  if (dcoef a =? 0) || (expdiff <=? -2) then
    Ok (mk sign 0 0, pad a ideal_exp)
  else if expdiff <=? context_prec then
    let '(i1, i2) :=
      if dexp b <=? dexp a
      then (dcoef a * 10 ^ (dexp a - dexp b), dcoef b)
      else (dcoef a, dcoef b * 10 ^ (dexp b - dexp a)) in
    if i1 / i2 <? 10 ^ context_prec
    then Ok (mk sign (i1 / i2) 0, mk (dneg a) (i1 mod i2) ideal_exp)
    else Raise DecimalInvalidOperation
  else Raise DecimalInvalidOperation.

(** [a // b] *)
Definition floordiv (a b : t) : result t :=
  if dcoef b =? 0 then
    Raise (if dcoef a =? 0 then DecimalInvalidOperation
           else DecimalDivisionByZero)
  else '(q, _) <- divide a b ;; Ok q.

(** [a % b] *)
Definition rem (a b : t) : result t :=
  if dcoef b =? 0 then Raise DecimalInvalidOperation
  else '(_, r) <- divide a b ;; fix_context r.

(** [while exp < ideal_exp and coeff % 10 == 0]: at most [fuel]
    trailing zeros are removed. *)
Fixpoint strip_zeros (fuel : nat) (coeff exp : Z) : Z * Z :=
  match fuel with
  | O => (coeff, exp)
  | S k =>
      if coeff mod 10 =? 0 then strip_zeros k (coeff / 10) (exp + 1)
      else (coeff, exp)
  end.

(** [a / b] *)
Definition truediv (a b : t) : result t :=
  let sign := xorb (dneg a) (dneg b) in
  if dcoef b =? 0 then
    Raise (if dcoef a =? 0 then DecimalInvalidOperation
           else DecimalDivisionByZero)
  else if dcoef a =? 0 then fix_context (mk sign 0 (dexp a - dexp b))
  else
    let shift :=
      num_digits (dcoef b) - num_digits (dcoef a) + context_prec + 1 in
    let exp := dexp a - dexp b - shift in
    let '(n, d) :=
      if 0 <=? shift then (dcoef a * 10 ^ shift, dcoef b)
      else (dcoef a, dcoef b * 10 ^ (- shift)) in
    let '(coeff, exp) :=
      if negb (n mod d =? 0) then
        (if (n / d) mod 5 =? 0 then n / d + 1 else n / d, exp)
      else strip_zeros (Z.to_nat (dexp a - dexp b - exp)) (n / d) exp in
    fix_context (mk sign coeff exp).

(** [_normalize(a, b, prec)]: both operands at one exponent; an operand
    too small to matter is replaced by a digit 1 far enough down. *)
Definition normalize (a b : t) : t * t :=
  let '(tmp, other) := if dexp a <? dexp b then (b, a) else (a, b) in
  let tmp_len := num_digits (dcoef tmp) in
  let other_len := num_digits (dcoef other) in
  let exp := dexp tmp + Z.min (-1) (tmp_len - context_prec - 2) in
  let other :=
    if other_len + dexp other - 1 <? exp then mk (dneg other) 1 exp
    else other in
  let tmp :=
    mk (dneg tmp) (dcoef tmp * 10 ^ (dexp tmp - dexp other)) (dexp other) in
  if dexp a <? dexp b then (other, tmp) else (tmp, other).

(** [a + b] *)
Definition add (a b : t) : result t :=
  let exp := Z.min (dexp a) (dexp b) in
  if (dcoef a =? 0) && (dcoef b =? 0) then
    fix_context (mk (dneg a && dneg b) 0 exp)
  else if dcoef a =? 0 then
    fix_context (pad b (Z.max exp (dexp b - context_prec - 1)))
  else if dcoef b =? 0 then
    fix_context (pad a (Z.max exp (dexp a - context_prec - 1)))
  else
    let '(op1, op2) := normalize a b in
    if xorb (dneg op1) (dneg op2) then
      if dcoef op1 =? dcoef op2 then fix_context (mk false 0 exp)
      else
        let '(op1, op2) :=
          if dcoef op1 <? dcoef op2 then (op2, op1) else (op1, op2) in
        fix_context (mk (dneg op1) (dcoef op1 - dcoef op2) (dexp op1))
    else fix_context (mk (dneg op1) (dcoef op1 + dcoef op2) (dexp op1)).

(** [int(d)]: truncation toward zero. *)
Definition to_int (d : t) : Z :=
  let a := if 0 <=? dexp d then dcoef d * 10 ^ dexp d
           else dcoef d / 10 ^ (- dexp d) in
  if dneg d then - a else a.

End PyDecimal.

Module PyFmt.

Fixpoint rstrip_zeros (s : string) : string :=
  match s with
  | EmptyString => EmptyString
  | String c r =>
      let r' := rstrip_zeros r in
      if Ascii.eqb c "0" && PyStr.is_empty r' then EmptyString else String c r'
  end.

Definition with_sign (neg : bool) (s : string) : string :=
  if neg then String "-" s else s.

Definition with_point (int_part frac : string) : string :=
  if PyStr.is_empty frac then int_part else int_part ++ "." ++ frac.

(** ['%g' % f]: six significant digits, trailing zeros removed,
    exponent form when the decimal exponent is below -4 or at least 6. *)
Definition fmt_g (f : spec_float) : string :=
  match f with
  | S754_nan => "nan"
  | S754_infinity s => with_sign s "inf"
  | S754_zero s => with_sign s "0"
  | S754_finite s _ _ =>
      match PyFloat.magnitude f with
      | None => "nan"
      | Some (n, d) =>
          let '(m, x) := PyDecimal.round_sig 6 n d in
          let ds := PyStr.of_Z m in
          with_sign s
            (if (x <? -4) || (6 <=? x) then
               with_point (PyStr.take 1 ds) (rstrip_zeros (PyStr.drop 1 ds))
               ++ "e" ++ (if x <? 0 then "-" else "+")
               ++ (if Z.abs x <? 10 then "0" else "") ++ PyStr.of_Z (Z.abs x)
             else if 0 <=? x then
               with_point (PyStr.take (Z.to_nat (x + 1)) ds)
                          (rstrip_zeros (PyStr.drop (Z.to_nat (x + 1)) ds))
             else
               with_point "0"
                 (rstrip_zeros (PyStr.repeat "0" (Z.to_nat (- x - 1)) ++ ds)))
      end
  end.

(** ['%.3f' % f] *)
Definition fmt_3f (f : spec_float) : string :=
  match f with
  | S754_nan => "nan"
  | S754_infinity s => with_sign s "inf"
  | _ =>
      match PyFloat.magnitude f with
      | None => "nan"
      | Some (n, d) =>
          let c := div_half_even (n * 1000) d in
          let frac := PyStr.of_Z (c mod 1000) in
          with_sign (PyFloat.sign_bit f)
            (PyStr.of_Z (c / 1000) ++ "."
             ++ PyStr.repeat "0" (3 - String.length frac) ++ frac)
      end
  end.

End PyFmt.

(* ================================================================= *)
(** ** [class My_Fraction] *)

Module My_Fraction.

(** [whole] stays an [int]; [numerator] and [denominator] start as
    [int]s and hold [float]s once [reduce] has divided them. *)
Record t : Type := mk {
  sign : Z;
  whole : Z;
  numerator : pynum;
  denominator : option pynum;
  english_separator : pyval
}.

(** [My_Fraction(english_separator, whole, numerator, denominator)] *)
Definition init (english_separator : pyval) (whole numerator : Z)
    (denominator : option pynum) : t :=
  {| sign := if (whole <? 0) || (numerator <? 0) then -1 else 1;
     whole := Z.abs whole;
     numerator := NInt (Z.abs numerator);
     denominator := denominator;
     english_separator := english_separator |}.

Definition reduce (self : t) : result t :=
  match denominator self with
  | None => Ok self
  | Some den =>
      if PyNum.eq_int (numerator self) 0 then Ok self
      else
        n <- PyNum.to_int (numerator self) ;;
        d <- PyNum.to_int den ;;
        if d =? 0 then Raise ZeroDivisionError
        else
          let dwhole := n / d in
          let n := n - dwhole * d in
          let gcd := Z.gcd n d in
          n' <- PyFloat.int_true_div n gcd ;;
          d' <- PyFloat.int_true_div d gcd ;;
          Ok {| sign := sign self;
                whole := whole self + dwhole;
                numerator := NFloat n';
                denominator := Some (NFloat d');
                english_separator := english_separator self |}
  end.

(** The part of [to_string] after its call of [reduce]. *)
Definition render (self : t) : result string :=
  let s := "" in
  let s := if sign self <? 0 then "-" else s in
  s <- (if 0 <? whole self then
          let s := PyStr.of_Z (whole self) in
          if negb (PyNum.eq_int (numerator self) 0) then
            match english_separator self with
            | PStr sep => Ok (s ++ sep)
            | _ => Raise TypeError
            end
          else Ok s
        else Ok s) ;;
  if negb (PyNum.eq_int (numerator self) 0) then
    n <- PyNum.fmt_d (numerator self) ;;
    match denominator self with
    | None => Raise TypeError
    | Some den => d <- PyNum.fmt_d den ;; Ok (s ++ n ++ "/" ++ d)
    end
  else if whole self =? 0 then Ok "0"
  else Ok s.

Definition to_string (self : t) : result (string * t) :=
  self <- reduce self ;;
  s <- render self ;;
  Ok (s, self).

(** [math.pow(10, n)] for a digit count [n]: the binary64 value nearest
    to [10^n], [OverflowError] beyond the range. *)
Definition pow10 (n : nat) : result spec_float :=
  PyFloat.of_Z (10 ^ Z.of_nat n).

Definition set_from_string (self : t) (s : string) : result t :=
  let self := {| sign := sign self; whole := 0; numerator := NInt 0;
                 denominator := Some (NInt 1);
                 english_separator := english_separator self |} in
  let dotloc := PyStr.find "." s in
  if dotloc =? -1 then
    s <- match english_separator self with
         | PStr " " => Ok s
         | PStr sep => Ok (PyStr.replace_first sep " " s)
         | _ => Raise TypeError
         end ;;
    match PyStr.split "/" s with
    | [sp0; sp1] =>
        '(w, n) <- match PyStr.split_ws sp0 with
                   | [x] => n <- PyStr.to_Z x ;; Ok (0, n)
                   | [x; y] =>
                       w <- PyStr.to_Z x ;; n <- PyStr.to_Z y ;; Ok (w, n)
                   | _ => Raise ValueError
                   end ;;
        match PyStr.split_ws sp1 with
        | [x] =>
            d <- PyStr.to_Z x ;;
            Ok {| sign := sign self; whole := w; numerator := NInt n;
                  denominator := Some (NInt d);
                  english_separator := english_separator self |}
        | _ => Raise ValueError
        end
    | [sp0] =>
        w <- PyStr.to_Z sp0 ;;
        Ok {| sign := sign self; whole := w; numerator := numerator self;
              denominator := denominator self;
              english_separator := english_separator self |}
    | _ => Raise ValueError
    end
  else
    let whole_s := PyStr.strip (PyStr.take (Z.to_nat dotloc) s) in
    w <- (if PyStr.is_empty whole_s then Ok (whole self)
          else PyStr.to_Z whole_s) ;;
    let self := {| sign := sign self; whole := w; numerator := numerator self;
                   denominator := denominator self;
                   english_separator := english_separator self |} in
    let rest := PyStr.strip (PyStr.drop (Z.to_nat (dotloc + 1)) s) in
    if PyStr.is_empty rest then Ok self
    else
      n <- PyStr.to_Z rest ;;
      p <- pow10 (String.length rest) ;;
      d <- PyFloat.to_Z p ;;
      reduce {| sign := sign self; whole := whole self; numerator := NInt n;
                denominator := Some (NInt d);
                english_separator := english_separator self |}.

End My_Fraction.

(** [my_round(f)]: [int(round(f))] *)
Definition my_round (f : pynum) : result Z := PyNum.round f.

(** The numbers [math_round] can be given: an [int], a [float] or a
    finite [Decimal]. *)
Inductive pyreal : Type :=
| RInt (z : Z)
| RFloat (f : spec_float)
| RDecimal (d : PyDecimal.t).

(** [math_round(no)]:
    [int(no // 1 + ((no % 1) / Decimal('0.5')) // 1)].
    On an [int], [no // 1] is [no] and [no % 1] is [0], both [int]s,
    and the other operations are those of [Decimal].  On a [float],
    [no // 1] and [no % 1] are [float]s (the divisor is not zero, so
    neither raises), and a [float] cannot be divided by a [Decimal]. *)
Definition math_round (no : pyreal) : result Z :=
  let one := PyDecimal.of_Z 1 in
  let half := PyDecimal.mk false 5 (-1) in
  match no with
  | RInt z =>
      x <- PyDecimal.truediv (PyDecimal.of_Z 0) half ;;
      y <- PyDecimal.floordiv x one ;;
      s <- PyDecimal.add y (PyDecimal.of_Z z) ;;
      Ok (PyDecimal.to_int s)
  | RFloat _ => Raise TypeError
  | RDecimal d =>
      q <- PyDecimal.floordiv d one ;;
      r <- PyDecimal.rem d one ;;
      x <- PyDecimal.truediv r half ;;
      y <- PyDecimal.floordiv x one ;;
      s <- PyDecimal.add q y ;;
      Ok (PyDecimal.to_int s)
  end.

(* ================================================================= *)
(** ** [class Units] *)

Module Units.

(** The translator object: its [tr] method. *)
Definition translator : Type := string -> string.

Record t : Type := mk {
  english_separator : pyval;
  metric : bool;
  transl : option translator;
  num_increments : Z;
  increments_per_inch : pynum
}.

(** The class attribute [Units.quant], shared by every instance. *)
Definition quant_class_default : PyDecimal.t := PyDecimal.mk false 1 (-2).

(** [Units(english_separator, metric, num_increments, transl)]; the
    second component is the class attribute [Units.quant] as the
    constructor leaves it. *)
Definition init (english_separator : pyval) (metric : bool)
    (num_increments : option Z) (transl : option translator)
    : result (t * PyDecimal.t) :=
  let num_increments :=
    match num_increments with
    | None => if metric then 1 else 32
    | Some n => n
    end in
  if metric then
    ipi <- PyNum.mul (NFloat PyFloat.mm_per_inch) (NInt num_increments) ;;
    Ok (mk english_separator metric transl num_increments ipi,
        PyDecimal.mk false 1 (-2))
  else
    Ok (mk english_separator metric transl num_increments
           (NInt num_increments),
        PyDecimal.mk false 1 (-3)).

(** A call of the constructor: [english_separator] has no default, the
    other parameters have. *)
Definition call (english_separator : option pyval) (metric : option bool)
    (num_increments : option Z) (transl : option translator)
    : result (t * PyDecimal.t) :=
  match english_separator with
  | None => Raise TypeError
  | Some sep =>
      init sep (match metric with Some m => m | None => false end)
           num_increments transl
  end.

(** [float(increments) / self.increments_per_inch] *)
Definition increments_to_inches (self : t) (increments : pynum)
    : result spec_float :=
  x <- PyNum.to_float increments ;;
  PyNum.div (NFloat x) (increments_per_inch self).

(** [float(increments) / self.num_increments] *)
Definition increments_to_length (self : t) (increments : pynum)
    : result spec_float :=
  x <- PyNum.to_float increments ;;
  PyNum.div (NFloat x) (NInt (num_increments self)).

(** [my_round(self.increments_per_inch * inches)] *)
Definition inches_to_increments (self : t) (inches : pynum) : result Z :=
  i <- PyNum.mul (increments_per_inch self) inches ;;
  my_round i.

(** [self.transl.tr(s)] *)
Definition tr (self : t) (s : string) : result string :=
  match transl self with
  | None => Raise AttributeError
  | Some f => Ok (f s)
  end.

Definition units_string (self : t) (verbose withParens : bool)
    : result string :=
  let form := fun s => if withParens then " (" ++ s ++ ")" else " " ++ s in
  if metric self then
    if verbose then s <- tr self "millimeters" ;; Ok (form s)
    else s <- tr self "mm" ;; Ok (form s)
  else
    if verbose then s <- tr self "inches" ;; Ok (form s)
    else if withParens then s <- tr self "in." ;; Ok (form s)
    else Ok (String (ascii_of_nat 34) "").

(** [Decimal(increments)]: exact for an [int] and for a finite
    [float]; [None] stands for an infinity or a NaN. *)
Definition decimal_of (n : pynum) : option (bool * Z * Z) :=
  match n with
  | NInt z => Some (z <? 0, Z.abs z, 1)
  | NFloat f =>
      match PyFloat.magnitude f with
      | Some (a, d) => Some (PyFloat.sign_bit f, a, d)
      | None => None
      end
  end.

Definition allow_denoms : list Z := [1; 2; 4; 8; 16; 32; 64].

Definition is_float (n : pynum) : bool :=
  match n with NFloat _ => true | NInt _ => false end.

(** [quant] is the value of [Units.quant] at the time of the call. *)
Definition increments_to_string (quant : PyDecimal.t) (self : t)
    (increments : pynum) (with_units : bool) : result string :=
  r <- (if metric self then
          match decimal_of increments with
          | Some (s, a, d) =>
              let n := num_increments self in
              q <- PyDecimal.div_quantize (xorb s (n <? 0)) a d (Z.abs n) 1
                     quant ;;
              f <- PyDecimal.to_float q ;;
              Ok (PyFmt.fmt_g f)
          | None =>
              match increments with
              | NFloat S754_nan => Ok "nan"
              | _ => Raise DecimalInvalidOperation
              end
          end
        else
          '(numer, denom) <-
            (if is_float increments then
               let precision := 100 in
               x <- PyNum.mul (NInt precision) increments ;;
               numer <- PyNum.to_int x ;;
               denom <- PyNum.mul (NInt precision) (increments_per_inch self) ;;
               Ok (numer, denom)
             else
               numer <- PyNum.to_int increments ;;
               Ok (numer, increments_per_inch self)) ;;
          let frac := My_Fraction.init (english_separator self) 0 numer
                        (Some denom) in
          frac <- My_Fraction.reduce frac ;;
          if negb (PyNum.eq_int (My_Fraction.numerator frac) 0)
             && negb (match My_Fraction.denominator frac with
                      | Some d => PyNum.mem_ints d allow_denoms
                      | None => false
                      end)
          then
            n <- PyFloat.of_Z (num_increments self) ;;
            x <- PyNum.div increments (NFloat n) ;;
            Ok (PyFmt.fmt_3f x)
          else
            '(r, _) <- My_Fraction.to_string frac ;; Ok r) ;;
  if with_units then u <- units_string self false false ;; Ok (r ++ u)
  else Ok r.

Definition length_to_increments (self : t) (v : pynum) (as_integer : bool)
    : result pynum :=
  i <- PyNum.mul v (NInt (num_increments self)) ;;
  if as_integer then z <- my_round i ;; Ok (NInt z) else Ok i.

Definition string_to_float (self : t) (s : string) : result pynum :=
  let f := My_Fraction.init (english_separator self) 0 0 None in
  f <- My_Fraction.set_from_string f s ;;
  let r := NInt (My_Fraction.whole f) in
  if PyNum.gt0 (My_Fraction.numerator f) then
    x <- PyNum.to_float (My_Fraction.numerator f) ;;
    match My_Fraction.denominator f with
    | None => Raise TypeError
    | Some d => q <- PyNum.div (NFloat x) d ;; PyNum.add r (NFloat q)
    end
  else Ok r.

Definition string_to_increments (self : t) (s : string) (as_integer : bool)
    : result pynum :=
  v <- string_to_float self s ;;
  length_to_increments self v as_integer.

(** [float(a)] for an object that is not a [str]; a [bool] is an
    [int]. *)
Definition float_of (a : pyval) : result spec_float :=
  match a with
  | PNum n => PyNum.to_float n
  | PBool b => PyNum.to_float (NInt (if b then 1 else 0))
  | _ => Raise TypeError
  end.

Definition abstract_to_float (self : t) (a : pyval) : result pynum :=
  match a with
  | PStr s => string_to_float self s
  | _ => x <- float_of a ;; Ok (NFloat x)
  end.

Definition abstract_to_increments (self : t) (a : pyval) (as_integer : bool)
    : result pynum :=
  match a with
  | PStr s => string_to_increments self s as_integer
  | _ => x <- float_of a ;; length_to_increments self (NFloat x) as_integer
  end.

End Units.

(* ================================================================= *)
(** ** [class Margins] *)

Module Margins.

Record t : Type := mk { sep : Z; left : Z; right : Z; bottom : Z; top : Z }.

(** [Margins(default, sep, left, right, bottom, top)]; [None] is an
    argument left out. *)
Definition init (default : Z) (sep left right bottom top : option Z) : t :=
  {| sep := match sep with None => default | Some _ => default end;
     left := match left with None => default | Some v => v end;
     right := match right with None => default | Some v => v end;
     bottom := match bottom with None => default | Some v => v end;
     top := match top with None => default | Some v => v end |}.

End Margins.

(* ================================================================= *)
(** ** [get_file_index] *)

(** [os.path] on POSIX systems. *)
Module PosixPath.

(** [os.path.join(a, b)] *)
Definition join (a b : string) : string :=
  if PyStr.starts_with "/" b then b
  else if PyStr.is_empty a || PyStr.ends_with "/" a then a ++ b
  else a ++ "/" ++ b.

(** [os.path.basename(p)]: [p[p.rfind('/') + 1:]] *)
Definition basename (p : string) : string :=
  PyStr.drop (Z.to_nat (PyStr.rfind "/" p + 1)) p.

End PosixPath.

(** The part of a listed file's name [get_file_index] reads as a
    number: the base name without its last [len(suffix) + 1] characters
    and without its first [len(prefix)] ones. *)
Definition index_text (prefix suffix f : string) : string :=
  let npre := String.length prefix in
  let npost := (String.length suffix + 1)%nat in
  let name := PosixPath.basename f in
  let name := PyStr.drop_last npost name in
  PyStr.drop npre name.

(** Lines 351-358, the body of the loop over the listed files: a name
    [int] rejects is passed over. *)
Definition next_index (prefix suffix : string) (index : Z) (f : string) : Z :=
  match PyStr.to_Z (index_text prefix suffix f) with
  | Ok i => if index <? i then i else index
  | Raise _ => index
  end.

(** [get_file_index(path, prefix, suffix)]; [glob] is the answer of the
    file system to [glob.glob]. *)
Definition get_file_index (glob : string -> result (list string))
    (path prefix suffix : string) : result Z :=
  let index := -1 in
  let globber := PosixPath.join path (prefix ++ "*." ++ suffix) in
  files <- glob globber ;;
  let index := fold_left (next_index prefix suffix) files index in
  Ok (index + 1).

(* ================================================================= *)
(** ** [set_slider_tick_interval] *)

(** A [QSlider]: the range it was given and its tick interval. *)
Module QSlider.

Record t : Type := mk { minimum : Z; maximum : Z; tickInterval : Z }.

(** [self.setTickInterval(ti)]: a negative interval is stored as 0. *)
Definition setTickInterval (self : t) (ti : Z) : t :=
  mk (minimum self) (maximum self) (Z.max 0 ti).

End QSlider.

Definition set_slider_tick_interval (slider : QSlider.t) : QSlider.t :=
  let minval := QSlider.minimum slider in
  let maxval := QSlider.maximum slider in
  let maxtics := 30 in
  let diff := maxval - minval in
  if maxtics <? diff then QSlider.setTickInterval slider (diff / maxtics)
  else QSlider.setTickInterval slider 1.

(* ================================================================= *)
(** ** Python lists *)

Module PyList.

(** [l[i]] with Python's negative indices. *)
Definition index {A : Type} (l : list A) (i : Z) : result A :=
  let n := Z.of_nat (List.length l) in
  let j := if i <? 0 then n + i else i in
  if (j <? 0) || (n <=? j) then Raise IndexError
  else match nth_error l (Z.to_nat j) with
       | Some a => Ok a
       | None => Raise IndexError
       end.

(** [l[i] = a] for [0 <= i < len(l)], as a new list. *)
Fixpoint set {A : Type} (l : list A) (i : nat) (a : A) : list A :=
  match l, i with
  | [], _ => []
  | _ :: r, O => a :: r
  | x :: r, S k => x :: set r k a
  end.

End PyList.

(* ================================================================= *)
(** ** The report file *)

Inductive handle : Type := NotOpened | Opened | Closed.

(** The file system and the file object [fd].  [openable] tells which
    paths can be opened for writing; [budget] is the number of writes the
    device still accepts ([None]: no limit); [chunks] are the strings
    written through [fd] so far, in order. *)
Record world : Type := mk_world {
  openable : string -> bool;
  budget : option nat;
  fd : handle;
  chunks : list string
}.

(** State and exceptions: a raised exception leaves the state as it was
    at the point of the raise. *)
Definition io (A : Type) : Type := world -> world * result A.

Definition io_bind {A B : Type} (m : io A) (k : A -> io B) : io B :=
  fun w => match m w with
           | (w', Ok a) => k a w'
           | (w', Raise e) => (w', Raise e)
           end.

(** [fd = open(filename, 'w')] *)
Definition py_open (filename : string) : io unit :=
  fun w => if openable w filename
           then (mk_world (openable w) (budget w) Opened [], Ok tt)
           else (w, Raise IOError).

(** [fd.write(s)] *)
Definition fd_write (s : string) : io unit :=
  fun w => match budget w with
           | Some O => (w, Raise IOError)
           | Some (S k) =>
               (mk_world (openable w) (Some k) (fd w) (chunks w ++ [s])%list, Ok tt)
           | None =>
               (mk_world (openable w) None (fd w) (chunks w ++ [s])%list, Ok tt)
           end.

(** [fd.close()] *)
Definition fd_close : io unit :=
  fun w => (mk_world (openable w) (budget w) Closed (chunks w), Ok tt).

(* ================================================================= *)
(** ** Boards and cuts *)

(** Modelled from the spec: the classes [Cut], [Board] and [Router_Bit]
    of [router.py] are not among the sources; the fields below are the
    ones the spec lists and the code here reads. *)
Record Cut : Type := mk_Cut { passes : list Z }.

Record Board : Type := mk_Board {
  units : Units.t;
  width : Z;
  active : bool;
  top_cuts : list Cut;
  bottom_cuts : list Cut
}.

Record Router_Bit : Type := mk_Router_Bit {
  bit_units : Units.t;
  bit_width : pyval;
  bit_depth : pyval;
  bit_angle : pyval
}.

(* ================================================================= *)
(** ** [print_table] *)

Definition nl : string := String (ascii_of_nat 10) "".

(** [' %4s %9s ' % (a, b)] *)
Definition form (a b : string) : string :=
  " " ++ PyStr.rjust 4 a ++ " " ++ PyStr.rjust 9 b ++ " ".

Definition labels : list string := ["B"; "C"; "D"; "E"; "F"].

(** Lines 383-400: the cuts and the labels to be printed. *)
Definition load_cuts (boards : list Board)
    : result (list (list Cut) * list string) :=
  b0 <- PyList.index boards 0 ;;
  let all_cuts := [bottom_cuts b0] in
  let label_cuts := ["A"] in
  let i := 0 in
  b3 <- PyList.index boards 3 ;;
  '(all_cuts, label_cuts, i) <-
    (if active b3 then
       l0 <- PyList.index labels i ;;
       l1 <- PyList.index labels (i + 1) ;;
       Ok ((all_cuts ++ [top_cuts b3] ++ [bottom_cuts b3])%list,
           (label_cuts ++ [l0] ++ [l1])%list, i + 2)
     else Ok (all_cuts, label_cuts, i)) ;;
  b2 <- PyList.index boards 2 ;;
  '(all_cuts, label_cuts, i) <-
    (if active b2 then
       l0 <- PyList.index labels i ;;
       l1 <- PyList.index labels (i + 1) ;;
       Ok ((all_cuts ++ [top_cuts b2] ++ [bottom_cuts b2])%list,
           (label_cuts ++ [l0] ++ [l1])%list, i + 2)
     else Ok (all_cuts, label_cuts, i)) ;;
  b1 <- PyList.index boards 1 ;;
  l <- PyList.index labels i ;;
  Ok ((all_cuts ++ [top_cuts b1])%list, (label_cuts ++ [l])%list).

(** Lines 405-413: the header block. *)
Definition header (pass_lbl location_lbl : string) (label_cuts : list string)
    : string :=
  let line := fold_left (fun line _ => line ++ form pass_lbl location_lbl)
                        label_cuts "" in
  let lenh := String.length line in
  let divider := PyStr.repeat "-" lenh ++ nl in
  divider ++ line ++ nl ++ divider.

(** The three per-column counters of the print loop. *)
Record counters : Type := mk_counters {
  pass_index : list Z;
  cut_index : list Z;
  total_passes : list Z
}.

(** Lines 434-452: the body of the loop over the columns. *)
Definition column_body (quant : PyDecimal.t) (units : Units.t) (width : Z)
    (all_cuts : list (list Cut)) (label_cuts : list string)
    (st : counters * string * bool) (icol : nat)
    : result (counters * string * bool) :=
  let '(cn, line, printing) := st in
  let label := "**" in
  let dim := "**" in
  icut <- PyList.index (cut_index cn) (Z.of_nat icol) ;;
  '(cn, label, dim, printing) <-
    (if 0 <=? icut then
       cuts <- PyList.index all_cuts (Z.of_nat icol) ;;
       c <- PyList.index cuts icut ;;
       let np := Z.of_nat (List.length (passes c)) in
       pi <- PyList.index (pass_index cn) (Z.of_nat icol) ;;
       tp <- PyList.index (total_passes cn) (Z.of_nat icol) ;;
       let total := PyList.set (total_passes cn) icol (tp + 1) in
       lbl <- PyList.index label_cuts (Z.of_nat icol) ;;
       let label := PyStr.of_Z (tp + 1) ++ lbl in
       p <- PyList.index (passes c) (np - pi - 1) ;;
       dim <- Units.increments_to_string quant units (NInt (width - p)) false ;;
       let pidx := PyList.set (pass_index cn) icol (pi + 1) in
       let printing := true in
       if pi + 1 =? np then
         Ok (mk_counters (PyList.set pidx icol 0)
                         (PyList.set (cut_index cn) icol (icut - 1)) total,
             label, dim, printing)
       else Ok (mk_counters pidx (cut_index cn) total, label, dim, printing)
     else Ok (cn, label, dim, printing)) ;;
  Ok (cn, line ++ form label dim, printing).

(** [for icol in range(ncol)] *)
Fixpoint for_columns (body : counters * string * bool -> nat ->
                             result (counters * string * bool))
    (cols : list nat) (st : counters * string * bool)
    : result (counters * string * bool) :=
  match cols with
  | [] => Ok st
  | icol :: rest => st <- body st icol ;; for_columns body rest st
  end.

(** Lines 429-454: [while printing].  [None] when [fuel] iterations were
    not enough. *)
Fixpoint print_loop (fuel : nat) (quant : PyDecimal.t) (units : Units.t)
    (width : Z) (all_cuts : list (list Cut)) (label_cuts : list string)
    (ncol : nat) (cn : counters) (w : world)
    : option (world * result unit) :=
  match fuel with
  | O => None
  | S fuel =>
      match for_columns (column_body quant units width all_cuts label_cuts)
                        (seq 0 ncol) (cn, "", false) with
      | Raise e => Some (w, Raise e)
      | Ok (cn, line, printing) =>
          if printing then
            match fd_write (line ++ nl) w with
            | (w, Ok _) =>
                print_loop fuel quant units width all_cuts label_cuts ncol cn w
            | (w, Raise e) => Some (w, Raise e)
            end
          else Some (w, Ok tt)
      end
  end.

(** [print_table(filename, boards, title)]; [quant] is [Units.quant] at
    the time of the call. *)
Definition print_table (fuel : nat) (quant : PyDecimal.t)
    (filename : string) (boards : list Board) (title : string) (w : world)
    : option (world * result unit) :=
  match (b0 <- PyList.index boards 0 ;;
         '(all_cuts, label_cuts) <- load_cuts boards ;;
         pass_lbl <- Units.tr (units b0) "Pass" ;;
         location_lbl <- Units.tr (units b0) "Location" ;;
         Ok (b0, all_cuts, label_cuts,
             header pass_lbl location_lbl label_cuts)) with
  | Raise e => Some (w, Raise e)
  | Ok (b0, all_cuts, label_cuts, line) =>
      match io_bind (py_open filename) (fun _ =>
            io_bind (fd_write (title ++ nl)) (fun _ =>
            fd_write line)) w with
      | (w, Raise e) => Some (w, Raise e)
      | (w, Ok _) =>
          let ncol := List.length all_cuts in
          let width := width b0 in
          let units := units b0 in
          let pass_index := List.repeat 0 ncol in
          let cut_index :=
            fold_left (fun ci icol =>
                         PyList.set ci icol
                           (Z.of_nat (List.length (nth icol all_cuts [])) - 1))
                      (seq 0 ncol) (List.repeat 0 ncol) in
          let total_passes := List.repeat 0 ncol in
          match print_loop fuel quant units width all_cuts label_cuts ncol
                  (mk_counters pass_index cut_index total_passes) w with
          | None => None
          | Some (w, Raise e) => Some (w, Raise e)
          | Some (w, Ok _) => Some (fd_close w)
          end
      end
  end.

(* ================================================================= *)
(** ** [serialize.py] *)

Definition VERSION : string := "0.9.4".

Record Config : Type := mk_Config { debug : bool }.

(** Modelled from the spec: the modules [router] and [spacing] are not
    among the sources.  A spacing object exposes [description], [cuts],
    [params] and [set_cuts]; a board is built from a bit and a width.
    Every call into them may raise. *)
Class Collaborators (Spacing : Type) : Type := {
  new_Board : Router_Bit -> pyval -> result Board;
  Edit_Spaced : Router_Bit -> list Board -> Config -> result Spacing;
  Equally_Spaced : Router_Bit -> list Board -> Config -> result Spacing;
  Variable_Spaced : Router_Bit -> list Board -> Config -> result Spacing;
  description : Spacing -> string;
  cuts : Spacing -> pyval;
  params : Spacing -> pyval;
  set_params : Spacing -> pyval -> Spacing;
  set_cuts : Spacing -> option pyval -> result Spacing
}.

(** The pickled objects, in the order of their [dump]. *)
Definition stream : Type := list pyval.

(** [bool(v)] *)
Definition truthy (v : pyval) : bool :=
  match v with
  | PNone => false
  | PBool b => b
  | PNum (NInt z) => negb (z =? 0)
  | PNum (NFloat f) => negb (PyFloat.is_zero f)
  | PStr s => negb (PyStr.is_empty s)
  | PList l => match l with [] => false | _ :: _ => true end
  end.

(** [v == s] against a [str]. *)
Definition eq_str (v : pyval) (s : string) : bool :=
  match v with
  | PStr t => String.eqb t s
  | _ => false
  end.

(** Reading: the unread rest of the stream is the state. *)
Definition loader (A : Type) : Type := stream -> result (A * stream).

Definition load : loader pyval :=
  fun s => match s with
           | [] => Raise EOFError
           | v :: rest => Ok (v, rest)
           end.

Definition ld_ret {A : Type} (a : A) : loader A := fun s => Ok (a, s).

Definition ld_bind {A B : Type} (m : loader A) (k : A -> loader B)
    : loader B :=
  fun s => match m s with
           | Ok (a, s') => k a s'
           | Raise e => Raise e
           end.

Definition ld_lift {A : Type} (r : result A) : loader A :=
  fun s => match r with Ok a => Ok (a, s) | Raise e => Raise e end.

Notation "x <~ m ;; k" := (ld_bind m (fun x => k))
  (at level 61, m at next level, right associativity).

(** [for i in lrange(nb): boards.append(router.Board(bit, width))] *)
Fixpoint make_boards {Spacing : Type} `{Collaborators Spacing}
    (n : nat) (bit : Router_Bit) (width : pyval) : result (list Board) :=
  match n with
  | O => Ok []
  | S k =>
      b <- new_Board bit width ;;
      bs <- make_boards k bit width ;;
      Ok (b :: bs)
  end.

(** [lrange(nb)]: the number of its elements. *)
Definition lrange_len (nb : pyval) : result nat :=
  match nb with
  | PNum (NInt n) => Ok (Z.to_nat n)
  | PBool b => Ok (if b then 1%nat else 0%nat)
  | _ => Raise TypeError
  end.

Section Serialize.

Context {Spacing : Type} `{Collaborators Spacing}.

(** [serialize(bit, boards, sp, config)]; the text printed under
    [config.debug] goes to the standard output and is left out. *)
Definition serialize (bit : Router_Bit) (boards : list Board) (sp : Spacing)
    (config : Config) : result stream :=
  let out := [PStr VERSION] in
  let units := bit_units bit in
  let out := (out ++ [PBool (Units.metric units)])%list in
  let out := if negb (Units.metric units)
             then (out ++ [PNum (Units.increments_per_inch units)])%list
             else out in
  let out := (out ++ [bit_width bit; bit_depth bit; bit_angle bit])%list in
  let nb := Z.of_nat (List.length boards) in
  let out := (out ++ [PNum (NInt nb)])%list in
  b0 <- PyList.index boards 0 ;;
  let out := (out ++ [PNum (NInt (width b0))])%list in
  let sp_type := PyStr.take 4 (description sp) in
  let out := (out ++ [PStr sp_type])%list in
  if String.eqb sp_type "Edit" then Ok (out ++ [cuts sp])%list
  else Ok (out ++ [params sp])%list.

(** [unserialize(s, config)]; the class attribute [Units.quant] the
    constructor writes is not part of the returned tuple. *)
Definition unserialize (s : stream) (config : Config)
    : result (Router_Bit * list Board * Spacing * pyval) :=
  r <- (version <~ load ;;
        metric <~ load ;;
        units <~ (if truthy metric then
                    ld_lift ('(u, _) <- Units.call None (Some true) None None ;;
                             Ok u)
                  else
                    ipi <~ load ;;
                    ld_lift ('(u, _) <- Units.call (Some ipi) None None None ;;
                             Ok u)) ;;
        width <~ load ;;
        depth <~ load ;;
        angle <~ load ;;
        let bit := mk_Router_Bit units width depth angle in
        nb <~ load ;;
        width <~ load ;;
        n <~ ld_lift (lrange_len nb) ;;
        boards <~ ld_lift (make_boards n bit width) ;;
        sp_type <~ load ;;
        sp <~ (if eq_str sp_type "Edit" then
                 cuts <~ load ;;
                 sp <~ ld_lift (Edit_Spaced bit boards config) ;;
                 ld_lift (set_cuts sp (Some cuts))
               else
                 sp <~ (if eq_str sp_type "Equa"
                        then ld_lift (Equally_Spaced bit boards config)
                        else ld_lift (Variable_Spaced bit boards config)) ;;
                 params <~ load ;;
                 ld_lift (set_cuts (set_params sp params) None)) ;;
        ld_ret (bit, boards, sp, sp_type)) s ;;
  Ok (fst r).

End Serialize.

(* ================================================================= *)
(** ** Concrete designs used in the examples below *)

Module Sample.

(** A minimal implementation of the collaborators: a spacing object is
    its three attributes, and [set_cuts()] without argument takes the
    cuts from the parameter record. *)
Record spacing : Type := mk_spacing {
  sp_description : string;
  sp_cuts : pyval;
  sp_params : pyval
}.

#[global] Instance collaborators : Collaborators spacing := {
  new_Board bit w :=
    match w with
    | PNum (NInt z) => Ok (mk_Board (bit_units bit) z true [] [])
    | _ => Raise TypeError
    end;
  Edit_Spaced _ _ _ := Ok (mk_spacing "Edit spacing" (PList []) PNone);
  Equally_Spaced _ _ _ := Ok (mk_spacing "Equally spaced" (PList []) PNone);
  Variable_Spaced _ _ _ := Ok (mk_spacing "Variable spaced" (PList []) PNone);
  description := sp_description;
  cuts := sp_cuts;
  params := sp_params;
  set_params sp p := mk_spacing (sp_description sp) (sp_cuts sp) p;
  set_cuts sp c :=
    match c with
    | Some c => Ok (mk_spacing (sp_description sp) c (sp_params sp))
    | None => Ok (mk_spacing (sp_description sp) (sp_params sp) (sp_params sp))
    end
}.

Definition tr_id : Units.translator := fun s => s.

(** English units, 64 increments per inch; metric units, 8 per mm. *)
Definition english64 : Units.t :=
  Units.mk (PStr " ") false (Some tr_id) 64 (NInt 64).

Definition english32 : Units.t :=
  Units.mk (PStr " ") false (Some tr_id) 32 (NInt 32).

Definition metric8 : Units.t :=
  Units.mk (PStr " ") true (Some tr_id) 8
    (NFloat (S754_finite false 7149464408450662 (-45))).

Definition bit_of (u : Units.t) : Router_Bit :=
  mk_Router_Bit u (PNum (NInt 16)) (PNum (NInt 24)) (PNum (NInt 0)).

Definition board_of (u : Units.t) (t b : list Cut) : Board :=
  mk_Board u 256 true t b.

Definition equal_spacing : spacing :=
  mk_spacing "Equally spaced" (PList []) (PList [PNum (NInt 3)]).

Definition config : Config := mk_Config false.

(** The stream [serialize] writes for the 64-per-inch design. *)
Definition stream64 : stream :=
  [PStr "0.9.4"; PBool false; PNum (NInt 64);
   PNum (NInt 16); PNum (NInt 24); PNum (NInt 0);
   PNum (NInt 2); PNum (NInt 256); PStr "Equa"; PList [PNum (NInt 3)]].

(** A stream whose spacing tag is not one [serialize] writes. *)
Definition stream_unknown_tag : stream :=
  [PStr "0.9.4"; PBool false; PNum (NInt 32);
   PNum (NInt 16); PNum (NInt 24); PNum (NInt 0);
   PNum (NInt 2); PNum (NInt 256); PStr "Wild"; PList [PNum (NInt 3)]].

(** A bottom board with two cuts and a top board with one. *)
Definition boards : list Board :=
  [ board_of english32 [] [mk_Cut [1; 2]; mk_Cut [3]];
    board_of english32 [mk_Cut [10]] [];
    mk_Board english32 256 false [] [];
    mk_Board english32 256 false [] [] ].

(** The same joint with two caul boards, both active. *)
Definition boards_cauls : list Board :=
  [ board_of english32 [] [mk_Cut [1; 2]; mk_Cut [3]];
    board_of english32 [mk_Cut [10]] [];
    board_of english32 [mk_Cut [4]] [mk_Cut [5; 6]];
    board_of english32 [mk_Cut [7]] [mk_Cut [8]] ].

(** A bottom board whose last cut has no pass yet. *)
Definition boards_empty_cut : list Board :=
  [ board_of english32 [] [mk_Cut [1; 2]; mk_Cut []];
    board_of english32 [mk_Cut [10]] [];
    mk_Board english32 256 false [] [];
    mk_Board english32 256 false [] [] ].

Definition fresh_file : world := mk_world (fun _ => true) None NotOpened [].

(** The device accepts the title line and the header, then fails. *)
Definition full_disk : world :=
  mk_world (fun _ => true) (Some 2%nat) NotOpened [].

Definition quant3 : PyDecimal.t := PyDecimal.mk false 1 (-3).
Definition quant2 : PyDecimal.t := PyDecimal.mk false 1 (-2).

(** The printed location of pass [p] on a board 256 increments wide. *)
Definition loc32 (p : Z) : string :=
  match Units.increments_to_string quant3 english32 (NInt (256 - p)) false with
  | Ok s => s
  | Raise _ => ""
  end.

(** [My_Fraction(' ', -1, 1, 2)] *)
Definition minus_one_and_a_half : My_Fraction.t :=
  My_Fraction.init (PStr " ") (-1) 1 (Some (NInt 2)).

(** [My_Fraction(' ', 0, 2**53 + 1, 2**54 + 1)] *)
Definition big_fraction : My_Fraction.t :=
  My_Fraction.init (PStr " ") 0 (2 ^ 53 + 1) (Some (NInt (2 ^ 54 + 1))).

End Sample.

(* ================================================================= *)
(** ** The table a report should hold *)

(** The passes of a column in the order the report lists them: the cuts
    from the last to the first, and in each cut the passes from the last
    to the first. *)
Definition order (cs : list Cut) : list Z := List.rev (List.concat (map passes cs)).

Definition pass_count (cs : list Cut) : nat :=
  List.length (List.concat (map passes cs)).

(** The two cells of column [lbl] in row [j] (from 0); [loc p] is the
    printed location of pass [p]. *)
Definition cell (loc : Z -> string) (lbl : string) (ord : list Z) (j : nat)
    : string :=
  match nth_error ord j with
  | Some p => form (PyStr.of_Z (Z.of_nat j + 1) ++ lbl) (loc p)
  | None => form "**" "**"
  end.

Definition table_row (loc : Z -> string) (label_cuts : list string)
    (all_cuts : list (list Cut)) (j : nat) : string :=
  fold_left (fun line col => line ++ cell loc (fst col) (order (snd col)) j)
            (combine label_cuts all_cuts) "".

Definition row_count (all_cuts : list (list Cut)) : nat :=
  fold_right Nat.max 0%nat (map pass_count all_cuts).

Definition table_rows (loc : Z -> string) (label_cuts : list string)
    (all_cuts : list (list Cut)) : list string :=
  map (fun j => table_row loc label_cuts all_cuts j ++ nl)
      (seq 0 (row_count all_cuts)).

(** What the counters [cut_index = ci] and [pass_index = pi] of a column
    leave to be listed. *)
Definition remaining (cs : list Cut) (ci pi : Z) : list Z :=
  if ci <? 0 then []
  else match nth_error cs (Z.to_nat ci) with
       | Some c =>
           (List.rev (firstn (List.length (passes c) - Z.to_nat pi) (passes c))
            ++ order (firstn (Z.to_nat ci) cs))%list
       | None => []
       end.

Definition valid_cursor (cs : list Cut) (ci pi : Z) : Prop :=
  (ci = -1 /\ pi = 0)
  \/ (0 <= ci
      /\ exists c, nth_error cs (Z.to_nat ci) = Some c
                   /\ 0 <= pi < Z.of_nat (List.length (passes c))).

(** The counters of column [i] after [j] rows. *)
Definition col_inv (all_cuts : list (list Cut)) (cn : counters) (i j : nat)
    : Prop :=
  let cs := nth i all_cuts [] in
  exists ci pi,
    nth_error (cut_index cn) i = Some ci
    /\ nth_error (pass_index cn) i = Some pi
    /\ nth_error (total_passes cn) i
       = Some (Z.of_nat (Nat.min j (List.length (order cs))))
    /\ valid_cursor cs ci pi
    /\ remaining cs ci pi = skipn j (order cs).

(* ================================================================= *)
(** ** The printed form of a length and its reading *)

(** Every character of [s] satisfies [p]. *)
Fixpoint all_chars (p : ascii -> bool) (s : string) : bool :=
  match s with
  | EmptyString => true
  | String c r => p c && all_chars p r
  end.

Definition lacks (c : ascii) (s : string) : bool :=
  all_chars (fun d => negb (Ascii.eqb d c)) s.

(** Separators the fractional form can be read back with: not empty,
    not starting with a digit or with '/', and without a '.'. *)
Definition good_separator (sep : string) : bool :=
  match sep with
  | EmptyString => false
  | String c _ =>
      negb (PyStr.is_digit c) && negb (Ascii.eqb c "/") && lacks "." sep
  end.

(** The text of [w + a/b] for [0 <= w], [0 <= a], as [to_string] lays
    it out. *)
Definition text (sep : string) (w a b : Z) : string :=
  if a =? 0 then PyStr.of_Z w
  else if w =? 0 then PyStr.of_Z a ++ "/" ++ PyStr.of_Z b
  else (PyStr.of_Z w ++ sep) ++ PyStr.of_Z a ++ "/" ++ PyStr.of_Z b.

(** [v / n] as whole part, numerator and denominator in lowest terms. *)
Definition shape (n v : Z) : Z * Z * Z :=
  let g := Z.gcd (v mod n) n in
  (v / n, (v mod n) / g, n / g).

Definition with_separator (sep : pyval) (f : My_Fraction.t) : My_Fraction.t :=
  My_Fraction.mk (My_Fraction.sign f) (My_Fraction.whole f)
    (My_Fraction.numerator f) (My_Fraction.denominator f) sep.

(** What [string_to_increments] does with the fields [set_from_string]
    has filled in. *)
Definition finish (num_increments whole : Z) (numerator : pynum)
    (denominator : option pynum) (as_integer : bool) : result pynum :=
  v <- (let r := NInt whole in
        if PyNum.gt0 numerator then
          x <- PyNum.to_float numerator ;;
          match denominator with
          | None => Raise TypeError
          | Some d => q <- PyNum.div (NFloat x) d ;; PyNum.add r (NFloat q)
          end
        else Ok r) ;;
  i <- PyNum.mul v (NInt num_increments) ;;
  if as_integer then z <- my_round i ;; Ok (NInt z) else Ok i.

Definition result_Z_eqb (r : result Z) (z : Z) : bool :=
  match r with Ok x => x =? z | Raise _ => false end.

(** The separator-free part of the round trip of [v] increments at [n]
    per inch: [reduce] leaves the fields of [shape n v], the fraction is
    printed, and the fields read back give [v]. *)
Definition round_trip_check (n v : Z) : bool :=
  let '(w, a, b) := shape n v in
  match My_Fraction.reduce (My_Fraction.init PNone 0 v (Some (NInt n))) with
  | Ok f1 =>
      negb (negb (PyNum.eq_int (My_Fraction.numerator f1) 0)
            && negb (match My_Fraction.denominator f1 with
                     | Some d => PyNum.mem_ints d Units.allow_denoms
                     | None => false
                     end))
      && match My_Fraction.reduce f1 with
         | Ok f2 =>
             (My_Fraction.sign f2 =? 1)
             && (My_Fraction.whole f2 =? w)
             && Bool.eqb (PyNum.eq_int (My_Fraction.numerator f2) 0) (a =? 0)
             && result_Z_eqb (PyNum.to_int (My_Fraction.numerator f2)) a
             && ((a =? 0)
                 || match My_Fraction.denominator f2 with
                    | Some d => result_Z_eqb (PyNum.to_int d) b
                    | None => false
                    end)
         | Raise _ => false
         end
      && match finish n w (NInt a) (Some (NInt (if a =? 0 then 1 else b)))
                 true with
         | Ok (NInt z) => z =? v
         | _ => false
         end
      && (0 <=? w) && (0 <=? a) && (0 <? b)
  | Raise _ => false
  end.

Definition reduces_to_allowed (n v : Z) : bool :=
  existsb (Z.eqb (n / Z.gcd v n)) Units.allow_denoms.

Definition round_trip_domain : list Z :=
  map Z.of_nat (seq 0 (Z.to_nat 10001)).

(* ================================================================= *)
(** ** Integers as binary64 values *)

(** The binary64 value of an integer [z] with [0 < |z| < 2^53]: the
    53-bit mantissa and its exponent. *)
Definition exact_float (z : Z) : spec_float :=
  let d := Zdigits2 (Z.abs z) in
  S754_finite (z <? 0) (Z.to_pos (Z.abs z * 2 ^ (53 - d))) (d - 53).

(* ================================================================= *)
(** ** Reference notions for the properties below *)

(** The number of occurrences of [c] in [s]. *)
Fixpoint count (c : ascii) (s : string) : nat :=
  match s with
  | EmptyString => 0
  | String d r => ((if Ascii.eqb d c then 1 else 0) + count c r)%nat
  end.

(** A finite [Decimal] rounded to the nearest integer, a tie going away
    from zero. *)
Definition round_half_away (d : PyDecimal.t) : Z :=
  let c := PyDecimal.dcoef d in
  let e := PyDecimal.dexp d in
  let a := if 0 <=? e then c * 10 ^ e
           else (2 * c + 10 ^ (- e)) / (2 * 10 ^ (- e)) in
  if PyDecimal.dneg d then - a else a.

(** Units with [n] increments per unit length, a space as separator and
    no translator. *)
Definition plain_units (m : bool) (n : Z) : Units.t :=
  match Units.init (PStr " ") m (Some n) None with
  | Ok (u, _) => u
  | Raise _ => Units.mk (PStr " ") m None n (NInt n)
  end.

(** [v] increments are given back by [inches_to_increments] after
    [increments_to_inches]. *)
Definition inches_check (u : Units.t) (v : Z) : bool :=
  match Units.increments_to_inches u (NInt v) with
  | Ok x => result_Z_eqb (Units.inches_to_increments u (NFloat x)) v
  | Raise _ => false
  end.

(** [v] increments are given back by [length_to_increments] after
    [increments_to_length]. *)
Definition length_check (u : Units.t) (v : Z) : bool :=
  match Units.increments_to_length u (NInt v) with
  | Ok x =>
      match Units.length_to_increments u (NFloat x) true with
      | Ok (NInt z) => z =? v
      | _ => false
      end
  | Raise _ => false
  end.

(** The unit systems the conversions are checked for: English with 32,
    64 and 96 increments per inch, metric with one increment per mm. *)
Definition conversion_units : list (bool * Z) :=
  [(false, 32); (false, 64); (false, 96); (true, 1)].

(** A printed length the separator plays no part in reading: it holds
    a decimal point, or digits only. *)
Definition separator_free (s : string) : bool :=
  negb (lacks "." s)
  || (all_chars PyStr.is_digit s && negb (PyStr.is_empty s)).

(** The printed form of [v] increments in metric units, with the
    quantum 0.01 a metric constructor leaves, is separator free and is
    read back as [v]. *)
Definition metric_round_trip_check (n v : Z) : bool :=
  match Units.increments_to_string (PyDecimal.mk false 1 (-2))
          (plain_units true n) (NInt v) false with
  | Ok s =>
      separator_free s
      && match Units.string_to_increments (plain_units true n) s true with
         | Ok (NInt z) => z =? v
         | _ => false
         end
  | Raise _ => false
  end.

(** Increments per mm the metric round trip is checked for. *)
Definition metric_units : list Z := [1; 8].

(** The files of a directory [out], as [glob] lists them. *)
Definition listed_files : list string :=
  ["out/joint3.png"; "out/joint12.png"; "out/jointx.png"].

(* ================================================================= *)
(** * Properties *)

(** ** Margins *)

(** C10: whatever [sep] argument a call of the [Margins] constructor
    gives, the [sep] field is the default; each of [left], [right],
    [bottom], [top] is its argument when given and the default
    otherwise. *)
Theorem Margins_init_fields (default : Z) (sep left right bottom top : option Z) :
  let m := Margins.init default sep left right bottom top in
  Margins.sep m = default
  /\ Margins.left m = match left with Some v => v | None => default end
  /\ Margins.right m = match right with Some v => v | None => default end
  /\ Margins.bottom m = match bottom with Some v => v | None => default end
  /\ Margins.top m = match top with Some v => v | None => default end.
Proof.
  cbn. repeat split. destruct sep; reflexivity.
Qed.

(** ** Auxiliary facts on strings and lists *)

Lemma append_assoc (a b c : string) : (a ++ b) ++ c = a ++ (b ++ c).
Proof. induction a as [| x a IH]; cbn; [reflexivity | now rewrite IH]. Qed.

Lemma append_nil_r (a : string) : a ++ "" = a.
Proof. induction a as [| x a IH]; cbn; [reflexivity | now rewrite IH]. Qed.

Lemma index_nth_Z {A : Type} (l : list A) (z : Z) (a : A) :
  0 <= z -> nth_error l (Z.to_nat z) = Some a -> PyList.index l z = Ok a.
Proof.
  intros Hz Hn. unfold PyList.index.
  assert (Hlt : (Z.to_nat z < List.length l)%nat)
    by (apply nth_error_Some; congruence).
  destruct (Z.ltb_spec z 0); [lia |].
  destruct (Z.ltb_spec z 0); [lia |].
  destruct (Z.leb_spec (Z.of_nat (List.length l)) z); [lia |].
  cbn. now rewrite Hn.
Qed.

Lemma index_nth {A : Type} (l : list A) (i : nat) (a : A) :
  nth_error l i = Some a -> PyList.index l (Z.of_nat i) = Ok a.
Proof.
  intros Hn. apply index_nth_Z; [lia |]. now rewrite Nat2Z.id.
Qed.

Lemma set_length {A : Type} (l : list A) (i : nat) (a : A) :
  List.length (PyList.set l i a) = List.length l.
Proof.
  revert i. induction l as [| x l IH]; intros [| i]; cbn; auto.
Qed.

Lemma nth_set_same {A : Type} (l : list A) (i : nat) (a : A) :
  (i < List.length l)%nat -> nth_error (PyList.set l i a) i = Some a.
Proof.
  revert i. induction l as [| x l IH]; intros [| i]; cbn; intros Hi;
    try lia; auto. apply IH. lia.
Qed.

Lemma nth_set_other {A : Type} (l : list A) (i k : nat) (a : A) :
  k <> i -> nth_error (PyList.set l i a) k = nth_error l k.
Proof.
  revert i k. induction l as [| x l IH]; intros [| i] [| k]; cbn; intros Hk;
    try congruence; auto.
Qed.

Lemma skipn_cons_nth {A : Type} (l : list A) (j : nat) (p : A) (r : list A) :
  skipn j l = p :: r ->
  nth_error l j = Some p /\ skipn (S j) l = r /\ (j < List.length l)%nat.
Proof.
  revert j. induction l as [| x l IH]; intros [| j]; cbn; try discriminate.
  - intros E. injection E as -> ->. repeat split. cbn [List.length]. lia.
  - intros E. destruct (IH _ E) as (H1 & H2 & H3). repeat split; auto. cbn [List.length]. lia.
Qed.

Lemma skipn_nil_nth {A : Type} (l : list A) (j : nat) :
  skipn j l = [] ->
  nth_error l j = None /\ skipn (S j) l = [] /\ (List.length l <= j)%nat.
Proof.
  intros E.
  assert (Hlen : (List.length l <= j)%nat).
  { pose proof (length_skipn j l) as H. rewrite E in H. cbn in H. lia. }
  repeat split; [now apply nth_error_None | | exact Hlen].
  apply skipn_all2. lia.
Qed.

(** ** Digit strings, searching and splitting *)

Lemma all_chars_app (p : ascii -> bool) (a b : string) :
  all_chars p (a ++ b) = all_chars p a && all_chars p b.
Proof.
  induction a as [| c a IH]; cbn; [reflexivity |].
  now rewrite IH, andb_assoc.
Qed.

Lemma all_chars_impl (p q : ascii -> bool) (s : string) :
  (forall c, p c = true -> q c = true) ->
  all_chars p s = true -> all_chars q s = true.
Proof.
  intros Hpq. induction s as [| c s IH]; cbn; [reflexivity |].
  intros H. apply andb_true_iff in H as [Hc Hs].
  now rewrite (Hpq _ Hc), IH.
Qed.

Lemma digit_facts (c : ascii) :
  PyStr.is_digit c = true ->
  PyStr.is_space c = false
  /\ Ascii.eqb c "/" = false /\ Ascii.eqb c "." = false
  /\ Ascii.eqb c "_" = false /\ Ascii.eqb c "-" = false
  /\ Ascii.eqb c "+" = false.
Proof.
  destruct c as [[] [] [] [] [] [] [] []]; vm_compute; intros H;
    first [discriminate H | repeat split].
Qed.

Lemma digits_lack (c : ascii) (s : string) :
  PyStr.is_digit c = false ->
  all_chars PyStr.is_digit s = true -> lacks c s = true.
Proof.
  intros Hc. apply all_chars_impl. intros d Hd.
  destruct (Ascii.eqb_spec d c) as [-> | _]; [congruence | reflexivity].
Qed.

Lemma digits_of_uint (d : uint) :
  all_chars PyStr.is_digit (NilEmpty.string_of_uint d) = true.
Proof. induction d; cbn; auto. Qed.

Lemma of_Z_nonneg (z : Z) :
  0 <= z ->
  exists d, d <> Nil /\ PyStr.of_Z z = NilEmpty.string_of_uint d
            /\ Z.of_uint d = z.
Proof.
  intros Hz. destruct z as [| p | p]; [| | lia].
  - exists (D0 Nil). repeat split. discriminate.
  - exists (Pos.to_uint p). split; [apply Unsigned.to_uint_nonnil |]. split.
    + unfold PyStr.of_Z. cbn.
      pose proof (Unsigned.to_uint_nonnil p) as Hn.
      destruct (Pos.to_uint p); [congruence | reflexivity ..].
    + unfold Z.of_uint. now rewrite DecimalPos.Unsigned.of_to.
Qed.

Lemma of_Z_digits (z : Z) :
  0 <= z ->
  all_chars PyStr.is_digit (PyStr.of_Z z) = true /\ PyStr.of_Z z <> "".
Proof.
  intros Hz. destruct (of_Z_nonneg z Hz) as (d & Hd & -> & _). split.
  - apply digits_of_uint.
  - destruct d; cbn; congruence.
Qed.

Lemma lstrip_nonspace (s : string) :
  all_chars (fun c => negb (PyStr.is_space c)) s = true -> PyStr.lstrip s = s.
Proof.
  destruct s as [| c s]; cbn; [reflexivity |].
  intros H. apply andb_true_iff in H as [Hc _].
  now destruct (PyStr.is_space c).
Qed.

Lemma rstrip_nonspace (s : string) :
  all_chars (fun c => negb (PyStr.is_space c)) s = true -> PyStr.rstrip s = s.
Proof.
  induction s as [| c s IH]; cbn; [reflexivity |].
  intros H. apply andb_true_iff in H as [Hc Hs].
  rewrite (IH Hs). now destruct (PyStr.is_space c).
Qed.

Lemma int_space_space (c : ascii) :
  PyStr.is_int_space c = true -> PyStr.is_space c = true.
Proof.
  destruct c as [[] [] [] [] [] [] [] []]; vm_compute; intros H;
    first [reflexivity | discriminate H].
Qed.

Lemma int_lstrip_nonspace (s : string) :
  all_chars (fun c => negb (PyStr.is_space c)) s = true ->
  PyStr.int_lstrip s = s.
Proof.
  destruct s as [| c s]; cbn; [reflexivity |].
  intros H. apply andb_true_iff in H as [Hc _].
  destruct (PyStr.is_int_space c) eqn:E; [| reflexivity].
  now rewrite (int_space_space c E) in Hc.
Qed.

Lemma int_rstrip_nonspace (s : string) :
  all_chars (fun c => negb (PyStr.is_space c)) s = true ->
  PyStr.int_rstrip s = s.
Proof.
  induction s as [| c s IH]; cbn; [reflexivity |].
  intros H. apply andb_true_iff in H as [Hc Hs].
  rewrite (IH Hs). destruct (PyStr.is_int_space c) eqn:E; [| reflexivity].
  now rewrite (int_space_space c E) in Hc.
Qed.

Lemma digits_nonspace (s : string) :
  all_chars PyStr.is_digit s = true ->
  all_chars (fun c => negb (PyStr.is_space c)) s = true.
Proof.
  apply all_chars_impl. intros c Hc.
  now destruct (digit_facts c Hc) as (-> & _).
Qed.

Lemma digits_body_digits (s : string) (after : bool) :
  all_chars PyStr.is_digit s = true ->
  s <> "" \/ after = true ->
  PyStr.digits_body s after = Some s.
Proof.
  revert after. induction s as [| c s IH]; intros after Hs Hne.
  - destruct Hne as [Hne | ->]; [congruence | reflexivity].
  - cbn in *. apply andb_true_iff in Hs as [Hc Hs]. rewrite Hc.
    now rewrite (IH true Hs) by now right.
Qed.

Lemma to_Z_of_Z (z : Z) : 0 <= z -> PyStr.to_Z (PyStr.of_Z z) = Ok z.
Proof.
  intros Hz. destruct (of_Z_digits z Hz) as [Hd Hne].
  destruct (of_Z_nonneg z Hz) as (d & Hdn & Hs & Hv).
  unfold PyStr.to_Z.
  rewrite int_lstrip_nonspace, int_rstrip_nonspace
    by now apply digits_nonspace.
  assert (Hu : PyStr.unsigned_of_string (PyStr.of_Z z) = Ok z).
  { unfold PyStr.unsigned_of_string.
    rewrite digits_body_digits by (auto; now left).
    now rewrite Hs, NilEmpty.usu, Hv. }
  destruct (PyStr.of_Z z) as [| c r] eqn:E; [congruence |].
  cbn in Hd. apply andb_true_iff in Hd as [Hc _].
  destruct (digit_facts c Hc) as (_ & _ & _ & _ & Hm & Hp).
  destruct c as [[] [] [] [] [] [] [] []]; try exact Hu; discriminate.
Qed.

Lemma find_lacks (c : ascii) (s : string) (i : Z) :
  lacks c s = true -> PyStr.find_from c s i = -1.
Proof.
  revert i. induction s as [| d s IH]; intros i; cbn; [reflexivity |].
  intros H. apply andb_true_iff in H as [Hd Hs].
  destruct (Ascii.eqb d c); [discriminate | now apply IH].
Qed.

Lemma prefix_app (a b : string) : String.prefix a (a ++ b) = true.
Proof.
  induction a as [| c a IH]; cbn; [now destruct b |].
  now destruct (ascii_dec c c).
Qed.

Lemma drop_app (a b : string) : PyStr.drop (String.length a) (a ++ b) = b.
Proof. induction a as [| c a IH]; cbn; auto. Qed.

Lemma replace_first_absent (c : ascii) (r new s : string) :
  lacks c s = true -> PyStr.replace_first (String c r) new s = s.
Proof.
  induction s as [| d s IH]; cbn; [reflexivity |].
  intros H. apply andb_true_iff in H as [Hd Hs].
  destruct (ascii_dec c d) as [-> | _].
  - now rewrite Ascii.eqb_refl in Hd.
  - now rewrite IH.
Qed.

Lemma replace_first_at (c : ascii) (r new a b : string) :
  lacks c a = true ->
  PyStr.replace_first (String c r) new (a ++ String c r ++ b) = a ++ new ++ b.
Proof.
  induction a as [| d a IH]; intros Ha.
  - change ("" ++ String c r ++ b) with (String c (r ++ b)).
    cbn [PyStr.replace_first String.prefix].
    destruct (ascii_dec c c) as [_ | Hn]; [| congruence].
    rewrite prefix_app. cbn [String.length PyStr.drop String.append].
    now rewrite drop_app.
  - cbn in Ha. apply andb_true_iff in Ha as [Hd Ha].
    change ((String d a) ++ String c r ++ b)
      with (String d (a ++ String c r ++ b)).
    cbn [PyStr.replace_first String.prefix].
    destruct (ascii_dec c d) as [-> | _].
    + now rewrite Ascii.eqb_refl in Hd.
    + rewrite (IH Ha). reflexivity.
Qed.

Lemma split_lacks (c : ascii) (s : string) :
  lacks c s = true -> PyStr.split c s = [s].
Proof.
  induction s as [| d s IH]; cbn; [reflexivity |].
  intros H. apply andb_true_iff in H as [Hd Hs].
  destruct (Ascii.eqb d c); [discriminate |]. now rewrite (IH Hs).
Qed.

Lemma split_at (c : ascii) (a b : string) :
  lacks c a = true -> lacks c b = true ->
  PyStr.split c (a ++ String c b) = [a; b].
Proof.
  intros Ha Hb. induction a as [| d a IH].
  - cbn. rewrite Ascii.eqb_refl. now rewrite (split_lacks c b Hb).
  - cbn in *. apply andb_true_iff in Ha as [Hd Ha].
    destruct (Ascii.eqb d c); [discriminate |]. now rewrite (IH Ha).
Qed.

Lemma split_ws_aux_word (s rest : string) (cur : string) :
  all_chars (fun c => negb (PyStr.is_space c)) s = true ->
  PyStr.split_ws_aux (s ++ rest) (Some cur)
  = PyStr.split_ws_aux rest (Some (cur ++ s)).
Proof.
  revert cur. induction s as [| c s IH]; intros cur Hs.
  - cbn. now rewrite append_nil_r.
  - cbn in *. apply andb_true_iff in Hs as [Hc Hs].
    destruct (PyStr.is_space c); [discriminate |].
    rewrite (IH _ Hs). now rewrite append_assoc.
Qed.

Lemma split_ws_word (s : string) :
  all_chars (fun c => negb (PyStr.is_space c)) s = true -> s <> "" ->
  forall rest,
    PyStr.split_ws (s ++ rest) = PyStr.split_ws_aux rest (Some s).
Proof.
  intros Hs Hne rest. destruct s as [| c s]; [congruence |].
  cbn in *. apply andb_true_iff in Hs as [Hc Hs]. unfold PyStr.split_ws.
  cbn. destruct (PyStr.is_space c); [discriminate |].
  now rewrite (split_ws_aux_word s rest _ Hs).
Qed.

Lemma split_ws_one (s : string) :
  all_chars PyStr.is_digit s = true -> s <> "" -> PyStr.split_ws s = [s].
Proof.
  intros Hs Hne. rewrite <- (append_nil_r s) at 1.
  now rewrite split_ws_word by (auto using digits_nonspace).
Qed.

Lemma split_ws_two (a b : string) :
  all_chars PyStr.is_digit a = true -> a <> "" ->
  all_chars PyStr.is_digit b = true -> b <> "" ->
  PyStr.split_ws ((a ++ " ") ++ b) = [a; b].
Proof.
  intros Ha Hane Hb Hbne. rewrite append_assoc.
  rewrite split_ws_word by (auto using digits_nonspace).
  change (" " ++ b) with (String " " b). cbn [PyStr.split_ws_aux].
  change (PyStr.is_space " ") with true. cbn iota.
  f_equal. fold (PyStr.split_ws b). now apply split_ws_one.
Qed.

(** ** Exact quotients in binary64 *)

Lemma digits2_size (p : positive) : digits2_pos p = Pos.size p.
Proof. induction p; cbn; congruence. Qed.

Lemma Zdigits2_bounds (m : Z) :
  0 < m -> 2 ^ (Zdigits2 m - 1) <= m < 2 ^ Zdigits2 m.
Proof.
  destruct m as [| p | p]; try lia. intros _. cbn [Zdigits2].
  rewrite digits2_size.
  pose proof (Pos.size_gt p) as Hgt. pose proof (Pos.size_le p) as Hle.
  apply Pos2Z.pos_lt_pos in Hgt. apply Pos2Z.pos_le_pos in Hle.
  rewrite Pos2Z.inj_pow in Hgt, Hle.
  split; [| exact Hgt].
  replace (Z.pos (Pos.size p)) with (Z.succ (Z.pos (Pos.size p) - 1)) in Hle by lia.
  rewrite Z.pow_succ_r in Hle by lia.
  change (Z.pos p~0) with (2 * Z.pos p) in Hle. lia.
Qed.

Lemma Zdigits2_pos (m : Z) : 0 < m -> 0 < Zdigits2 m.
Proof. destruct m; cbn; lia. Qed.

Lemma Zdigits2_unique (m k : Z) :
  0 < m -> 2 ^ (k - 1) <= m < 2 ^ k -> Zdigits2 m = k.
Proof.
  intros Hm [Hlo Hhi]. pose proof (Zdigits2_bounds m Hm) as [Dlo Dhi].
  pose proof (Zdigits2_pos m Hm) as Hd.
  assert (0 < k).
  { destruct (Z.ltb_spec 0 k); [assumption | exfalso].
    assert (2 ^ k <= 1).
    { destruct (Z.eq_dec k 0) as [-> | Hk]; [cbn; lia |].
      rewrite Z.pow_neg_r by lia. lia. }
    lia. }
  assert (Zdigits2 m - 1 < k).
  { apply (Z.pow_lt_mono_r_iff 2); lia. }
  assert (k - 1 < Zdigits2 m).
  { apply (Z.pow_lt_mono_r_iff 2); lia. }
  lia.
Qed.

Lemma Zdigits2_shift (m s : Z) :
  0 < m -> 0 <= s -> Zdigits2 (m * 2 ^ s) = Zdigits2 m + s.
Proof.
  intros Hm Hs. pose proof (Zdigits2_bounds m Hm) as [Dlo Dhi].
  pose proof (Zdigits2_pos m Hm) as Hd.
  apply Zdigits2_unique.
  - apply Z.mul_pos_pos; [assumption | apply Z.pow_pos_nonneg; lia].
  - replace (Zdigits2 m + s - 1) with ((Zdigits2 m - 1) + s) by lia.
    rewrite !Z.pow_add_r by lia.
    assert (0 < 2 ^ s) by (apply Z.pow_pos_nonneg; lia). nia.
Qed.

Lemma quotient_digits (z m : Z) :
  0 < z -> 0 < m ->
  Zdigits2 (z * m) - Zdigits2 m <= Zdigits2 z
  <= Zdigits2 (z * m) - Zdigits2 m + 1.
Proof.
  intros Hz Hm.
  assert (Hzm : 0 < z * m) by now apply Z.mul_pos_pos.
  pose proof (Zdigits2_bounds z Hz) as [Zlo Zhi].
  pose proof (Zdigits2_bounds m Hm) as [Mlo Mhi].
  pose proof (Zdigits2_bounds (z * m) Hzm) as [Plo Phi].
  pose proof (Zdigits2_pos z Hz). pose proof (Zdigits2_pos m Hm).
  pose proof (Zdigits2_pos (z * m) Hzm).
  set (dz := Zdigits2 z) in *. set (dm := Zdigits2 m) in *.
  set (dp := Zdigits2 (z * m)) in *.
  assert (Hlow : 2 ^ (dz - 1 + (dm - 1)) <= z * m).
  { rewrite Z.pow_add_r by lia.
    assert (0 < 2 ^ (dz - 1)) by (apply Z.pow_pos_nonneg; lia).
    assert (0 < 2 ^ (dm - 1)) by (apply Z.pow_pos_nonneg; lia). nia. }
  assert (Hhigh : z * m < 2 ^ (dz + dm)).
  { rewrite Z.pow_add_r by lia.
    assert (0 < 2 ^ dz) by (apply Z.pow_pos_nonneg; lia).
    assert (0 < 2 ^ dm) by (apply Z.pow_pos_nonneg; lia). nia. }
  assert (dp - 1 < dz + dm) by (apply (Z.pow_lt_mono_r_iff 2); lia).
  assert (dz - 1 + (dm - 1) < dp) by (apply (Z.pow_lt_mono_r_iff 2); lia).
  lia.
Qed.

Lemma div_eucl_exact (q m : Z) : 0 < m -> Z.div_eucl (q * m) m = (q, 0).
Proof.
  intros Hm.
  assert (E : Z.div_eucl (q * m) m = ((q * m) / m, (q * m) mod m)).
  { unfold Z.div, Z.modulo. now destruct (Z.div_eucl (q * m) m). }
  rewrite E, Z.div_mul, Z.mod_mul by lia. reflexivity.
Qed.

Lemma small_digits (z : Z) : 0 < z < 2 ^ 53 -> 0 < Zdigits2 z <= 53.
Proof.
  intros [Hz Hlt]. pose proof (Zdigits2_bounds z Hz) as [Zlo _].
  pose proof (Zdigits2_pos z Hz).
  assert (Zdigits2 z - 1 < 53) by (apply (Z.pow_lt_mono_r_iff 2); lia). lia.
Qed.

Lemma SFdiv_core_exact (z m : Z) :
  0 < z < 2 ^ 53 -> 0 < m ->
  let s := 53 - (Zdigits2 (z * m) - Zdigits2 m) in
  SFdiv_core_binary 53 1024 (z * m) 0 m 0 = (z * 2 ^ s, - s, loc_Exact)
  /\ 0 <= s
  /\ (Zdigits2 z - 53 + s = 0 \/ Zdigits2 z - 53 + s = 1).
Proof.
  intros Hz Hm s.
  pose proof (quotient_digits z m ltac:(lia) Hm) as Hq.
  pose proof (small_digits z Hz) as Hd.
  assert (Hs : 0 <= s) by (subst s; lia).
  split; [| split; [exact Hs | subst s; lia]].
  unfold SFdiv_core_binary.
  assert (He : Z.min (fexp 53 1024 (Zdigits2 (z * m) + 0 - (Zdigits2 m + 0)))
                     (0 - 0) = - s)
    by (unfold fexp, emin; subst s; lia).
  rewrite He. replace (0 - 0 - - s) with s by lia.
  assert (Hm' : match s with
                | 0 => z * m
                | Z.pos _ => Z.shiftl (z * m) s
                | Z.neg _ => 0
                end = (z * 2 ^ s) * m).
  { destruct s as [| p | p] eqn:Es; [cbn; lia | | lia].
    rewrite Z.shiftl_mul_pow2 by lia. ring. }
  rewrite Hm', div_eucl_exact by exact Hm.
  unfold new_location, new_location_even, new_location_odd.
  now destruct (Z.even m).
Qed.

Lemma round_aux_exact (sx : bool) (z s : Z) :
  0 < z < 2 ^ 53 -> 0 <= s ->
  Zdigits2 z - 53 + s = 0 \/ Zdigits2 z - 53 + s = 1 ->
  binary_round_aux 53 1024 sx (z * 2 ^ s) (- s) loc_Exact
  = S754_finite sx (Z.to_pos (z * 2 ^ (53 - Zdigits2 z))) (Zdigits2 z - 53).
Proof.
  intros Hz53 Hs Hn. pose proof (small_digits z Hz53) as Hd.
  assert (Hz : 0 < z) by lia.
  unfold binary_round_aux, shr_fexp.
  rewrite Zdigits2_shift by assumption.
  assert (Hf : fexp 53 1024 (Zdigits2 z + s + - s) - - s
               = Zdigits2 z - 53 + s) by (unfold fexp, emin; lia).
  rewrite Hf. destruct Hn as [Hn | Hn]; rewrite Hn.
  - cbn [shr shr_record_of_loc shr_m loc_of_shr_record round_nearest_even].
    rewrite Zdigits2_shift, Hf, Hn by assumption.
    cbn [shr shr_record_of_loc shr_m].
    assert (Hq : 0 < z * 2 ^ s)
      by (apply Z.mul_pos_pos; [assumption | apply Z.pow_pos_nonneg; lia]).
    replace (53 - Zdigits2 z) with s by lia.
    replace (Zdigits2 z - 53) with (- s) by lia.
    destruct (z * 2 ^ s) as [| p | p]; try lia.
    destruct (Z.leb_spec (- s) (1024 - 53)); [reflexivity | lia].
  - assert (Hw : 0 < z * 2 ^ (s - 1))
      by (apply Z.mul_pos_pos; [assumption | apply Z.pow_pos_nonneg; lia]).
    assert (Hq : z * 2 ^ s = 2 * (z * 2 ^ (s - 1))).
    { replace s with (Z.succ (s - 1)) at 1 by lia.
      rewrite Z.pow_succ_r by lia. ring. }
    assert (Hdw : Zdigits2 (z * 2 ^ (s - 1)) = Zdigits2 z + (s - 1))
      by (apply Zdigits2_shift; lia).
    rewrite Hq. replace (53 - Zdigits2 z) with (s - 1) by lia.
    replace (Zdigits2 z - 53) with (- s + 1) by lia.
    destruct (z * 2 ^ (s - 1)) as [| p | p]; try lia.
    change (2 * Z.pos p) with (Z.pos p~0).
    cbn [shr iter_pos shr_1 shr_record_of_loc shr_m loc_of_shr_record
         round_nearest_even orb].
    assert (Hf' : fexp 53 1024 (Zdigits2 (Z.pos p) + (- s + 1)) - (- s + 1) = 0)
      by (unfold fexp, emin; lia).
    rewrite Hf'. cbn [shr shr_m Pos2Z.inj Z.to_pos].
    destruct (Z.leb_spec (- s + 1) (1024 - 53)); [reflexivity | lia].
Qed.

Lemma int_true_div_exact (z g : Z) :
  z <> 0 -> Z.abs z < 2 ^ 53 -> g <> 0 ->
  PyFloat.int_true_div (z * g) g = Ok (exact_float z).
Proof.
  intros Hz Hlt Hg.
  assert (Ha : z * g <> 0) by now apply Z.neq_mul_0.
  assert (Hsign : xorb (z * g <? 0) (g <? 0) = (z <? 0)).
  { destruct (Z.ltb_spec (z * g) 0), (Z.ltb_spec g 0), (Z.ltb_spec z 0);
      cbn; try reflexivity; nia. }
  assert (Habs : Z.abs (z * g) = Z.abs z * Z.abs g) by apply Z.abs_mul.
  destruct (SFdiv_core_exact (Z.abs z) (Z.abs g) ltac:(lia) ltac:(lia))
    as (Hcore & Hs & Hn).
  unfold PyFloat.int_true_div, PyFloat.prec, PyFloat.emax.
  rewrite Hsign, Habs, Hcore.
  rewrite round_aux_exact by (assumption || lia).
  unfold exact_float.
  destruct (z * g) as [| p | p], g as [| p' | p']; congruence.
Qed.

Lemma to_Z_exact (z : Z) :
  z <> 0 -> Z.abs z < 2 ^ 53 -> PyFloat.to_Z (exact_float z) = Ok z.
Proof.
  intros Hz Hlt. pose proof (small_digits (Z.abs z) ltac:(lia)) as Hd.
  unfold exact_float, PyFloat.to_Z.
  assert (Hp : 0 < Z.abs z * 2 ^ (53 - Zdigits2 (Z.abs z)))
    by (apply Z.mul_pos_pos; [lia | apply Z.pow_pos_nonneg; lia]).
  rewrite Z2Pos.id by exact Hp.
  assert (Hv : (if 0 <=? Zdigits2 (Z.abs z) - 53
                then Z.abs z * 2 ^ (53 - Zdigits2 (Z.abs z))
                     * 2 ^ (Zdigits2 (Z.abs z) - 53)
                else Z.abs z * 2 ^ (53 - Zdigits2 (Z.abs z))
                     / 2 ^ (- (Zdigits2 (Z.abs z) - 53)))
               = Z.abs z).
  { destruct (Z.leb_spec 0 (Zdigits2 (Z.abs z) - 53)).
    - replace (Zdigits2 (Z.abs z)) with 53 by lia. cbn. lia.
    - replace (- (Zdigits2 (Z.abs z) - 53)) with (53 - Zdigits2 (Z.abs z)) by lia.
      apply Z.div_mul. apply Z.pow_nonzero; lia. }
  rewrite Hv. f_equal. destruct (Z.ltb_spec z 0); lia.
Qed.

Lemma eq_int_exact_float (z : Z) :
  PyNum.eq_int (NFloat (exact_float z)) 0 = false.
Proof.
  unfold exact_float, PyNum.eq_int, PyFloat.magnitude.
  destruct (0 <=? _); cbn; now rewrite andb_false_r.
Qed.

Lemma floor_div_small (a b : Z) :
  0 <= a < b \/ b < a <= 0 -> a / b = 0.
Proof.
  intros [H | H]; [now apply Z.div_small |].
  rewrite <- Z.div_opp_opp by lia. apply Z.div_small. lia.
Qed.

(** ** My_Fraction *)

Lemma reduce_noop (f : My_Fraction.t) :
  My_Fraction.denominator f = None
  \/ PyNum.eq_int (My_Fraction.numerator f) 0 = true ->
  My_Fraction.reduce f = Ok f.
Proof.
  unfold My_Fraction.reduce. intros [Hd | Hn].
  - now rewrite Hd.
  - rewrite Hn. now destruct (My_Fraction.denominator f).
Qed.

Lemma to_string_render (f f' : My_Fraction.t) (s : string) :
  My_Fraction.to_string f = Ok (s, f') ->
  My_Fraction.reduce f = Ok f' /\ My_Fraction.render f' = Ok s.
Proof.
  unfold My_Fraction.to_string.
  destruct (My_Fraction.reduce f) as [g |]; [| discriminate]. cbn [bind].
  destruct (My_Fraction.render g) as [t |] eqn:Er; [| discriminate].
  cbn [bind]. intros E. injection E as <- <-. now split.
Qed.

(** With a whole part the text starts with its first digit, whatever
    the sign. *)
Lemma render_whole_part_unsigned (f : My_Fraction.t) (s : string) :
  0 < My_Fraction.whole f ->
  My_Fraction.render f = Ok s ->
  exists c r, s = String c r /\ PyStr.is_digit c = true.
Proof.
  intros Hw. unfold My_Fraction.render.
  destruct (Z.ltb_spec 0 (My_Fraction.whole f)) as [_ | ?]; [| lia].
  destruct (of_Z_digits (My_Fraction.whole f) ltac:(lia)) as [Hd Hne].
  destruct (PyStr.of_Z (My_Fraction.whole f)) as [| c r]; [congruence |].
  cbn in Hd. apply andb_true_iff in Hd as [Hc _].
  destruct (negb (PyNum.eq_int (My_Fraction.numerator f) 0)).
  - destruct (My_Fraction.english_separator f); try discriminate.
    cbn [bind]. destruct (PyNum.fmt_d _); [| discriminate]. cbn [bind].
    destruct (My_Fraction.denominator f); [| discriminate].
    destruct (PyNum.fmt_d _); [| discriminate]. cbn [bind].
    intros E. injection E as <-. cbn. eauto.
  - cbn [bind]. destruct (Z.eqb_spec (My_Fraction.whole f) 0); [lia |].
    intros E. injection E as <-. eauto.
Qed.

(** Without a whole part a negative fraction keeps its '-'. *)
Lemma render_fraction_signed (f : My_Fraction.t) (s : string) :
  My_Fraction.sign f < 0 ->
  My_Fraction.whole f = 0 ->
  PyNum.eq_int (My_Fraction.numerator f) 0 = false ->
  My_Fraction.render f = Ok s ->
  exists r, s = String "-" r.
Proof.
  intros Hs Hw Hn. unfold My_Fraction.render. rewrite Hw, Hn.
  destruct (Z.ltb_spec (My_Fraction.sign f) 0) as [_ | ?]; [| lia].
  cbn [Z.ltb Z.compare bind negb].
  destruct (PyNum.fmt_d _); [| discriminate]. cbn [bind].
  destruct (My_Fraction.denominator f); [| discriminate].
  destruct (PyNum.fmt_d _); [| discriminate]. cbn [bind].
  intros E. injection E as <-. cbn. eauto.
Qed.

(** The documented example: sign -1, whole 0, 3/4 prints as "-3/4". *)
Lemma to_string_minus_three_quarters :
  exists f, My_Fraction.to_string
              (My_Fraction.init (PStr " ") 0 (-3) (Some (NInt 4)))
            = Ok ("-3/4", f).
Proof. eexists. vm_compute. reflexivity. Qed.

(** C2, at [My_Fraction(' ', -1, 1, 2)]: the sign is negative and the
    value is not zero, and [to_string] returns "1 1/2": the '-' put in
    front is overwritten by the whole part. *)
Theorem to_string_negative_whole_loses_sign :
  My_Fraction.sign Sample.minus_one_and_a_half = -1
  /\ My_Fraction.whole Sample.minus_one_and_a_half = 1
  /\ exists f, My_Fraction.to_string Sample.minus_one_and_a_half
               = Ok ("1 1/2", f).
Proof.
  split; [reflexivity | split; [reflexivity |]].
  eexists. vm_compute. reflexivity.
Qed.

(** Below 2^53 the true division of [reduce] is exact, and a second
    [reduce] returns the fraction the first one left. *)
Lemma reduce_idempotent_below_2_53 (f f1 : My_Fraction.t) :
  (forall dn, My_Fraction.denominator f = Some dn ->
              exists d, PyNum.to_int dn = Ok d /\ Z.abs d < 2 ^ 53) ->
  My_Fraction.reduce f = Ok f1 ->
  My_Fraction.reduce f1 = Ok f1.
Proof.
  intros Hden Hred. pose proof Hred as Hred0. unfold My_Fraction.reduce in Hred.
  destruct (My_Fraction.denominator f) as [dn |] eqn:Ed;
    [| injection Hred as <-; exact Hred0].
  destruct (PyNum.eq_int (My_Fraction.numerator f) 0) eqn:Ez;
    [injection Hred as <-; exact Hred0 |].
  destruct (Hden dn eq_refl) as (d & Hd & Hlt). rewrite Hd in Hred.
  destruct (PyNum.to_int (My_Fraction.numerator f)) as [n |];
    [| discriminate]. cbn [bind] in Hred.
  destruct (Z.eqb_spec d 0) as [| Hd0]; [discriminate |].
  set (n2 := n - n / d * d) in *. set (g := Z.gcd n2 d) in *.
  assert (Hn2 : n2 = n mod d) by (subst n2; rewrite Z.mod_eq by exact Hd0; ring).
  assert (Hg : 0 < g).
  { subst g. pose proof (Z.gcd_nonneg n2 d).
    destruct (Z.eq_dec (Z.gcd n2 d) 0) as [E | E]; [| lia].
    apply Z.gcd_eq_0_r in E. contradiction. }
  destruct (Z.gcd_divide_l n2 d) as [a Ha].
  destruct (Z.gcd_divide_r n2 d) as [b Hb]. fold g in Ha, Hb.
  assert (Hbnd : 0 <= n2 < d \/ d < n2 <= 0).
  { rewrite Hn2. destruct (Z.ltb_spec 0 d).
    - left. apply Z.mod_pos_bound. lia.
    - right. apply Z.mod_neg_bound. lia. }
  assert (Hab : 0 <= a < b \/ b < a <= 0) by nia.
  assert (Hb0 : b <> 0) by nia.
  assert (Hblt : Z.abs b < 2 ^ 53) by nia.
  assert (Hgcd : Z.gcd a b = 1).
  { replace a with (n2 / g) by (rewrite Ha; apply Z.div_mul; lia).
    replace b with (d / g) by (rewrite Hb; apply Z.div_mul; lia).
    apply Z.gcd_div_gcd; [lia | reflexivity]. }
  rewrite Hb in Hred. rewrite (int_true_div_exact b g) in Hred
    by (assumption || lia).
  destruct (Z.eq_dec a 0) as [Ea | Ea].
  - (* the numerator has become zero *)
    rewrite Ha, Ea in Hred. cbn [Z.mul] in Hred.
    destruct g as [| pg | pg]; try lia. cbn [PyFloat.int_true_div bind] in Hred.
    injection Hred as <-. unfold My_Fraction.reduce.
    cbn [My_Fraction.denominator My_Fraction.numerator PyNum.eq_int Z.eqb].
    reflexivity.
  - rewrite Ha in Hred. rewrite (int_true_div_exact a g) in Hred
      by (assumption || lia). cbn [bind] in Hred.
    injection Hred as <-. unfold My_Fraction.reduce.
    cbn [My_Fraction.denominator My_Fraction.numerator My_Fraction.sign
         My_Fraction.whole My_Fraction.english_separator PyNum.to_int].
    rewrite eq_int_exact_float, !to_Z_exact by (assumption || lia).
    cbn [bind]. destruct (Z.eqb_spec b 0); [contradiction |].
    rewrite (floor_div_small a b Hab).
    replace (a - 0 * b) with a by ring. rewrite Hgcd.
    pose proof (int_true_div_exact a 1 Ea ltac:(lia) ltac:(lia)) as Hxa.
    pose proof (int_true_div_exact b 1 Hb0 Hblt ltac:(lia)) as Hxb.
    rewrite Z.mul_1_r in Hxa, Hxb. rewrite Hxa, Hxb.
    cbn [bind]. now rewrite Z.add_0_r.
Qed.

(** C7, at [My_Fraction(' ', 0, 2**53 + 1, 2**54 + 1)]: the first
    [reduce] leaves the floats 2^53 and 2^54 (the true division rounds
    both), the second one brings them to 1 and 2. *)
Theorem reduce_twice_differs_at_big_fraction :
  exists f1 f2,
    My_Fraction.reduce Sample.big_fraction = Ok f1
    /\ My_Fraction.reduce f1 = Ok f2
    /\ PyNum.to_int (My_Fraction.numerator f1) = Ok (2 ^ 53)
    /\ option_map PyNum.to_int (My_Fraction.denominator f1) = Some (Ok (2 ^ 54))
    /\ PyNum.to_int (My_Fraction.numerator f2) = Ok 1
    /\ option_map PyNum.to_int (My_Fraction.denominator f2) = Some (Ok 2).
Proof.
  do 2 eexists. split; [vm_compute; reflexivity |].
  split; [vm_compute; reflexivity |].
  repeat split; vm_compute; reflexivity.
Qed.

(** ** Units *)

(** C8 fails for a metric instance: built with 8 increments per mm it
    prints one increment as "0.12"; once an English instance has been
    built, the same call on the same instance prints "0.125". *)
Lemma increments_to_string_changed_by_other_instance :
  exists q1 other q2,
    Units.init (PStr " ") true (Some 8) (Some Sample.tr_id)
    = Ok (Sample.metric8, q1)
    /\ Units.init (PStr " ") false None None = Ok (other, q2)
    /\ Units.increments_to_string q1 Sample.metric8 (NInt 1) false = Ok "0.12"
    /\ Units.increments_to_string q2 Sample.metric8 (NInt 1) false = Ok "0.125".
Proof.
  do 3 eexists. repeat split; vm_compute; reflexivity.
Qed.

Lemma init_quant (sep : pyval) (m : bool) (n : option Z)
    (tr : option Units.translator) (u : Units.t) (q : PyDecimal.t) :
  Units.init sep m n tr = Ok (u, q) ->
  Units.metric u = m
  /\ q = if m then PyDecimal.mk false 1 (-2) else PyDecimal.mk false 1 (-3).
Proof.
  unfold Units.init. destruct m.
  - destruct (PyNum.mul _ _); cbn; [| discriminate].
    intros E. injection E as <- <-. now split.
  - intros E. injection E as <- <-. now split.
Qed.

(** The kind of the other instance does not decide alone: when an
    English instance was the last one built, building a metric one
    turns the "0.125" of a metric instance into "0.12". *)
Lemma increments_to_string_changed_by_metric_instance :
  exists last q0 other q',
    Units.init (PStr " ") false None None = Ok (last, q0)
    /\ Units.init (PStr " ") true None None = Ok (other, q')
    /\ Units.increments_to_string q0 Sample.metric8 (NInt 1) false
       = Ok "0.125"
    /\ Units.increments_to_string q' Sample.metric8 (NInt 1) false
       = Ok "0.12".
Proof.
  do 4 eexists. repeat split; vm_compute; reflexivity.
Qed.

(** C8, amended: [q0] is the quantum the class holds before the other
    instance is built, left there by the construction that came last.
    The string [increments_to_string] returns for an instance is not
    changed by building the other instance when the instance is
    English, or when the other instance is of the kind, metric or
    English, of the one built last. *)
Theorem increments_to_string_other_instance
    (u : Units.t)
    (sep0 sep' : pyval) (m0 m' : bool) (n0 n' : option Z)
    (tr0 tr' : option Units.translator) (u0 u' : Units.t)
    (q0 q' : PyDecimal.t) (increments : pynum) (with_units : bool) :
  Units.init sep0 m0 n0 tr0 = Ok (u0, q0) ->
  Units.init sep' m' n' tr' = Ok (u', q') ->
  Units.metric u = false \/ m0 = m' ->
  Units.increments_to_string q0 u increments with_units
  = Units.increments_to_string q' u increments with_units.
Proof.
  intros Hu0 Hu' Hm.
  destruct (init_quant _ _ _ _ _ _ Hu0) as [_ Hq0].
  destruct (init_quant _ _ _ _ _ _ Hu') as [_ Hq'].
  destruct Hm as [Hmu | ->].
  - unfold Units.increments_to_string. now rewrite Hmu.
  - now subst q0 q'.
Qed.

Lemma increments_to_string_other_instance_witness :
  (Units.increments_to_string Sample.quant2 Sample.english32 (NInt 33) false
   = Units.increments_to_string Sample.quant3 Sample.english32 (NInt 33)
       false)
  /\ (Units.increments_to_string Sample.quant2 Sample.metric8 (NInt 1) false
      = Units.increments_to_string Sample.quant2 Sample.metric8 (NInt 1)
          false)
  /\ Units.increments_to_string Sample.quant2 Sample.metric8 (NInt 1) false
     = Ok "0.12".
Proof.
  split; [| split].
  - apply (increments_to_string_other_instance Sample.english32
             (PStr " ") (PStr " ") true false (Some 8) (Some 32)
             (Some Sample.tr_id) (Some Sample.tr_id)
             Sample.metric8 Sample.english32).
    + vm_compute. reflexivity.
    + reflexivity.
    + left. reflexivity.
  - apply (increments_to_string_other_instance Sample.metric8
             (PStr " ") (PStr " ") true true (Some 8) None
             (Some Sample.tr_id) None
             Sample.metric8 (plain_units true 1)).
    + vm_compute. reflexivity.
    + vm_compute. reflexivity.
    + right. reflexivity.
  - vm_compute. reflexivity.
Defined.

(** ** Reading back a printed length *)

Lemma good_separator_inv (sep : string) :
  good_separator sep = true ->
  exists c r, sep = String c r /\ PyStr.is_digit c = false
              /\ Ascii.eqb c "/" = false /\ lacks "." sep = true.
Proof.
  destruct sep as [| c r]; cbn; [discriminate |].
  intros H. apply andb_true_iff in H as [H H3].
  apply andb_true_iff in H as [H1 H2].
  exists c, r. repeat split.
  - now destruct (PyStr.is_digit c).
  - now destruct (Ascii.eqb c "/").
  - exact H3.
Qed.

Lemma lacks_of_Z (c : ascii) (z : Z) :
  PyStr.is_digit c = false -> 0 <= z -> lacks c (PyStr.of_Z z) = true.
Proof.
  intros Hc Hz. apply digits_lack; [exact Hc | now apply of_Z_digits].
Qed.

Lemma text_lacks_dot (sep : string) (w a b : Z) :
  lacks "." sep = true -> 0 <= w -> 0 <= a -> 0 <= b ->
  lacks "." (text sep w a b) = true.
Proof.
  intros Hs Hw Ha Hb. unfold text, lacks.
  destruct (a =? 0); [now apply lacks_of_Z |].
  destruct (w =? 0); rewrite !all_chars_app;
    fold (lacks "." (PyStr.of_Z a)); fold (lacks "." (PyStr.of_Z b));
    fold (lacks "." (PyStr.of_Z w)); fold (lacks "." sep);
    rewrite ?lacks_of_Z, ?Hs by (auto; reflexivity); reflexivity.
Qed.

Lemma text_space (sep : string) (w a b : Z) :
  good_separator sep = true -> 0 <= w -> 0 <= a -> 0 <= b ->
  (if String.eqb sep " " then text sep w a b
   else PyStr.replace_first sep " " (text sep w a b))
  = text " " w a b.
Proof.
  intros Hg Hw Ha Hb.
  destruct (String.eqb_spec sep " ") as [-> | _]; [reflexivity |].
  destruct (good_separator_inv sep Hg) as (c & r & -> & Hc & Hsl & _).
  unfold text. destruct (a =? 0).
  - apply replace_first_absent. now apply lacks_of_Z.
  - destruct (w =? 0).
    + apply replace_first_absent. unfold lacks. rewrite !all_chars_app.
      fold (lacks c (PyStr.of_Z a)). fold (lacks c (PyStr.of_Z b)).
      rewrite !lacks_of_Z by assumption. cbn [andb all_chars].
      rewrite Ascii.eqb_sym, Hsl. reflexivity.
    + rewrite !append_assoc. apply replace_first_at. now apply lacks_of_Z.
Qed.

Lemma separator_dispatch (sep s : string) :
  match PStr sep with
  | PStr " " => Ok s
  | PStr sep' => Ok (PyStr.replace_first sep' " " s)
  | _ => Raise TypeError
  end
  = Ok (if String.eqb sep " " then s else PyStr.replace_first sep " " s).
Proof.
  destruct sep as [| [[] [] [] [] [] [] [] []] [| c r]]; reflexivity.
Qed.

Lemma set_from_string_text (sep : string) (w a b : Z) :
  good_separator sep = true ->
  0 <= w -> 0 <= a -> 0 < b ->
  My_Fraction.set_from_string (My_Fraction.init (PStr sep) 0 0 None)
    (text sep w a b)
  = Ok (My_Fraction.mk 1 w (NInt a)
          (Some (NInt (if a =? 0 then 1 else b))) (PStr sep)).
Proof.
  intros Hg Hw Ha Hb.
  destruct (good_separator_inv sep Hg) as (c & r & Es & _ & _ & Hdot).
  unfold My_Fraction.set_from_string, PyStr.find.
  rewrite find_lacks by (apply text_lacks_dot; auto; lia).
  cbn [Z.eqb Pos.eqb Z.opp My_Fraction.english_separator My_Fraction.sign
       My_Fraction.whole My_Fraction.numerator My_Fraction.denominator
       My_Fraction.init].
  rewrite separator_dispatch. cbn [bind].
  rewrite text_space by (auto; lia).
  assert (Hda := of_Z_digits a Ha). assert (Hdw := of_Z_digits w Hw).
  assert (Hdb := of_Z_digits b ltac:(lia)).
  destruct Hda as [Hda Hna], Hdw as [Hdw Hnw], Hdb as [Hdb Hnb].
  assert (Hslash : forall z, 0 <= z -> lacks "/" (PyStr.of_Z z) = true)
    by (intros; now apply lacks_of_Z).
  unfold text. destruct (Z.eqb_spec a 0) as [-> | Hnz].
  - rewrite split_lacks by now apply Hslash.
    rewrite to_Z_of_Z by exact Hw. reflexivity.
  - destruct (Z.eqb_spec w 0) as [-> | Hwz].
    + change (PyStr.of_Z a ++ "/" ++ PyStr.of_Z b)
        with (PyStr.of_Z a ++ String "/" (PyStr.of_Z b)).
      rewrite split_at by (apply Hslash; lia).
      rewrite !split_ws_one by assumption.
      rewrite !to_Z_of_Z by lia. reflexivity.
    + rewrite <- append_assoc.
      change (((PyStr.of_Z w ++ " ") ++ PyStr.of_Z a) ++ "/" ++ PyStr.of_Z b)
        with (((PyStr.of_Z w ++ " ") ++ PyStr.of_Z a)
              ++ String "/" (PyStr.of_Z b)).
      rewrite split_at.
      * rewrite split_ws_two, split_ws_one by assumption.
        rewrite !to_Z_of_Z by lia. reflexivity.
      * unfold lacks. rewrite !all_chars_app.
        fold (lacks "/" (PyStr.of_Z w)). fold (lacks "/" (PyStr.of_Z a)).
        rewrite !Hslash by lia. reflexivity.
      * apply Hslash. lia.
Qed.

Lemma reduce_with_separator (sep : pyval) (f : My_Fraction.t) :
  My_Fraction.reduce (with_separator sep f)
  = match My_Fraction.reduce f with
    | Ok f' => Ok (with_separator sep f')
    | Raise e => Raise e
    end.
Proof.
  unfold My_Fraction.reduce, with_separator. destruct f as [s w n d e].
  cbn [My_Fraction.sign My_Fraction.whole My_Fraction.numerator
       My_Fraction.denominator My_Fraction.english_separator].
  destruct d as [d |]; [| reflexivity].
  destruct (PyNum.eq_int n 0); [reflexivity |].
  destruct (PyNum.to_int n) as [x |]; [| reflexivity].
  destruct (PyNum.to_int d) as [y |]; [| reflexivity]. cbn [bind].
  destruct (y =? 0); [reflexivity |].
  destruct (PyFloat.int_true_div _ _); [| reflexivity]. cbn [bind].
  destruct (PyFloat.int_true_div _ _); reflexivity.
Qed.

Lemma render_text (f : My_Fraction.t) (sep : string) (w a b : Z) :
  My_Fraction.sign f = 1 ->
  My_Fraction.whole f = w ->
  0 <= w ->
  My_Fraction.english_separator f = PStr sep ->
  PyNum.eq_int (My_Fraction.numerator f) 0 = (a =? 0) ->
  PyNum.to_int (My_Fraction.numerator f) = Ok a ->
  (a =? 0) = true
  \/ (exists d, My_Fraction.denominator f = Some d /\ PyNum.to_int d = Ok b) ->
  My_Fraction.render f = Ok (text sep w a b).
Proof.
  intros Hs Hw Hw0 He Hz Ha Hd.
  unfold My_Fraction.render, text, PyNum.fmt_d.
  rewrite Hs, Hw, He, Hz, Ha. clear Hw. cbn [Z.ltb Z.compare bind].
  destruct (Z.eqb_spec a 0) as [-> | Hnz]; cbn [negb].
  - destruct (Z.ltb_spec 0 w); cbn [bind].
    + destruct (Z.eqb_spec w 0); [lia | reflexivity].
    + assert (w = 0) by lia. subst w. reflexivity.
  - destruct Hd as [Hd | (d & Hd & Hb)]; [discriminate |].
    rewrite Hd, Hb. cbn [bind].
    destruct (Z.ltb_spec 0 w); cbn [bind].
    + destruct (Z.eqb_spec w 0); [lia | reflexivity].
    + assert (w = 0) by lia. subst w. reflexivity.
Qed.

Lemma string_to_increments_finish (u : Units.t) (s : string) (b : bool) :
  Units.string_to_increments u s b
  = (f <- My_Fraction.set_from_string
            (My_Fraction.init (Units.english_separator u) 0 0 None) s ;;
     finish (Units.num_increments u) (My_Fraction.whole f)
            (My_Fraction.numerator f) (My_Fraction.denominator f) b).
Proof.
  unfold Units.string_to_increments, Units.string_to_float,
    Units.length_to_increments, finish.
  destruct (My_Fraction.set_from_string _ s) as [f |]; reflexivity.
Qed.

Lemma round_trip_checked :
  forallb (fun n =>
             forallb (fun v => implb (reduces_to_allowed n v)
                                     (round_trip_check n v))
                     round_trip_domain)
          [32; 64; 96]
  = true.
Proof. vm_compute. reflexivity. Qed.

Lemma round_trip_check_at (n v : Z) :
  In n [32; 64; 96] -> 0 <= v <= 10000 ->
  In (n / Z.gcd v n) Units.allow_denoms ->
  round_trip_check n v = true.
Proof.
  intros Hn Hv Hd. pose proof round_trip_checked as H.
  rewrite forallb_forall in H. specialize (H n Hn).
  rewrite forallb_forall in H.
  assert (Hin : In v round_trip_domain).
  { unfold round_trip_domain. apply in_map_iff. exists (Z.to_nat v).
    split; [lia |]. apply in_seq. lia. }
  specialize (H v Hin).
  assert (Hr : reduces_to_allowed n v = true).
  { unfold reduces_to_allowed. apply existsb_exists.
    exists (n / Z.gcd v n). split; [exact Hd | apply Z.eqb_refl]. }
  now rewrite Hr in H.
Qed.

Lemma result_Z_eqb_eq (r : result Z) (z : Z) :
  result_Z_eqb r z = true -> r = Ok z.
Proof.
  destruct r as [x |]; cbn; [| discriminate].
  intros H. f_equal. now apply Z.eqb_eq.
Qed.

(** C3, amended: for English units with 32, 64 or 96 increments per
    inch whose separator is not empty, does not start with a digit or
    '/', and holds no '.', and for [0 <= v <= 10000] with [v / n] in
    lowest terms over an allowed denominator, the string
    [increments_to_string] gives for [v] is read back by
    [string_to_increments] as [v]. *)
Theorem round_trip_increments (sep : string) (num : option Z)
    (tr : option Units.translator) (u : Units.t) (q quant : PyDecimal.t)
    (n v : Z) :
  Units.init (PStr sep) false num tr = Ok (u, q) ->
  Units.increments_per_inch u = NInt n ->
  In n [32; 64; 96] ->
  good_separator sep = true ->
  0 <= v <= 10000 ->
  In (n / Z.gcd v n) Units.allow_denoms ->
  exists s,
    Units.increments_to_string quant u (NInt v) false = Ok s
    /\ Units.string_to_increments u s true = Ok (NInt v).
Proof.
  intros Hu Hipi Hn Hg Hv Hd. cbn in Hu. injection Hu as <- <-.
  cbn in Hipi. injection Hipi as Hnum. rewrite Hnum. clear Hnum num.
  pose proof (round_trip_check_at n v Hn Hv Hd) as Hc.
  unfold round_trip_check in Hc.
  destruct (shape n v) as [[w a] b].
  destruct (My_Fraction.reduce (My_Fraction.init PNone 0 v (Some (NInt n))))
    as [f1 |] eqn:E1; [| discriminate].
  apply andb_true_iff in Hc as [Hc Hb0].
  apply andb_true_iff in Hc as [Hc Ha0].
  apply andb_true_iff in Hc as [Hc Hw0].
  apply andb_true_iff in Hc as [Hc Hfin].
  apply andb_true_iff in Hc as [Hcond Hred].
  destruct (My_Fraction.reduce f1) as [f2 |] eqn:E2; [| discriminate].
  apply andb_true_iff in Hred as [Hred Hden].
  apply andb_true_iff in Hred as [Hred Hnum].
  apply andb_true_iff in Hred as [Hred Hzero].
  apply andb_true_iff in Hred as [Hsign Hwhole].
  apply Z.eqb_eq in Hsign, Hwhole. apply eqb_prop in Hzero.
  apply result_Z_eqb_eq in Hnum. apply negb_true_iff in Hcond.
  apply Z.leb_le in Hw0, Ha0. apply Z.ltb_lt in Hb0.
  exists (text sep w a b). split.
  - unfold Units.increments_to_string.
    cbn [Units.metric Units.is_float Units.english_separator
         Units.increments_per_inch PyNum.to_int bind].
    change (My_Fraction.init (PStr sep) 0 v (Some (NInt n)))
      with (with_separator (PStr sep)
              (My_Fraction.init PNone 0 v (Some (NInt n)))).
    rewrite reduce_with_separator, E1. cbn [bind].
    cbn [with_separator My_Fraction.numerator My_Fraction.denominator].
    rewrite Hcond. unfold My_Fraction.to_string.
    rewrite reduce_with_separator, E2. cbn [bind].
    rewrite (render_text _ sep w a b); [reflexivity | try assumption ..].
    + reflexivity.
    + apply orb_true_iff in Hden as [Hden | Hden]; [now left | right].
      cbn [with_separator My_Fraction.denominator].
      destruct (My_Fraction.denominator f2) as [d |]; [| discriminate].
      exists d. split; [reflexivity | now apply result_Z_eqb_eq].
  - rewrite string_to_increments_finish.
    cbn [Units.english_separator Units.num_increments].
    rewrite set_from_string_text by assumption. cbn [bind].
    cbn [My_Fraction.whole My_Fraction.numerator My_Fraction.denominator].
    destruct (finish n w (NInt a) (Some (NInt (if a =? 0 then 1 else b))) true)
      as [[z | ?] | ?]; try discriminate Hfin.
    apply Z.eqb_eq in Hfin. now subst.
Qed.

(** C3 fails for the separator ".": 33 increments at 32 per inch print
    as "1.1/32", which [string_to_increments] takes for a decimal number
    and rejects. *)
Lemma round_trip_fails_for_dot_separator :
  exists u q,
    Units.init (PStr ".") false (Some 32) None = Ok (u, q)
    /\ In (32 / Z.gcd 33 32) Units.allow_denoms
    /\ Units.increments_to_string q u (NInt 33) false = Ok "1.1/32"
    /\ Units.string_to_increments u "1.1/32" true = Raise ValueError.
Proof.
  do 2 eexists. split; [reflexivity |]. split; [cbn; tauto |].
  split; vm_compute; reflexivity.
Qed.

Lemma round_trip_increments_witness :
  exists s,
    Units.increments_to_string Sample.quant3 Sample.english32 (NInt 33) false
    = Ok s
    /\ Units.string_to_increments Sample.english32 s true = Ok (NInt 33).
Proof.
  apply (round_trip_increments " " None (Some Sample.tr_id)
           Sample.english32 Sample.quant3 Sample.quant3 32 33).
  - reflexivity.
  - reflexivity.
  - cbn. tauto.
  - reflexivity.
  - lia.
  - vm_compute. tauto.
Defined.

(** ** Persistence *)

Lemma unserialize_metric_raises {Spacing : Type} `{Collaborators Spacing}
    (version metric : pyval) (rest : stream) (config : Config) :
  truthy metric = true ->
  unserialize (version :: metric :: rest) config = Raise TypeError.
Proof.
  intros Hm. unfold unserialize, ld_bind, load. now rewrite Hm.
Qed.

(** Whatever number an English stream stores, the units built have 32
    increments per inch and the stored object as separator. *)
Lemma unserialize_english_units {Spacing : Type} `{Collaborators Spacing}
    (version metric ipi : pyval) (rest : stream) (config : Config)
    (bit : Router_Bit) (boards : list Board) (sp : Spacing) (tag : pyval) :
  truthy metric = false ->
  unserialize (version :: metric :: ipi :: rest) config
  = Ok (bit, boards, sp, tag) ->
  bit_units bit = Units.mk ipi false None 32 (NInt 32).
Proof.
  intros Hm. unfold unserialize, ld_bind, ld_lift, ld_ret, load.
  rewrite Hm. cbn [Units.call Units.init bind].
  destruct rest as [| w [| d [| a [| nb [| bw rest]]]]]; try discriminate.
  destruct (lrange_len nb) as [n |]; [| discriminate].
  destruct (make_boards n _ bw) as [bs |]; [| discriminate].
  destruct rest as [| tg rest]; [discriminate |].
  destruct (eq_str tg "Edit").
  - destruct rest as [| c rest]; [discriminate |].
    destruct (Edit_Spaced _ bs config) as [s0 |]; [| discriminate].
    destruct (set_cuts s0 (Some c)) as [s1 |]; [| discriminate].
    cbn. intros E. injection E as <- _ _ _. reflexivity.
  - destruct (if eq_str tg "Equa" then _ else _) as [[s0 r0] |]; [| discriminate].
    destruct r0 as [| p r0]; [discriminate |].
    destruct (set_cuts _ None) as [s1 |]; [| discriminate].
    cbn. intros E. injection E as <- _ _ _. reflexivity.
Qed.

(** C1, at the stream of a design with 64 increments per inch:
    [serialize] stores 64, and [unserialize] builds units with 32
    increments per inch and 64 as their separator; a metric stream makes
    [unserialize] raise [TypeError]. *)
Theorem unserialize_units_of_stream64 :
  serialize (Sample.bit_of Sample.english64)
            [Sample.board_of Sample.english64 [] [];
             Sample.board_of Sample.english64 [] []]
            Sample.equal_spacing Sample.config
  = Ok Sample.stream64
  /\ (exists bit boards sp tag,
         unserialize Sample.stream64 Sample.config = Ok (bit, boards, sp, tag)
         /\ Units.increments_per_inch (bit_units bit) = NInt 32
         /\ Units.english_separator (bit_units bit) = PNum (NInt 64))
  /\ (forall rest,
         unserialize (Spacing := Sample.spacing)
           (PStr "0.9.4" :: PBool true :: rest) Sample.config
         = Raise TypeError).
Proof.
  split; [reflexivity |]. split.
  - do 4 eexists. split; [vm_compute; reflexivity |]. split; reflexivity.
  - intros rest. now apply unserialize_metric_raises.
Qed.

(** C4: when the tag read from the stream is neither "Edit" nor
    "Equa", [unserialize] builds the [Variable_Spaced] object, gives it
    the next object of the stream as its parameters, lets [set_cuts()]
    compute the cuts, and returns; the only errors possible on the way
    are those of the collaborators. *)
Theorem unserialize_unknown_tag {Spacing : Type} `{Collaborators Spacing}
    (version metric ipi w d a nb bw tag payload : pyval) (rest : stream)
    (config : Config) (n : nat) (boards : list Board) (sp0 sp : Spacing) :
  let bit := mk_Router_Bit (Units.mk ipi false None 32 (NInt 32)) w d a in
  truthy metric = false ->
  lrange_len nb = Ok n ->
  make_boards n bit bw = Ok boards ->
  eq_str tag "Edit" = false ->
  eq_str tag "Equa" = false ->
  Variable_Spaced bit boards config = Ok sp0 ->
  set_cuts (set_params sp0 payload) None = Ok sp ->
  unserialize
    (version :: metric :: ipi :: w :: d :: a :: nb :: bw :: tag :: payload
     :: rest) config
  = Ok (bit, boards, sp, tag).
Proof.
  intros bit Hm Hn Hb He Hq Hv Hc.
  unfold unserialize, ld_bind, ld_lift, ld_ret, load.
  rewrite Hm. cbn [Units.call Units.init bind].
  rewrite Hn. fold bit. rewrite Hb, He, Hq, Hv, Hc. reflexivity.
Qed.

Lemma unserialize_unknown_tag_witness :
  exists bit boards sp,
    unserialize Sample.stream_unknown_tag Sample.config
    = Ok (bit, boards, sp, PStr "Wild")
    /\ Sample.sp_description sp = "Variable spaced"
    /\ Sample.sp_params sp = PList [PNum (NInt 3)].
Proof.
  do 3 eexists. split.
  - apply (unserialize_unknown_tag (Spacing := Sample.spacing))
      with (n := 2%nat) (sp0 := Sample.mk_spacing "Variable spaced" (PList []) PNone);
      reflexivity.
  - split; reflexivity.
Defined.

(** ** The report file *)






(** ** The pass table: one column *)

Lemma order_app (a b : list Cut) : order (a ++ b) = (order b ++ order a)%list.
Proof.
  unfold order. now rewrite map_app, concat_app, List.rev_app_distr.
Qed.

Lemma firstn_succ_nth {A : Type} (l : list A) (n : nat) (a : A) :
  nth_error l n = Some a -> firstn (S n) l = (firstn n l ++ [a])%list.
Proof.
  revert n. induction l as [| x l IH]; intros [| n]; cbn; try discriminate.
  - now intros [= ->].
  - intros E. f_equal. now apply IH.
Qed.

Lemma remaining_start (cs : list Cut) :
  (forall c, In c cs -> passes c <> []) ->
  remaining cs (Z.of_nat (List.length cs) - 1) 0 = order cs
  /\ valid_cursor cs (Z.of_nat (List.length cs) - 1) 0.
Proof.
  intros Hne. destruct cs as [| c0 cs0] using rev_ind.
  - split; [reflexivity | now left].
  - clear IHcs0. rewrite List.length_app. cbn [List.length].
    assert (Hn : nth_error (cs0 ++ [c0]) (List.length cs0) = Some c0).
    { rewrite nth_error_app2 by lia. now rewrite Nat.sub_diag. }
    replace (Z.of_nat (List.length cs0 + 1) - 1) with (Z.of_nat (List.length cs0)) by lia.
    split.
    + unfold remaining. destruct (Z.ltb_spec (Z.of_nat (List.length cs0)) 0); [lia |].
      rewrite Nat2Z.id, Hn. cbn [Z.to_nat]. rewrite Nat.sub_0_r, firstn_all.
      rewrite firstn_app, Nat.sub_diag, firstn_all. cbn [firstn].
      rewrite List.app_nil_r, order_app. unfold order at 3. cbn.
      now rewrite List.app_nil_r.
    + right. split; [lia |]. exists c0. rewrite Nat2Z.id. split; [exact Hn |].
      assert (passes c0 <> []) by (apply Hne, in_or_app; right; now left).
      destruct (passes c0); [congruence | cbn; lia].
Qed.

Lemma remaining_step (cs : list Cut) (ci pi : Z) (c : Cut) :
  (forall c, In c cs -> passes c <> []) ->
  0 <= ci ->
  nth_error cs (Z.to_nat ci) = Some c ->
  0 <= pi < Z.of_nat (List.length (passes c)) ->
  let np := Z.of_nat (List.length (passes c)) in
  let ci' := if pi + 1 =? np then ci - 1 else ci in
  let pi' := if pi + 1 =? np then 0 else pi + 1 in
  exists p,
    nth_error (passes c) (Z.to_nat (np - pi - 1)) = Some p
    /\ remaining cs ci pi = p :: remaining cs ci' pi'
    /\ valid_cursor cs ci' pi'.
Proof.
  intros Hne Hci Hc Hpi np ci' pi'.
  set (k := Z.to_nat (np - pi - 1)).
  assert (Hk : (k < List.length (passes c))%nat) by (subst k np; lia).
  destruct (nth_error (passes c) k) as [p |] eqn:Hp;
    [| apply nth_error_None in Hp; lia].
  exists p. split; [reflexivity |].
  assert (Hrem : remaining cs ci pi
                 = (p :: List.rev (firstn k (passes c))
                    ++ order (firstn (Z.to_nat ci) cs))%list).
  { unfold remaining. destruct (Z.ltb_spec ci 0); [lia |]. rewrite Hc.
    replace (List.length (passes c) - Z.to_nat pi)%nat with (S k)
      by (subst k np; lia).
    rewrite (firstn_succ_nth _ _ _ Hp), List.rev_app_distr. reflexivity. }
  rewrite Hrem. subst ci' pi'.
  destruct (Z.eqb_spec (pi + 1) np) as [E | E].
  - assert (k = 0%nat) by (subst k; lia). subst k. rewrite H. cbn [firstn List.rev app].
    destruct (Z.eq_dec ci 0) as [-> | Hnz].
    + cbn. split; [reflexivity | now left].
    + assert (Hc' : exists c', nth_error cs (Z.to_nat (ci - 1)) = Some c').
      { destruct (nth_error cs (Z.to_nat (ci - 1))) eqn:Hx; eauto.
        apply nth_error_None in Hx.
        assert (Z.to_nat ci < List.length cs)%nat
          by (apply nth_error_Some; congruence). lia. }
      destruct Hc' as [c' Hc'].
      assert (Hc'ne : passes c' <> []) by (eapply Hne, nth_error_In; eauto).
      split.
      * f_equal. unfold remaining.
        destruct (Z.ltb_spec (ci - 1) 0); [lia |]. rewrite Hc'.
        cbn [Z.to_nat]. rewrite Nat.sub_0_r, firstn_all.
        replace (Z.to_nat ci) with (S (Z.to_nat (ci - 1))) by lia.
        rewrite (firstn_succ_nth _ _ _ Hc'), order_app.
        unfold order at 1. cbn. now rewrite List.app_nil_r.
      * right. split; [lia |]. exists c'. split; [exact Hc' |].
        destruct (passes c'); [congruence | cbn; lia].
  - split.
    + f_equal. unfold remaining. destruct (Z.ltb_spec ci 0); [lia |]. rewrite Hc.
      replace (List.length (passes c) - Z.to_nat (pi + 1))%nat with k
        by (subst k np; lia).
      reflexivity.
    + right. split; [lia |]. exists c. split; [exact Hc |]. subst np. lia.
Qed.

Lemma remaining_valid_nonempty (cs : list Cut) (ci pi : Z) :
  valid_cursor cs ci pi -> 0 <= ci -> remaining cs ci pi <> [].
Proof.
  intros [[-> _] | (_ & c & Hc & Hpi)] Hci; [lia |].
  unfold remaining. destruct (Z.ltb_spec ci 0); [lia |]. rewrite Hc.
  destruct (passes c) as [| x l] eqn:E; [cbn in Hpi; lia |].
  replace (List.length (x :: l) - Z.to_nat pi)%nat
    with (S (List.length l - Z.to_nat pi)) by (cbn [List.length] in *; lia).
  cbn [firstn List.rev]. intros Habs.
  apply app_eq_nil in Habs as [Habs _]. apply app_eq_nil in Habs as [_ Habs].
  discriminate.
Qed.

Lemma has_pass_row_count (all_cuts : list (list Cut)) (j : nat) :
  existsb (fun cs => (j <? List.length (order cs))%nat) all_cuts
  = (j <? row_count all_cuts)%nat.
Proof.
  unfold row_count. induction all_cuts as [| cs l IH].
  - reflexivity.
  - cbn [existsb map fold_right]. rewrite IH.
    replace (List.length (order cs)) with (pass_count cs)
      by (unfold order, pass_count; now rewrite List.length_rev).
    generalize (pass_count cs) (fold_right Nat.max 0%nat (map pass_count l)).
    intros a b.
    destruct (Nat.ltb_spec j a), (Nat.ltb_spec j b),
      (Nat.ltb_spec j (Nat.max a b)); cbn [orb]; try reflexivity; lia.
Qed.

(** ** The pass table: one row *)

Section PrintLoop.

Variables (quant : PyDecimal.t) (u : Units.t) (width : Z).
Variables (all_cuts : list (list Cut)) (label_cuts : list string).
Variable loc : Z -> string.

Hypothesis Hlab : List.length label_cuts = List.length all_cuts.
Hypothesis Hne : forall cs c, In cs all_cuts -> In c cs -> passes c <> [].
Hypothesis Hloc : forall cs c p,
  In cs all_cuts -> In c cs -> In p (passes c) ->
  Units.increments_to_string quant u (NInt (width - p)) false = Ok (loc p).

Let ncol := List.length all_cuts.
Let col (i : nat) := nth i all_cuts [].
Let lbl (i : nat) := nth i label_cuts "".

Lemma column_body_spec (cn : counters) (line : string) (pr : bool) (i j : nat) :
  (i < ncol)%nat ->
  col_inv all_cuts cn i j ->
  exists cn',
    column_body quant u width all_cuts label_cuts (cn, line, pr) i
    = Ok (cn', line ++ cell loc (lbl i) (order (col i)) j,
          pr || (j <? List.length (order (col i)))%nat)
    /\ col_inv all_cuts cn' i (S j)
    /\ (forall k, k <> i ->
          nth_error (cut_index cn') k = nth_error (cut_index cn) k
          /\ nth_error (pass_index cn') k = nth_error (pass_index cn) k
          /\ nth_error (total_passes cn') k = nth_error (total_passes cn) k).
Proof.
  intros Hi (ci & pi & Hci & Hpi & Htp & Hval & Hrem). fold (col i) in *.
  unfold column_body. rewrite (index_nth _ _ _ Hci). cbn [bind].
  destruct (Z.leb_spec 0 ci) as [Hpos | Hneg].
  - assert (Hcol : nth_error all_cuts i = Some (col i))
      by (apply nth_error_nth'; exact Hi).
    assert (Hl : nth_error label_cuts i = Some (lbl i))
      by (apply nth_error_nth'; rewrite Hlab; exact Hi).
    destruct Hval as [[-> _] | (_ & c & Hc & Hpr)]; [lia |].
    assert (Hcin : In c (col i)) by (eapply nth_error_In; eauto).
    assert (Hcolin : In (col i) all_cuts) by (eapply nth_error_In; eauto).
    destruct (remaining_step (col i) ci pi c (fun c0 => Hne _ c0 Hcolin) Hpos Hc Hpr)
      as (p & Hp & Hstep & Hval').
    rewrite Hrem in Hstep.
    destruct (skipn_cons_nth _ _ _ _ Hstep) as (Hnth & Hskip & Hlt).
    rewrite (index_nth _ _ _ Hcol). cbn [bind].
    rewrite (index_nth_Z _ _ _ Hpos Hc). cbn [bind].
    rewrite (index_nth _ _ _ Hpi). cbn [bind].
    rewrite (index_nth _ _ _ Htp). cbn [bind].
    rewrite (index_nth _ _ _ Hl). cbn [bind].
    assert (Hk0 : 0 <= Z.of_nat (List.length (passes c)) - pi - 1) by lia.
    rewrite (index_nth_Z _ _ _ Hk0 Hp). cbn [bind].
    rewrite (Hloc _ _ _ Hcolin Hcin (nth_error_In _ _ Hp)). cbn [bind].
    assert (Hli : (i < List.length (cut_index cn))%nat)
      by (apply nth_error_Some; congruence).
    assert (Hlp : (i < List.length (pass_index cn))%nat)
      by (apply nth_error_Some; congruence).
    assert (Hlt' : (i < List.length (total_passes cn))%nat)
      by (apply nth_error_Some; congruence).
    assert (Hcell : cell loc (lbl i) (order (col i)) j
                    = form (PyStr.of_Z (Z.of_nat (Nat.min j (List.length (order (col i)))) + 1)
                            ++ lbl i) (loc p)).
    { unfold cell. rewrite Hnth. now rewrite Nat.min_l by lia. }
    assert (Hpr' : pr || (j <? List.length (order (col i)))%nat = true).
    { destruct (Nat.ltb_spec j (List.length (order (col i)))); [| lia].
      apply orb_true_r. }
    rewrite Hcell, Hpr'.
    assert (Htp' : Z.of_nat (Nat.min j (List.length (order (col i)))) + 1
                   = Z.of_nat (Nat.min (S j) (List.length (order (col i)))))
      by lia.
    destruct (Z.eqb_spec (pi + 1) (Z.of_nat (List.length (passes c))));
      cbn [bind]; eexists; (split; [reflexivity |]); split.
    + exists (ci - 1), 0. cbn [cut_index pass_index total_passes].
      fold (col i). rewrite <- Htp'.
      rewrite !nth_set_same by (rewrite ?set_length; assumption).
      repeat split; try assumption. now rewrite Hskip.
    + intros k Hk. cbn [cut_index pass_index total_passes].
      now rewrite !nth_set_other by assumption.
    + exists ci, (pi + 1). cbn [cut_index pass_index total_passes].
      fold (col i). rewrite <- Htp'.
      rewrite !nth_set_same by (rewrite ?set_length; assumption).
      repeat split; try assumption. now rewrite Hskip.
    + intros k Hk. cbn [cut_index pass_index total_passes].
      now rewrite !nth_set_other by assumption.
  - cbn [bind].
    assert (Hrem0 : remaining (col i) ci pi = []).
    { unfold remaining. destruct (Z.ltb_spec ci 0); [reflexivity | lia]. }
    rewrite Hrem0 in Hrem. symmetry in Hrem.
    destruct (skipn_nil_nth _ _ Hrem) as (Hnth & Hskip & Hle).
    exists cn. split; [| split].
    + unfold cell. rewrite Hnth.
      destruct (Nat.ltb_spec j (List.length (order (col i)))); [lia |].
      now rewrite orb_false_r.
    + exists ci, pi. fold (col i).
      replace (Nat.min (S j) (List.length (order (col i))))
        with (Nat.min j (List.length (order (col i)))) by lia.
      repeat split; try assumption. now rewrite Hskip.
    + intros k Hk. auto.
Qed.

Lemma col_inv_frame (cn cn' : counters) (i j : nat) :
  nth_error (cut_index cn') i = nth_error (cut_index cn) i ->
  nth_error (pass_index cn') i = nth_error (pass_index cn) i ->
  nth_error (total_passes cn') i = nth_error (total_passes cn) i ->
  col_inv all_cuts cn i j -> col_inv all_cuts cn' i j.
Proof.
  intros H1 H2 H3 (ci & pi & Hci & Hpi & Htp & Hrest).
  exists ci, pi. rewrite H1, H2, H3. auto.
Qed.

Let has_pass (j : nat) (cs : list Cut) : bool :=
  (j <? List.length (order cs))%nat.

Lemma for_columns_spec (j : nat) :
  forall (n a : nat) (cn : counters) (line : string) (pr : bool),
    (a + n = ncol)%nat ->
    (forall i, (a <= i < ncol)%nat -> col_inv all_cuts cn i j) ->
    (forall i, (i < a)%nat -> col_inv all_cuts cn i (S j)) ->
    exists cn',
      for_columns (column_body quant u width all_cuts label_cuts)
                  (seq a n) (cn, line, pr)
      = Ok (cn',
            fold_left (fun l c => l ++ cell loc (fst c) (order (snd c)) j)
                      (combine (skipn a label_cuts) (skipn a all_cuts)) line,
            pr || existsb (has_pass j) (skipn a all_cuts))
      /\ forall i, (i < ncol)%nat -> col_inv all_cuts cn' i (S j).
Proof.
  induction n as [| n IH]; intros a cn line pr Han Hge Hlt.
  - assert (a = ncol) by lia. subst a. cbn [seq for_columns].
    rewrite (skipn_all2 all_cuts) by (subst ncol; lia). rewrite combine_nil.
    cbn. rewrite orb_false_r. exists cn. split; [reflexivity | exact Hlt].
  - cbn [seq for_columns].
    assert (Ha : (a < ncol)%nat) by lia.
    destruct (column_body_spec cn line pr a j Ha (Hge a ltac:(lia)))
      as (cn1 & Hbody & Hinv1 & Hframe).
    rewrite Hbody. cbn [bind].
    destruct (IH (S a) cn1 (line ++ cell loc (lbl a) (order (col a)) j)
                 (pr || (j <? List.length (order (col a)))%nat)) as (cn' & Hrun & Hall).
    + lia.
    + intros i Hi. destruct (Hframe i ltac:(lia)) as (F1 & F2 & F3).
      apply (col_inv_frame cn); auto. apply Hge. lia.
    + intros i Hi. destruct (Nat.eq_dec i a) as [-> | Hne'].
      * exact Hinv1.
      * destruct (Hframe i Hne') as (F1 & F2 & F3).
        apply (col_inv_frame cn); auto. apply Hlt. lia.
    + exists cn'. split; [| exact Hall]. rewrite Hrun.
      assert (E1 : skipn a all_cuts = col a :: skipn (S a) all_cuts).
      { rewrite <- (firstn_skipn a all_cuts) at 1.
        unfold col. clear - Ha. subst ncol. revert a Ha.
        induction all_cuts as [| x l IHl]; intros [| a] Ha; cbn in *; try lia.
        - reflexivity.
        - rewrite <- IHl by lia. now rewrite firstn_skipn. }
      assert (E2 : skipn a label_cuts = lbl a :: skipn (S a) label_cuts).
      { assert (Ha' : (a < List.length label_cuts)%nat) by (rewrite Hlab; exact Ha).
        unfold lbl. clear - Ha'. revert a Ha'.
        induction label_cuts as [| x l IHl]; intros [| a] Ha; cbn in *; try lia.
        - reflexivity.
        - now rewrite <- IHl by lia. }
      rewrite E1, E2. cbn [combine fold_left fst snd existsb].
      unfold has_pass at 2. now rewrite orb_assoc.
Qed.

(** One pass of the [while] loop over all the columns. *)
Lemma row_spec (cn : counters) (j : nat) :
  (forall i, (i < ncol)%nat -> col_inv all_cuts cn i j) ->
  exists cn',
    for_columns (column_body quant u width all_cuts label_cuts)
                (seq 0 ncol) (cn, "", false)
    = Ok (cn', table_row loc label_cuts all_cuts j,
          (j <? row_count all_cuts)%nat)
    /\ forall i, (i < ncol)%nat -> col_inv all_cuts cn' i (S j).
Proof.
  intros Hinv.
  destruct (for_columns_spec j ncol 0 cn "" false) as (cn' & Hrun & Hall).
  - lia.
  - intros i Hi. apply Hinv. lia.
  - intros i Hi. lia.
  - exists cn'. split; [| exact Hall]. rewrite Hrun. cbn [skipn orb].
    unfold has_pass. now rewrite has_pass_row_count.
Qed.

Lemma print_loop_spec :
  forall (k j : nat) (cn : counters) (w : world) (fuel : nat),
    (j + k = row_count all_cuts)%nat ->
    (forall i, (i < ncol)%nat -> col_inv all_cuts cn i j) ->
    budget w = None ->
    (k < fuel)%nat ->
    print_loop fuel quant u width all_cuts label_cuts ncol cn w
    = Some (mk_world (openable w) None (fd w)
              (List.app (chunks w)
                 (map (fun j' => table_row loc label_cuts all_cuts j' ++ nl)
                      (seq j k))),
            Ok tt).
Proof.
  induction k as [| k IH]; intros j cn w fuel Hjk Hinv Hb Hfuel;
    (destruct fuel as [| fuel]; [lia |]); cbn [print_loop];
    destruct (row_spec cn j Hinv) as (cn' & Hrow & Hinv'); rewrite Hrow.
  - destruct (Nat.ltb_spec j (row_count all_cuts)); [lia |].
    cbn [seq map]. rewrite List.app_nil_r. destruct w; cbn in *. now subst.
  - destruct (Nat.ltb_spec j (row_count all_cuts)); [| lia].
    unfold fd_write. rewrite Hb.
    rewrite (IH (S j) cn' _ fuel); cbn [budget openable fd chunks];
      try lia; auto.
    cbn [seq map]. now rewrite <- List.app_assoc.
Qed.

End PrintLoop.

(** ** The pass table: [print_table] *)

Lemma init_cut_index_length (f : nat -> Z) (n : nat) (l : list Z) :
  List.length (fold_left (fun ci icol => PyList.set ci icol (f icol))
                         (seq 0 n) l)
  = List.length l.
Proof.
  induction n as [| n IH]; [reflexivity |].
  rewrite seq_S, fold_left_app. cbn [fold_left Nat.add].
  now rewrite set_length.
Qed.

Lemma init_cut_index_nth (f : nat -> Z) (n : nat) (l : list Z) (i : nat) :
  (n <= List.length l)%nat -> (i < n)%nat ->
  nth_error (fold_left (fun ci icol => PyList.set ci icol (f icol))
                       (seq 0 n) l) i
  = Some (f i).
Proof.
  induction n as [| n IH]; intros Hn Hi; [lia |].
  rewrite seq_S, fold_left_app. cbn [fold_left Nat.add].
  destruct (Nat.eq_dec i n) as [-> | Hne].
  - apply nth_set_same. rewrite init_cut_index_length. lia.
  - rewrite nth_set_other by assumption. apply IH; lia.
Qed.

Lemma nth_error_repeat_lt {A : Type} (a : A) (n i : nat) :
  (i < n)%nat -> nth_error (List.repeat a n) i = Some a.
Proof.
  revert i. induction n as [| n IH]; intros [| i] Hi; cbn; try lia; auto.
  apply IH. lia.
Qed.

Lemma print_table_spec (fuel : nat) (quant : PyDecimal.t)
    (filename : string) (boards : list Board) (title : string) (w : world)
    (b0 : Board)
    (all_cuts : list (list Cut)) (label_cuts : list string)
    (tr : Units.translator) (loc : Z -> string) :
  PyList.index boards 0 = Ok b0 ->
  load_cuts boards = Ok (all_cuts, label_cuts) ->
  List.length label_cuts = List.length all_cuts ->
  Units.transl (units b0) = Some tr ->
  (forall cs c, In cs all_cuts -> In c cs -> passes c <> []) ->
  (forall cs c p, In cs all_cuts -> In c cs -> In p (passes c) ->
     Units.increments_to_string quant (units b0) (NInt (width b0 - p)) false
     = Ok (loc p)) ->
  openable w filename = true ->
  budget w = None ->
  (row_count all_cuts < fuel)%nat ->
  print_table fuel quant filename boards title w
  = Some (mk_world (openable w) None Closed
            ((title ++ nl)
             :: header (tr "Pass") (tr "Location") label_cuts
             :: table_rows loc label_cuts all_cuts),
          Ok tt).
Proof.
  intros Hb0 Hload Hlab Htr Hne Hloc Hopen Hbud Hfuel.
  unfold print_table. rewrite Hb0. cbn [bind]. rewrite Hload. cbn [bind].
  unfold Units.tr. rewrite Htr. cbn [bind].
  unfold io_bind, py_open, fd_write. rewrite Hopen, Hbud.
  cbn [budget openable fd chunks app].
  erewrite (print_loop_spec quant (units b0) (width b0) all_cuts label_cuts loc
              Hlab Hne Hloc (row_count all_cuts) 0).
  - reflexivity.
  - reflexivity.
  - intros i Hi. unfold col_inv. cbn [cut_index pass_index total_passes].
    assert (Hin : In (nth i all_cuts []) all_cuts) by (apply nth_In; exact Hi).
    destruct (remaining_start (nth i all_cuts [])
                (fun c => Hne _ c Hin)) as [Hrem Hval].
    exists (Z.of_nat (List.length (nth i all_cuts [])) - 1), 0.
    rewrite init_cut_index_nth by (rewrite ?repeat_length; lia).
    rewrite !nth_error_repeat_lt by exact Hi.
    repeat split; assumption.
  - reflexivity.
  - exact Hfuel.
Qed.

Lemma load_cuts_four (b0 b1 b2 b3 : Board) (more : list Board) :
  load_cuts (b0 :: b1 :: b2 :: b3 :: more)
  = Ok (([bottom_cuts b0]
         ++ (if active b3 then [top_cuts b3; bottom_cuts b3] else [])
         ++ (if active b2 then [top_cuts b2; bottom_cuts b2] else [])
         ++ [top_cuts b1])%list,
        "A" :: firstn (1 + (if active b3 then 2 else 0)
                         + (if active b2 then 2 else 0)) labels).
Proof.
  unfold load_cuts.
  rewrite (index_nth_Z _ 0 b0), (index_nth_Z _ 3 b3), (index_nth_Z _ 2 b2),
    (index_nth_Z _ 1 b1) by first [lia | reflexivity].
  cbn [bind]. destruct (active b3), (active b2); reflexivity.
Qed.

(** A cut without passes stops the loop: [c.passes[np - pi - 1]] is
    [passes[-1]] on an empty list. *)
Lemma print_table_empty_cut_raises :
  exists w',
    print_table 10 Sample.quant3 "table.txt" Sample.boards_empty_cut "T"
      Sample.fresh_file
    = Some (w', Raise IndexError).
Proof. eexists. vm_compute. reflexivity. Qed.

(** C5: with boards 2 and 3 inactive the table has the two columns 'A'
    ([bottom_cuts] of board 0) and 'B' ([top_cuts] of board 1); the
    number of data rows is the larger of the two pass counts; and in a
    row past the end of a column that column, and no other, shows the
    filler cells. *)
Theorem print_table_two_columns (fuel : nat) (quant : PyDecimal.t)
    (filename : string) (b0 b1 b2 b3 : Board) (more : list Board)
    (title : string) (w : world)
    (tr : Units.translator) (loc : Z -> string) :
  let col_a := bottom_cuts b0 in
  let col_b := top_cuts b1 in
  active b2 = false ->
  active b3 = false ->
  Units.transl (units b0) = Some tr ->
  (forall c, In c col_a \/ In c col_b -> passes c <> []) ->
  (forall c p, In c col_a \/ In c col_b -> In p (passes c) ->
     Units.increments_to_string quant (units b0) (NInt (width b0 - p)) false
     = Ok (loc p)) ->
  openable w filename = true ->
  budget w = None ->
  (Nat.max (pass_count col_a) (pass_count col_b) < fuel)%nat ->
  print_table fuel quant filename (b0 :: b1 :: b2 :: b3 :: more) title w
  = Some (mk_world (openable w) None Closed
            ((title ++ nl)
             :: header (tr "Pass") (tr "Location") ["A"; "B"]
             :: map (fun j => cell loc "A" (order col_a) j
                              ++ cell loc "B" (order col_b) j ++ nl)
                    (seq 0 (Nat.max (pass_count col_a) (pass_count col_b)))),
          Ok tt)
  /\ forall lbl cs j,
       cell loc lbl (order cs) j
       = match nth_error (order cs) j with
         | Some p => form (PyStr.of_Z (Z.of_nat j + 1) ++ lbl) (loc p)
         | None => form "**" "**"
         end
       /\ ((pass_count cs <= j)%nat -> nth_error (order cs) j = None).
Proof.
  intros col_a col_b H2 H3 Htr Hne Hloc Hopen Hbud Hfuel. split.
  - rewrite (print_table_spec fuel quant filename _ title w b0
               [col_a; col_b] ["A"; "B"] tr loc).
    + unfold table_rows, table_row, row_count. cbn [map fold_right combine fold_left fst snd].
      rewrite Nat.max_0_r. do 5 f_equal. apply map_ext. intros j.
      cbn [String.append]. now rewrite append_assoc.
    + now apply index_nth_Z.
    + rewrite load_cuts_four, H2, H3. reflexivity.
    + reflexivity.
    + exact Htr.
    + intros cs c [<- | [<- | []]] Hc; apply Hne; auto.
    + intros cs c p [<- | [<- | []]] Hc Hp; eapply Hloc; eauto.
    + exact Hopen.
    + exact Hbud.
    + unfold row_count. cbn [map fold_right]. now rewrite Nat.max_0_r.
  - intros lbl cs j. split; [reflexivity |].
    intros Hj. apply nth_error_None. unfold order, pass_count in *.
    now rewrite List.length_rev.
Qed.

Lemma print_table_two_columns_witness :
  print_table 4 Sample.quant3 "table.txt" Sample.boards "Joint"
    Sample.fresh_file
  = Some (mk_world (fun _ => true) None Closed
            (("Joint" ++ nl)
             :: header "Pass" "Location" ["A"; "B"]
             :: map (fun j =>
                       cell Sample.loc32 "A" (order [mk_Cut [1; 2]; mk_Cut [3]]) j
                       ++ cell Sample.loc32 "B" (order [mk_Cut [10]]) j ++ nl)
                    (seq 0 3)),
          Ok tt).
Proof.
  apply (print_table_two_columns 4 Sample.quant3 "table.txt"
           (Sample.board_of Sample.english32 [] [mk_Cut [1; 2]; mk_Cut [3]])
           (Sample.board_of Sample.english32 [mk_Cut [10]] [])
           (mk_Board Sample.english32 256 false [] [])
           (mk_Board Sample.english32 256 false [] []) []
           "Joint" Sample.fresh_file Sample.tr_id Sample.loc32).
  - reflexivity.
  - reflexivity.
  - reflexivity.
  - cbn. intros c [[<- | [<- | []]] | [<- | []]]; discriminate.
  - cbn. intros c p [[<- | [<- | []]] | [<- | []]] Hp; cbn in Hp;
      repeat (destruct Hp as [<- | Hp]; [vm_compute; reflexivity |]);
      destruct Hp.
  - reflexivity.
  - reflexivity.
  - vm_compute. lia.
Defined.

(** C6: the columns are [bottom_cuts] of board 0 as 'A', then the top
    and bottom cuts of board 3 when it is active, then those of board 2
    when it is active, then [top_cuts] of board 1, labelled in this order
    from A to F; and the rows list each column's passes from the last
    pass of the last cut back to the first pass of the first cut. *)
Theorem print_table_columns_and_order (fuel : nat) (quant : PyDecimal.t)
    (filename : string) (b0 b1 b2 b3 : Board) (more : list Board)
    (title : string) (w : world)
    (tr : Units.translator) (loc : Z -> string) :
  let all_cuts :=
    ([bottom_cuts b0]
     ++ (if active b3 then [top_cuts b3; bottom_cuts b3] else [])
     ++ (if active b2 then [top_cuts b2; bottom_cuts b2] else [])
     ++ [top_cuts b1])%list in
  let label_cuts :=
    firstn (List.length all_cuts) ["A"; "B"; "C"; "D"; "E"; "F"] in
  load_cuts (b0 :: b1 :: b2 :: b3 :: more) = Ok (all_cuts, label_cuts)
  /\ (Units.transl (units b0) = Some tr ->
      (forall cs c, In cs all_cuts -> In c cs -> passes c <> []) ->
      (forall cs c p, In cs all_cuts -> In c cs -> In p (passes c) ->
         Units.increments_to_string quant (units b0) (NInt (width b0 - p))
           false
         = Ok (loc p)) ->
      openable w filename = true ->
      budget w = None ->
      (row_count all_cuts < fuel)%nat ->
      print_table fuel quant filename (b0 :: b1 :: b2 :: b3 :: more) title w
      = Some (mk_world (openable w) None Closed
                ((title ++ nl)
                 :: header (tr "Pass") (tr "Location") label_cuts
                 :: map (fun j => table_row loc label_cuts all_cuts j ++ nl)
                        (seq 0 (row_count all_cuts))),
              Ok tt))
  /\ (forall lbl cs j,
        cell loc lbl (order cs) j
        = match nth_error (List.rev (List.concat (map passes cs))) j with
          | Some p => form (PyStr.of_Z (Z.of_nat j + 1) ++ lbl) (loc p)
          | None => form "**" "**"
          end).
Proof.
  intros all_cuts label_cuts.
  assert (Hload : load_cuts (b0 :: b1 :: b2 :: b3 :: more)
                  = Ok (all_cuts, label_cuts)).
  { rewrite load_cuts_four. subst label_cuts all_cuts.
    destruct (active b3), (active b2); reflexivity. }
  split; [exact Hload | split; [| reflexivity]].
  intros Htr Hne Hloc Hopen Hbud Hfuel.
  apply (print_table_spec fuel quant filename _ title w b0 all_cuts
           label_cuts tr loc);
    try assumption.
  - now apply index_nth_Z.
  - subst label_cuts all_cuts. destruct (active b3), (active b2); reflexivity.
Qed.

Lemma print_table_columns_and_order_witness :
  load_cuts Sample.boards_cauls
  = Ok ([[mk_Cut [1; 2]; mk_Cut [3]]; [mk_Cut [7]]; [mk_Cut [8]];
         [mk_Cut [4]]; [mk_Cut [5; 6]]; [mk_Cut [10]]],
        ["A"; "B"; "C"; "D"; "E"; "F"])
  /\ exists rows,
       print_table 4 Sample.quant3 "table.txt" Sample.boards_cauls "Joint"
         Sample.fresh_file
       = Some (mk_world (fun _ => true) None Closed rows, Ok tt).
Proof.
  destruct (print_table_columns_and_order 4 Sample.quant3 "table.txt"
              (Sample.board_of Sample.english32 [] [mk_Cut [1; 2]; mk_Cut [3]])
              (Sample.board_of Sample.english32 [mk_Cut [10]] [])
              (Sample.board_of Sample.english32 [mk_Cut [4]] [mk_Cut [5; 6]])
              (Sample.board_of Sample.english32 [mk_Cut [7]] [mk_Cut [8]]) []
              "Joint" Sample.fresh_file Sample.tr_id Sample.loc32)
    as (Hcols & Hrows & _).
  split; [exact Hcols |].
  eexists. apply Hrows.
  - reflexivity.
  - cbn. intros cs c Hcs Hc.
    repeat (destruct Hcs as [<- | Hcs];
            [cbn in Hc; repeat (destruct Hc as [<- | Hc]; [discriminate |]);
             destruct Hc |]).
    destruct Hcs.
  - cbn. intros cs c p Hcs Hc Hp.
    repeat (destruct Hcs as [<- | Hcs];
            [cbn in Hc;
             repeat (destruct Hc as [<- | Hc];
                     [cbn in Hp;
                      repeat (destruct Hp as [<- | Hp];
                              [vm_compute; reflexivity |]);
                      destruct Hp |]);
             destruct Hc |]).
    destruct Hcs.
  - reflexivity.
  - reflexivity.
  - vm_compute. lia.
Defined.

(* ================================================================= *)
(** * Further properties *)

(** ** More on strings *)

Lemma length_append (a b : string) :
  String.length (a ++ b) = (String.length a + String.length b)%nat.
Proof. induction a as [| c a IH]; cbn; [reflexivity | now rewrite IH]. Qed.

Lemma take_app (a b : string) : PyStr.take (String.length a) (a ++ b) = a.
Proof. induction a as [| c a IH]; cbn; [now destruct b | now rewrite IH]. Qed.

Lemma split_length (c : ascii) (s : string) :
  List.length (PyStr.split c s) = S (count c s).
Proof.
  induction s as [| d s IH]; cbn [PyStr.split count]; [reflexivity |].
  destruct (Ascii.eqb d c).
  - cbn [List.length]. now rewrite IH.
  - destruct (PyStr.split c s) as [| p ps]; cbn in *; lia.
Qed.

Lemma count_app (c : ascii) (a b : string) :
  count c (a ++ b) = (count c a + count c b)%nat.
Proof. induction a as [| d a IH]; cbn; [reflexivity | rewrite IH; lia]. Qed.

Lemma count_lacks (c : ascii) (s : string) :
  lacks c s = true -> count c s = 0%nat.
Proof.
  induction s as [| d s IH]; cbn; [reflexivity |].
  intros H. apply andb_true_iff in H as [Hd Hs].
  destruct (Ascii.eqb d c); [discriminate | now apply IH].
Qed.

Lemma prefix_split (a s : string) :
  String.prefix a s = true -> s = a ++ PyStr.drop (String.length a) s.
Proof.
  revert s. induction a as [| c a IH]; intros s.
  - reflexivity.
  - destruct s as [| d s]; cbn; [intros H; discriminate H |].
    destruct (ascii_dec c d) as [-> | _]; [| intros H; discriminate H].
    intros H. now rewrite <- IH.
Qed.

Lemma count_replace_first (c : ascii) (old new s : string) :
  lacks c old = true -> lacks c new = true ->
  count c (PyStr.replace_first old new s) = count c s.
Proof.
  intros Ho Hn. induction s as [| d s IH].
  - cbn [PyStr.replace_first]. destruct (String.prefix old "") eqn:Hp.
    + rewrite count_app, (count_lacks c new Hn). cbn.
      destruct old; reflexivity.
    + reflexivity.
  - cbn [PyStr.replace_first]. destruct (String.prefix old (String d s)) eqn:Hp.
    + apply prefix_split in Hp. rewrite Hp at 2.
      rewrite !count_app, (count_lacks c new Hn), (count_lacks c old Ho).
      reflexivity.
    + cbn [count]. now rewrite IH.
Qed.

Lemma find_from_absent (c : ascii) (s : string) (i : Z) :
  0 <= i -> PyStr.find_from c s i = -1 -> lacks c s = true.
Proof.
  revert i. induction s as [| d s IH]; intros i Hi; cbn; [reflexivity |].
  destruct (Ascii.eqb d c); [lia |]. intros H. cbn. apply (IH (i + 1)); lia.
Qed.

Lemma split_ws_nonspace (s : string) :
  all_chars (fun c => negb (PyStr.is_space c)) s = true -> s <> "" ->
  PyStr.split_ws s = [s].
Proof.
  intros Hs Hne. rewrite <- (append_nil_r s) at 1.
  now rewrite split_ws_word.
Qed.

Lemma to_Z_minus (z : Z) :
  0 <= z -> PyStr.to_Z (String "-" (PyStr.of_Z z)) = Ok (- z).
Proof.
  intros Hz. destruct (of_Z_digits z Hz) as [Hd Hne].
  destruct (of_Z_nonneg z Hz) as (d & Hdn & Hs & Hv).
  assert (Hns : all_chars (fun c => negb (PyStr.is_space c))
                  (String "-" (PyStr.of_Z z)) = true).
  { cbn [all_chars]. rewrite digits_nonspace by exact Hd. reflexivity. }
  unfold PyStr.to_Z.
  rewrite int_lstrip_nonspace, int_rstrip_nonspace by exact Hns.
  unfold PyStr.unsigned_of_string.
  rewrite digits_body_digits by (auto; now left).
  now rewrite Hs, NilEmpty.usu, Hv.
Qed.

(** ** Counting decimal digits *)

Lemma of_uint_acc_bounds (d : uint) :
  forall acc,
    Z.pos acc * 10 ^ Z.of_nat (nb_digits d)
    <= Z.pos (Pos.of_uint_acc d acc)
    < (Z.pos acc + 1) * 10 ^ Z.of_nat (nb_digits d).
Proof.
  induction d as [| d IH | d IH | d IH | d IH | d IH | d IH | d IH | d IH
                  | d IH | d IH]; intros acc;
    cbn [Pos.of_uint_acc nb_digits];
    [cbn; lia | ..];
    rewrite Nat2Z.inj_succ, Z.pow_succ_r by lia;
    assert (0 < 10 ^ Z.of_nat (nb_digits d)) by (apply Z.pow_pos_nonneg; lia);
    match goal with
    | |- _ <= Z.pos (Pos.of_uint_acc d ?a) < _ => specialize (IH a)
    end;
    rewrite ?Pos2Z.inj_add, ?Pos2Z.inj_mul in IH; nia.
Qed.

Lemma nzhead_head (d : uint) :
  match nzhead d with D0 _ => False | _ => True end.
Proof. induction d; cbn; auto. Qed.

Lemma to_uint_bounds (p : positive) :
  10 ^ (Z.of_nat (nb_digits (Pos.to_uint p)) - 1) <= Z.pos p
  < 10 ^ Z.of_nat (nb_digits (Pos.to_uint p)).
Proof.
  pose proof (DecimalPos.Unsigned.of_to p) as Hof.
  pose proof (DecimalPos.Unsigned.to_of (Pos.to_uint p)) as Hto.
  rewrite Hof in Hto. cbn [N.to_uint] in Hto.
  pose proof (Unsigned.to_uint_nonnil p) as Hnn.
  destruct (Pos.to_uint p) as [| l | l | l | l | l | l | l | l | l | l];
    [congruence | ..].
  1: { exfalso. unfold unorm in Hto. cbn [nzhead] in Hto.
       pose proof (nzhead_head l) as Hh.
       destruct (nzhead l) eqn:En; try discriminate; try contradiction.
       injection Hto as El. subst l. cbn in Hof. discriminate. }
  all: cbn [Pos.of_uint] in Hof; injection Hof as <-;
    cbn [nb_digits]; rewrite Nat2Z.inj_succ;
    match goal with
    | |- _ <= Z.pos (Pos.of_uint_acc ?d ?a) < _ =>
        pose proof (of_uint_acc_bounds d a);
        assert (0 < 10 ^ Z.of_nat (nb_digits d))
          by (apply Z.pow_pos_nonneg; lia);
        replace (Z.succ (Z.of_nat (nb_digits d)) - 1)
          with (Z.of_nat (nb_digits d)) by lia
    end;
    rewrite Z.pow_succ_r by lia; lia.
Qed.

Lemma num_digits_bounds (n : Z) :
  0 < n ->
  1 <= PyDecimal.num_digits n
  /\ 10 ^ (PyDecimal.num_digits n - 1) <= n < 10 ^ PyDecimal.num_digits n.
Proof.
  intros Hn. destruct n as [| p | p]; try lia.
  unfold PyDecimal.num_digits. cbn [Z.to_N N.to_uint].
  pose proof (to_uint_bounds p) as Hb. split; [| exact Hb].
  pose proof (Unsigned.to_uint_nonnil p).
  destruct (Pos.to_uint p); [congruence | cbn [nb_digits]; lia ..].
Qed.

Lemma num_digits_le (n k : Z) :
  0 < n -> n < 10 ^ k -> PyDecimal.num_digits n <= k.
Proof.
  intros Hn Hk. destruct (num_digits_bounds n Hn) as (H1 & Hlo & _).
  assert (0 <= k).
  { destruct (Z.ltb_spec k 0); [| lia]. rewrite Z.pow_neg_r in Hk; lia. }
  assert (PyDecimal.num_digits n - 1 < k); [| lia].
  apply (Z.pow_lt_mono_r_iff 10); lia.
Qed.

(** ** Decimal arithmetic on numbers of at most 28 digits *)

Lemma pow10_pos (k : Z) : 0 <= k -> 0 < 10 ^ k.
Proof. intros. apply Z.pow_pos_nonneg; lia. Qed.

Lemma fix_context_id (s : bool) (c e : Z) :
  0 < c < 10 ^ 28 -> PyDecimal.etiny <= e <= PyDecimal.etop ->
  PyDecimal.fix_context (PyDecimal.mk s c e) = Ok (PyDecimal.mk s c e).
Proof.
  intros Hc He. unfold PyDecimal.fix_context.
  cbn [PyDecimal.dcoef PyDecimal.dexp PyDecimal.dneg].
  destruct (Z.eqb_spec c 0); [lia |].
  pose proof (num_digits_le c 28 ltac:(lia) ltac:(lia)) as Hd.
  unfold PyDecimal.context_prec in *.
  destruct (Z.ltb_spec PyDecimal.etop (PyDecimal.num_digits c + e - 28)); [lia |].
  destruct (Z.ltb_spec e (Z.max (PyDecimal.num_digits c + e - 28) PyDecimal.etiny));
    [lia | reflexivity].
Qed.

Lemma fix_context_zero (s : bool) (e : Z) :
  PyDecimal.etiny <= e <= PyDecimal.context_emax ->
  PyDecimal.fix_context (PyDecimal.mk s 0 e) = Ok (PyDecimal.mk s 0 e).
Proof.
  intros He. unfold PyDecimal.fix_context.
  cbn [PyDecimal.dcoef PyDecimal.dexp PyDecimal.dneg Z.eqb].
  do 2 f_equal. lia.
Qed.

Lemma fix_context_small (s : bool) (c e : Z) :
  0 <= c < 10 ^ 28 -> PyDecimal.etiny <= e <= PyDecimal.etop ->
  PyDecimal.fix_context (PyDecimal.mk s c e) = Ok (PyDecimal.mk s c e).
Proof.
  intros Hc He. destruct (Z.eq_dec c 0) as [-> | Hc0].
  - apply fix_context_zero. unfold PyDecimal.etop, PyDecimal.context_prec,
      PyDecimal.context_emax in *. lia.
  - apply fix_context_id; [lia | exact He].
Qed.

Lemma num_digits_1 : PyDecimal.num_digits 1 = 1.
Proof. reflexivity. Qed.

Lemma num_digits_5 : PyDecimal.num_digits 5 = 1.
Proof. reflexivity. Qed.

(** Division by 1: the quotient is [|d|] truncated to an integer, the
    remainder its fractional digits. *)
Lemma divide_one (s : bool) (c e : Z) :
  0 <= c ->
  let t := if 0 <=? e then c * 10 ^ e else c / 10 ^ (- e) in
  t < 10 ^ 28 ->
  PyDecimal.divide (PyDecimal.mk s c e) (PyDecimal.of_Z 1)
  = Ok (PyDecimal.mk s t 0,
        PyDecimal.mk s (if 0 <=? e then 0 else c mod 10 ^ (- e)) (Z.min e 0)).
Proof.
  intros Hc t Ht.
  assert (Et1 : 0 <= e -> t = c * 10 ^ e)
    by (intros; subst t; destruct (Z.leb_spec 0 e); [reflexivity | lia]).
  assert (Et2 : e < 0 -> t = c / 10 ^ (- e))
    by (intros; subst t; destruct (Z.leb_spec 0 e); [lia | reflexivity]).
  clearbody t.
  unfold PyDecimal.divide, PyDecimal.adjusted, PyDecimal.of_Z,
    PyDecimal.pad.
  cbn [PyDecimal.dcoef PyDecimal.dexp PyDecimal.dneg Z.ltb Z.compare Z.abs].
  rewrite num_digits_1, xorb_false_r.
  destruct (Z.eqb_spec c 0) as [-> | Hc0].
  - cbn [orb].
    destruct (Z.leb_spec 0 e).
    + rewrite Z.min_r by lia. rewrite Et1 by lia. rewrite Z.mul_0_l. reflexivity.
    + rewrite Z.min_l by lia. rewrite Et2 by lia.
      rewrite Z.mul_0_l, Z.div_0_l, Z.mod_0_l;
        try reflexivity; pose proof (pow10_pos (- e)); lia.
  - cbn [orb]. destruct (num_digits_bounds c ltac:(lia)) as (Hd1 & Hlo & Hhi).
    set (nd := PyDecimal.num_digits c) in *.
    replace (e + nd - 1 - (0 + 1 - 1)) with (e + nd - 1) by lia.
    destruct (Z.leb_spec (e + nd - 1) (-2)) as [Hs | Hs].
    + (* c < 10^(-e-1) *)
      assert (He : e < 0) by lia.
      assert (Hlt : c < 10 ^ (- e)).
      { apply Z.lt_le_trans with (10 ^ nd); [lia |].
        apply Z.pow_le_mono_r; lia. }
      destruct (Z.leb_spec 0 e); [lia |].
      rewrite Z.min_l by lia. rewrite Z.sub_diag, Z.pow_0_r, Z.mul_1_r.
      rewrite Et2 by lia.
      rewrite Z.div_small, Z.mod_small by lia. reflexivity.
    + unfold PyDecimal.context_prec.
      destruct (Z.leb_spec (e + nd - 1) 28) as [Hm | Hm].
      * destruct (Z.leb_spec 0 e) as [He | He].
        -- rewrite Z.sub_0_r, Z.div_1_r, Z.mod_1_r, Z.min_r by lia.
           rewrite <- Et1 by lia.
           destruct (Z.ltb_spec t (10 ^ 28)); [reflexivity | lia].
        -- rewrite Z.sub_0_l, Z.mul_1_l, Z.min_l by lia.
           rewrite <- Et2 by lia.
           destruct (Z.ltb_spec t (10 ^ 28)); [reflexivity | lia].
      * exfalso. (* 10^29 <= t *)
        assert (Hbig : 10 ^ 29 <= t); [| lia].
        destruct (Z.leb_spec 0 e) as [He | He].
        -- rewrite Et1 by lia. apply Z.le_trans with (10 ^ (nd - 1) * 10 ^ e).
           ++ rewrite <- Z.pow_add_r by lia. apply Z.pow_le_mono_r; lia.
           ++ apply Z.mul_le_mono_nonneg_r; [pose proof (pow10_pos e); lia | lia].
        -- rewrite Et2 by lia.
           apply Z.div_le_lower_bound; [apply pow10_pos; lia |].
           apply Z.le_trans with (10 ^ (nd - 1)); [| lia].
           rewrite <- Z.pow_add_r by lia. apply Z.pow_le_mono_r; lia.
Qed.

Lemma floordiv_one (s : bool) (c e : Z) :
  0 <= c ->
  let t := if 0 <=? e then c * 10 ^ e else c / 10 ^ (- e) in
  t < 10 ^ 28 ->
  PyDecimal.floordiv (PyDecimal.mk s c e) (PyDecimal.of_Z 1)
  = Ok (PyDecimal.mk s t 0).
Proof.
  intros Hc t Ht. unfold PyDecimal.floordiv.
  change (PyDecimal.dcoef (PyDecimal.of_Z 1) =? 0) with false. cbn iota.
  rewrite divide_one by assumption. reflexivity.
Qed.

Lemma rem_one (s : bool) (c e : Z) :
  0 <= c < 10 ^ 28 ->
  (if 0 <=? e then c * 10 ^ e else c / 10 ^ (- e)) < 10 ^ 28 ->
  PyDecimal.etiny <= e ->
  PyDecimal.rem (PyDecimal.mk s c e) (PyDecimal.of_Z 1)
  = Ok (PyDecimal.mk s (if 0 <=? e then 0 else c mod 10 ^ (- e)) (Z.min e 0)).
Proof.
  intros Hc Ht He. unfold PyDecimal.rem.
  change (PyDecimal.dcoef (PyDecimal.of_Z 1) =? 0) with false. cbn iota.
  rewrite divide_one by (assumption || lia). cbn [bind].
  apply fix_context_small.
  - destruct (Z.leb_spec 0 e); [lia |].
    pose proof (Z.mod_pos_bound c (10 ^ (- e)) (pow10_pos (- e) ltac:(lia))).
    assert (c mod 10 ^ (- e) <= c) by (apply Z.mod_le; [lia | apply pow10_pos; lia]).
    lia.
  - unfold PyDecimal.etop, PyDecimal.etiny, PyDecimal.context_emin,
      PyDecimal.context_emax, PyDecimal.context_prec in *. lia.
Qed.

Lemma strip_zeros_spec (fuel : nat) :
  forall coeff exp,
    0 < coeff ->
    let r := PyDecimal.strip_zeros fuel coeff exp in
    0 < fst r
    /\ exp <= snd r <= exp + Z.of_nat fuel
    /\ coeff = fst r * 10 ^ (snd r - exp)
    /\ (snd r < exp + Z.of_nat fuel -> (fst r) mod 10 <> 0).
Proof.
  induction fuel as [| fuel IH]; intros coeff exp Hc; cbn [PyDecimal.strip_zeros].
  - cbn [fst snd]. rewrite Z.sub_diag, Z.pow_0_r. repeat split; lia.
  - destruct (Z.eqb_spec (coeff mod 10) 0) as [E | E].
    + pose proof (Z.div_mod coeff 10 ltac:(lia)) as Hdm. rewrite E in Hdm.
      destruct (IH (coeff / 10) (exp + 1) ltac:(lia)) as (H1 & H2 & H3 & H4).
      set (r := PyDecimal.strip_zeros fuel (coeff / 10) (exp + 1)) in *.
      rewrite Nat2Z.inj_succ. repeat split; try lia.
      replace (snd r - exp) with (Z.succ (snd r - (exp + 1))) by lia.
      rewrite Z.pow_succ_r by lia. lia.
    + cbn [fst snd]. rewrite Z.sub_diag, Z.pow_0_r. repeat split; lia.
Qed.

Lemma truediv_half (s : bool) (c e : Z) :
  0 <= c -> 2 * c < 10 ^ 28 -> PyDecimal.etiny <= e <= 0 ->
  exists c' e',
    PyDecimal.truediv (PyDecimal.mk s c e) (PyDecimal.mk false 5 (-1))
    = Ok (PyDecimal.mk s c' e')
    /\ 0 <= c' /\ e <= e' <= e + 1 /\ c' * 10 ^ (e' - e) = 2 * c.
Proof.
  intros Hc Hc2 He. unfold PyDecimal.truediv.
  cbn [PyDecimal.dcoef PyDecimal.dexp PyDecimal.dneg Z.eqb].
  rewrite xorb_false_r.
  assert (Hrange : PyDecimal.etiny <= e + 1 <= PyDecimal.etop)
    by (unfold PyDecimal.etop, PyDecimal.etiny, PyDecimal.context_emin,
          PyDecimal.context_emax, PyDecimal.context_prec in *; lia).
  destruct (Z.eqb_spec c 0) as [-> | Hc0].
  - exists 0, (e + 1). replace (e - -1) with (e + 1) by lia.
    rewrite fix_context_small by lia. repeat split; lia.
  - pose proof (num_digits_le c 28 ltac:(lia) ltac:(lia)) as Hd.
    destruct (num_digits_bounds c ltac:(lia)) as (Hd1 & _ & _).
    rewrite num_digits_5. unfold PyDecimal.context_prec.
    set (nd := PyDecimal.num_digits c) in *.
    set (shift := 1 - nd + 28 + 1).
    assert (Hsh : 2 <= shift <= 29) by (subst shift; lia).
    destruct (Z.leb_spec 0 shift); [| lia].
    assert (Hn : c * 10 ^ shift = (2 * c * 10 ^ (shift - 1)) * 5).
    { replace shift with (Z.succ (shift - 1)) at 1 by lia.
      rewrite Z.pow_succ_r by lia. ring. }
    rewrite Hn, Z.mod_mul, Z.div_mul by lia. cbn [Z.eqb negb].
    replace (e - -1 - (e - -1 - shift)) with shift by lia.
    assert (Hpos : 0 < 2 * c * 10 ^ (shift - 1)).
    { pose proof (pow10_pos (shift - 1) ltac:(lia)). nia. }
    destruct (strip_zeros_spec (Z.to_nat shift) (2 * c * 10 ^ (shift - 1))
                (e - -1 - shift) Hpos) as (H1 & H2 & H3 & H4).
    destruct (PyDecimal.strip_zeros (Z.to_nat shift) (2 * c * 10 ^ (shift - 1))
                (e - -1 - shift)) as [c' e'].
    cbn [fst snd] in *. rewrite Z2Nat.id in H2, H4 by lia.
    assert (Hlow : e <= e').
    { destruct (Z.ltb_spec e' e) as [Hlt | ?]; [exfalso | lia].
      apply H4; [lia |].
      (* c' = (2 c 10^(e - e' - 1)) * 10 *)
      assert (Hc' : c' = 2 * c * 10 ^ (e - e' - 1) * 10).
      { assert (0 < 10 ^ (e' - (e - -1 - shift))) by (apply pow10_pos; lia).
        apply (Z.mul_cancel_r _ _ (10 ^ (e' - (e - -1 - shift)))); [lia |].
        rewrite <- H3.
        replace (shift - 1) with ((e - e' - 1) + 1 + (e' - (e - -1 - shift))) by lia.
        rewrite !Z.pow_add_r by lia. ring. }
      rewrite Hc'. apply Z.mod_mul. lia. }
    assert (Hval : c' * 10 ^ (e' - e) = 2 * c).
    { assert (0 < 10 ^ (shift - 1)) by (apply pow10_pos; lia).
      apply (Z.mul_cancel_r _ _ (10 ^ (shift - 1))); [lia |].
      rewrite H3.
      replace (e' - (e - -1 - shift)) with ((e' - e) + (shift - 1)) by lia.
      rewrite Z.pow_add_r by lia. ring. }
    assert (Hc'le : c' <= 2 * c).
    { pose proof (pow10_pos (e' - e) ltac:(lia)). nia. }
    exists c', e'. rewrite fix_context_id by lia. repeat split; lia.
Qed.

Lemma add_same_sign (s : bool) (a b : Z) :
  0 <= a -> 0 <= b -> a + b < 10 ^ 28 ->
  PyDecimal.add (PyDecimal.mk s a 0) (PyDecimal.mk s b 0)
  = Ok (PyDecimal.mk s (a + b) 0).
Proof.
  intros Ha Hb Hab. unfold PyDecimal.add, PyDecimal.pad, PyDecimal.normalize.
  cbn [PyDecimal.dcoef PyDecimal.dexp PyDecimal.dneg Z.ltb Z.compare Z.min].
  assert (Hr : PyDecimal.etiny <= 0 <= PyDecimal.etop)
    by (unfold PyDecimal.etop, PyDecimal.etiny, PyDecimal.context_emin,
          PyDecimal.context_emax, PyDecimal.context_prec; lia).
  unfold PyDecimal.context_prec.
  destruct (Z.eqb_spec a 0) as [-> | Ha0], (Z.eqb_spec b 0) as [-> | Hb0];
    cbn [andb].
  - rewrite andb_diag. apply fix_context_small; lia.
  - cbn [Z.sub Z.opp Z.max Z.add Z.pos_sub Z.compare Pos.compare Pos.compare_cont
         Z.pow Z.mul]. rewrite Z.mul_1_r. apply fix_context_small; lia.
  - cbn [Z.sub Z.opp Z.max Z.add Z.pos_sub Z.compare Pos.compare Pos.compare_cont
         Z.pow Z.mul]. rewrite Z.mul_1_r, Z.add_0_r. apply fix_context_small; lia.
  - destruct (num_digits_bounds a ltac:(lia)) as (Hda & _ & _).
    destruct (num_digits_bounds b ltac:(lia)) as (Hdb & _ & _).
    destruct (Z.ltb_spec (PyDecimal.num_digits b + 0 - 1)
                (0 + Z.min (-1) (PyDecimal.num_digits a - 28 - 2))); [lia |].
    cbn [PyDecimal.dcoef PyDecimal.dexp PyDecimal.dneg].
    rewrite xorb_nilpotent. rewrite Z.sub_diag, Z.pow_0_r, Z.mul_1_r.
    apply fix_context_small; lia.
Qed.

Lemma half_away_split (c k : Z) :
  0 <= c -> 0 < k ->
  c / k + (2 * (c mod k)) / k = (2 * c + k) / (2 * k).
Proof.
  intros Hc Hk. pose proof (Z.div_mod c k ltac:(lia)) as E.
  pose proof (Z.mod_pos_bound c k Hk) as B.
  set (q := c / k) in *. set (r := c mod k) in *.
  destruct (Z.ltb_spec (2 * r) k) as [Hlt | Hge].
  - rewrite (Z.div_small (2 * r) k) by lia.
    apply Z.div_unique with (r := 2 * r + k); nia.
  - assert (E1 : 2 * r / k = 1)
      by (symmetry; apply Z.div_unique with (r := 2 * r - k); lia).
    rewrite E1. apply Z.div_unique with (r := 2 * r - k); nia.
Qed.

(** ** [math_round] *)

(** X1: on a [Decimal] with coefficient [c] and exponent [e] such that
    [c * 10^max(0, e) < 10^27] (a coefficient of at most 27 digits and
    a magnitude below 10^27) and [-1000026 <= e], [math_round] returns
    the nearest integer, a tie going away from zero.  The bound on the
    digits is needed: of the 28 digits of 0.9999999999999999999999999999
    the division by 0.5 makes 2.000000000000000000000000000. *)
Theorem math_round_half_away (d : PyDecimal.t) :
  0 <= PyDecimal.dcoef d ->
  PyDecimal.dcoef d * 10 ^ Z.max 0 (PyDecimal.dexp d) < 10 ^ 27 ->
  -1000026 <= PyDecimal.dexp d ->
  math_round (RDecimal d) = Ok (round_half_away d).
Proof.
  destruct d as [s c e]. cbn [PyDecimal.dcoef PyDecimal.dexp].
  intros Hc Hb He. unfold math_round, round_half_away.
  cbn [PyDecimal.dcoef PyDecimal.dexp PyDecimal.dneg].
  assert (Hpw : 10 ^ 28 = 10 * 10 ^ 27) by reflexivity.
  assert (Hp27 : 0 < 10 ^ 27) by reflexivity.
  assert (Hc27 : c < 10 ^ 27).
  { pose proof (pow10_pos (Z.max 0 e) ltac:(lia)). nia. }
  set (t := if 0 <=? e then c * 10 ^ e else c / 10 ^ (- e)).
  assert (Ht : 0 <= t < 10 ^ 27).
  { subst t. destruct (Z.leb_spec 0 e).
    - rewrite Z.max_r in Hb by lia. pose proof (pow10_pos e ltac:(lia)). nia.
    - pose proof (pow10_pos (- e) ltac:(lia)).
      split; [apply Z.div_pos; lia |].
      apply Z.le_lt_trans with c; [| lia].
      apply Z.div_le_upper_bound; nia. }
  assert (Het : PyDecimal.etiny <= e) by (unfold PyDecimal.etiny,
    PyDecimal.context_emin, PyDecimal.context_prec; lia).
  rewrite (floordiv_one s c e Hc) by (fold t; lia). fold t. cbn [bind].
  rewrite (rem_one s c e) by (fold t; lia). cbn [bind].
  set (r := if 0 <=? e then 0 else c mod 10 ^ (- e)).
  assert (Hr : 0 <= r <= c).
  { subst r. destruct (Z.leb_spec 0 e); [lia |].
    pose proof (Z.mod_pos_bound c (10 ^ (- e)) (pow10_pos (- e) ltac:(lia))).
    assert (c mod 10 ^ (- e) <= c)
      by (apply Z.mod_le; [lia | apply pow10_pos; lia]). lia. }
  assert (Hmin : PyDecimal.etiny <= Z.min e 0 <= 0)
    by (unfold PyDecimal.etiny, PyDecimal.context_emin,
          PyDecimal.context_prec; lia).
  destruct (truediv_half s r (Z.min e 0) ltac:(lia) ltac:(lia) Hmin)
    as (c' & e' & Hx & Hc' & He' & Hval).
  rewrite Hx. cbn [bind].
  set (t2 := if 0 <=? e' then c' * 10 ^ e' else c' / 10 ^ (- e')).
  assert (Ht2 : t2 = (2 * r) / 10 ^ (- Z.min e 0)).
  { subst t2. rewrite <- Hval. destruct (Z.leb_spec 0 e') as [H0 | H0].
    - replace (e' - Z.min e 0) with (e' + - Z.min e 0) by lia.
      rewrite Z.pow_add_r, Z.mul_assoc by lia.
      rewrite Z.div_mul; [reflexivity |].
      pose proof (pow10_pos (- Z.min e 0) ltac:(lia)). lia.
    - replace (- Z.min e 0) with ((e' - Z.min e 0) + (- e')) by lia.
      rewrite Z.pow_add_r by lia.
      rewrite (Z.mul_comm c').
      rewrite Z.div_mul_cancel_l;
        [reflexivity | | ]; pose proof (pow10_pos (- e') ltac:(lia));
        pose proof (pow10_pos (e' - Z.min e 0) ltac:(lia)); lia. }
  assert (Ht2b : 0 <= t2 <= 2).
  { rewrite Ht2. pose proof (pow10_pos (- Z.min e 0) ltac:(lia)).
    split; [apply Z.div_pos; lia |].
    subst r. destruct (Z.leb_spec 0 e).
    - rewrite Z.mul_0_r, Z.div_0_l by lia. lia.
    - pose proof (Z.mod_pos_bound c (10 ^ (- e)) (pow10_pos (- e) ltac:(lia))).
      replace (Z.min e 0) with e in * by lia.
      apply Z.div_le_upper_bound; lia. }
  rewrite (floordiv_one s c' e' Hc') by (fold t2; lia). fold t2. cbn [bind].
  rewrite add_same_sign by lia. cbn [bind].
  unfold PyDecimal.to_int. cbn [PyDecimal.dcoef PyDecimal.dexp PyDecimal.dneg
                                Z.leb Z.compare Z.pow].
  rewrite Z.mul_1_r. do 2 f_equal.
  assert (Hsum : t + t2 = if 0 <=? e then c * 10 ^ e
                          else (2 * c + 10 ^ (- e)) / (2 * 10 ^ (- e))).
  { rewrite Ht2. subst t r. destruct (Z.leb_spec 0 e).
    - rewrite Z.mul_0_r, Z.div_0_l; [lia |].
      pose proof (pow10_pos (- Z.min e 0) ltac:(lia)). lia.
    - replace (Z.min e 0) with e by lia.
      apply half_away_split; [lia | apply pow10_pos; lia]. }
  rewrite Hsum. reflexivity.
Qed.

Lemma math_round_half_away_witness :
  math_round (RDecimal (PyDecimal.mk true 25 (-1)))
  = Ok (round_half_away (PyDecimal.mk true 25 (-1))).
Proof.
  apply (math_round_half_away (PyDecimal.mk true 25 (-1))).
  - cbn. lia.
  - vm_compute. reflexivity.
  - cbn. lia.
Defined.

(** X2: on an [int] of at most 28 digits [math_round] returns its
    argument. *)
Theorem math_round_int (z : Z) :
  Z.abs z < 10 ^ 28 -> math_round (RInt z) = Ok z.
Proof.
  intros Hz. unfold math_round.
  change (PyDecimal.truediv (PyDecimal.of_Z 0) (PyDecimal.mk false 5 (-1)))
    with (Ok (PyDecimal.mk false 0 1)). cbn [bind].
  change (PyDecimal.floordiv (PyDecimal.mk false 0 1) (PyDecimal.of_Z 1))
    with (Ok (PyDecimal.mk false 0 0)). cbn [bind].
  unfold PyDecimal.add, PyDecimal.of_Z, PyDecimal.pad.
  cbn [PyDecimal.dcoef PyDecimal.dexp PyDecimal.dneg Z.eqb andb Z.min
       Z.compare].
  assert (Hr : PyDecimal.etiny <= 0 <= PyDecimal.etop)
    by (unfold PyDecimal.etop, PyDecimal.etiny, PyDecimal.context_emin,
          PyDecimal.context_emax, PyDecimal.context_prec; lia).
  destruct (Z.eqb_spec (Z.abs z) 0) as [E | E].
  - rewrite fix_context_small by lia. cbn [bind].
    unfold PyDecimal.to_int. cbn. f_equal. lia.
  - unfold PyDecimal.context_prec.
    cbn [Z.sub Z.opp Z.max Z.add Z.pos_sub Z.compare Pos.compare
         Pos.compare_cont Z.pow Z.mul].
    rewrite Z.mul_1_r. rewrite fix_context_small by lia. cbn [bind].
    unfold PyDecimal.to_int.
    cbn [PyDecimal.dcoef PyDecimal.dexp PyDecimal.dneg Z.leb Z.compare Z.pow].
    rewrite Z.mul_1_r. f_equal. destruct (Z.ltb_spec z 0); lia.
Qed.

Lemma math_round_int_witness : math_round (RInt (-7)) = Ok (-7).
Proof. apply (math_round_int (-7)). vm_compute. reflexivity. Defined.
(** ** Integers below 2^53 in binary64 *)

Lemma shr_1_even (m : Z) :
  0 < m ->
  shr_1 {| shr_m := 2 * m; shr_r := false; shr_s := false |}
  = {| shr_m := m; shr_r := false; shr_s := false |}.
Proof. destruct m as [| p | p]; try lia. reflexivity. Qed.

Lemma pow2_xO (p : positive) : 2 ^ Z.pos p~0 = 2 ^ Z.pos p * 2 ^ Z.pos p.
Proof.
  replace (Z.pos p~0) with (Z.pos p + Z.pos p) by lia.
  apply Z.pow_add_r; lia.
Qed.

Lemma pow2_xI (p : positive) :
  2 ^ Z.pos p~1 = 2 * (2 ^ Z.pos p * 2 ^ Z.pos p).
Proof.
  replace (Z.pos p~1) with (Z.succ (Z.pos p + Z.pos p)) by lia.
  rewrite Z.pow_succ_r, Z.pow_add_r by lia. reflexivity.
Qed.

Lemma iter_shr_exact (p : positive) :
  forall m, 0 < m ->
    iter_pos shr_1 p {| shr_m := m * 2 ^ Z.pos p; shr_r := false; shr_s := false |}
    = {| shr_m := m; shr_r := false; shr_s := false |}.
Proof.
  induction p as [p IH | p IH |]; intros m Hm; cbn [iter_pos].
  - assert (0 < 2 ^ Z.pos p) by (apply Z.pow_pos_nonneg; lia).
    replace (m * 2 ^ Z.pos p~1) with (2 * (m * 2 ^ Z.pos p * 2 ^ Z.pos p))
      by (rewrite pow2_xI; ring).
    rewrite shr_1_even by nia. rewrite IH by nia. now apply IH.
  - assert (0 < 2 ^ Z.pos p) by (apply Z.pow_pos_nonneg; lia).
    replace (m * 2 ^ Z.pos p~0) with (m * 2 ^ Z.pos p * 2 ^ Z.pos p)
      by (rewrite pow2_xO; ring).
    rewrite IH by nia. now apply IH.
  - replace (m * 2 ^ 1) with (2 * m) by ring. now apply shr_1_even.
Qed.

(** Rounding a number that fits 53 bits and carries any number of
    trailing zero bits. *)
Lemma round_aux_exact_shift (sx : bool) (z s : Z) :
  0 < z < 2 ^ 53 -> 53 - Zdigits2 z <= s ->
  binary_round_aux 53 1024 sx (z * 2 ^ s) (- s) loc_Exact
  = S754_finite sx (Z.to_pos (z * 2 ^ (53 - Zdigits2 z))) (Zdigits2 z - 53).
Proof.
  intros Hz53 Hs. pose proof (small_digits z Hz53) as Hd.
  assert (Hz : 0 < z) by lia. assert (Hs0 : 0 <= s) by lia.
  unfold binary_round_aux, shr_fexp.
  rewrite Zdigits2_shift by assumption.
  assert (Hf : fexp 53 1024 (Zdigits2 z + s + - s) - - s
               = Zdigits2 z - 53 + s) by (unfold fexp, emin; lia).
  rewrite Hf. set (k := 53 - Zdigits2 z) in *.
  assert (Hk : 0 <= k) by (subst k; lia).
  assert (Hw : 0 < z * 2 ^ k)
    by (apply Z.mul_pos_pos; [assumption | apply Z.pow_pos_nonneg; lia]).
  assert (Hdw : Zdigits2 (z * 2 ^ k) = 53)
    by (rewrite Zdigits2_shift by lia; subst k; lia).
  assert (Hstep : shr {| shr_m := z * 2 ^ s; shr_r := false; shr_s := false |}
                    (- s) (Zdigits2 z - 53 + s)
                  = ({| shr_m := z * 2 ^ k; shr_r := false; shr_s := false |},
                     Zdigits2 z - 53)).
  { destruct (Zdigits2 z - 53 + s) as [| p | p] eqn:En; cbn [shr]; try lia.
    - replace s with k by (subst k; lia). f_equal. subst k. lia.
    - replace (z * 2 ^ s) with (z * 2 ^ k * 2 ^ Z.pos p).
      + rewrite iter_shr_exact by exact Hw. f_equal. lia.
      + rewrite <- Z.mul_assoc, <- Z.pow_add_r by lia. do 2 f_equal.
        subst k. lia. }
  cbn [shr_record_of_loc]. rewrite Hstep.
  cbn [shr_m loc_of_shr_record round_nearest_even].
  rewrite Hdw.
  assert (Hf' : fexp 53 1024 (53 + (Zdigits2 z - 53)) - (Zdigits2 z - 53) = 0)
    by (unfold fexp, emin; lia).
  rewrite Hf'. cbn [shr shr_m].
  destruct (z * 2 ^ k) as [| p | p]; try lia.
  destruct (Z.leb_spec (Zdigits2 z - 53) (1024 - 53)); [reflexivity | lia].
Qed.

Lemma pos_iter_xO (m d : positive) :
  Z.pos (Pos.iter xO m d) = Z.pos m * 2 ^ Z.pos d.
Proof.
  induction d as [| d IH] using Pos.peano_ind.
  - cbn. lia.
  - rewrite Pos.iter_succ, Pos2Z.inj_xO, IH, Pos2Z.inj_succ, Z.pow_succ_r by lia.
    ring.
Qed.

Lemma of_Z_exact (z : Z) :
  z <> 0 -> Z.abs z < 2 ^ 53 -> PyFloat.of_Z z = Ok (exact_float z).
Proof.
  intros Hz Hlt. pose proof (small_digits (Z.abs z) ltac:(lia)) as Hd.
  set (D := Zdigits2 (Z.abs z)) in *.
  assert (HP : 0 < 2 ^ (53 - D)) by (apply Z.pow_pos_nonneg; lia).
  assert (Hw : 0 < Z.abs z * 2 ^ (53 - D)) by nia.
  assert (Hal : forall p, Z.pos p = Z.abs z ->
             shl_align p 0 (D - 53)
             = (Z.to_pos (Z.abs z * 2 ^ (53 - D)), D - 53)).
  { intros p Hp. unfold shl_align.
    destruct (D - 53 - 0) as [| d | d] eqn:Ed; try lia.
    - replace (53 - D) with 0 by lia. replace (D - 53) with 0 by lia.
      rewrite Z.pow_0_r, Z.mul_1_r, <- Hp. reflexivity.
    - f_equal. apply Pos2Z.inj. rewrite pos_iter_xO, Z2Pos.id by exact Hw.
      rewrite Hp. do 2 f_equal. lia. }
  assert (Hnorm : forall (sx : bool) (p : positive),
             Z.pos p = Z.abs z ->
             binary_round 53 1024 sx p 0
             = S754_finite sx (Z.to_pos (Z.abs z * 2 ^ (53 - D))) (D - 53)).
  { intros sx p Hp. unfold binary_round.
    change (Z.pos (digits2_pos p)) with (Zdigits2 (Z.pos p)). rewrite Hp.
    fold D.
    replace (fexp 53 1024 (D + 0)) with (D - 53) by (unfold fexp, emin; lia).
    rewrite (Hal p Hp), Z2Pos.id by exact Hw.
    replace (D - 53) with (- (53 - D)) at 1 by lia.
    apply round_aux_exact_shift; fold D; lia. }
  unfold PyFloat.of_Z, PyFloat.prec, PyFloat.emax, binary_normalize, exact_float.
  fold D. destruct z as [| p | p]; [congruence | |].
  - rewrite (Hnorm false p eq_refl). reflexivity.
  - rewrite (Hnorm true p eq_refl). reflexivity.
Qed.

Lemma mul_exact (a b : Z) :
  a <> 0 -> b <> 0 -> Z.abs (a * b) < 2 ^ 53 ->
  PyFloat.mul (exact_float a) (exact_float b) = exact_float (a * b).
Proof.
  intros Ha Hb Hab.
  assert (Ha53 : Z.abs a < 2 ^ 53) by nia.
  assert (Hb53 : Z.abs b < 2 ^ 53) by nia.
  pose proof (small_digits (Z.abs a) ltac:(lia)) as Hda.
  pose proof (small_digits (Z.abs b) ltac:(lia)) as Hdb.
  pose proof (small_digits (Z.abs (a * b)) ltac:(lia)) as Hdab.
  unfold PyFloat.mul, PyFloat.prec, PyFloat.emax, exact_float at 1 2, SFmul.
  set (da := Zdigits2 (Z.abs a)) in *. set (db := Zdigits2 (Z.abs b)) in *.
  assert (Pa : 0 < Z.abs a * 2 ^ (53 - da))
    by (apply Z.mul_pos_pos; [lia | apply Z.pow_pos_nonneg; lia]).
  assert (Pb : 0 < Z.abs b * 2 ^ (53 - db))
    by (apply Z.mul_pos_pos; [lia | apply Z.pow_pos_nonneg; lia]).
  rewrite Pos2Z.inj_mul, !Z2Pos.id by assumption.
  replace (Z.abs a * 2 ^ (53 - da) * (Z.abs b * 2 ^ (53 - db)))
    with (Z.abs (a * b) * 2 ^ (106 - da - db)).
  2: { rewrite Z.abs_mul.
       replace (106 - da - db) with ((53 - da) + (53 - db)) by lia.
       rewrite Z.pow_add_r by lia. ring. }
  replace (da - 53 + (db - 53)) with (- (106 - da - db)) by lia.
  pose proof (quotient_digits (Z.abs a) (Z.abs b) ltac:(lia) ltac:(lia)) as Hq.
  rewrite <- Z.abs_mul in Hq. fold da db in Hq.
  rewrite round_aux_exact_shift by lia.
  unfold exact_float. f_equal.
  destruct (Z.ltb_spec a 0), (Z.ltb_spec b 0), (Z.ltb_spec (a * b) 0);
    cbn; try reflexivity; nia.
Qed.

Lemma round_exact (z : Z) :
  z <> 0 -> Z.abs z < 2 ^ 53 -> PyFloat.round (exact_float z) = Ok z.
Proof.
  intros Hz Hlt. pose proof (small_digits (Z.abs z) ltac:(lia)) as Hd.
  unfold exact_float, PyFloat.round.
  set (k := 53 - Zdigits2 (Z.abs z)).
  assert (HP : 0 < 2 ^ k) by (apply Z.pow_pos_nonneg; subst k; lia).
  assert (Hp : 0 < Z.abs z * 2 ^ k) by nia.
  rewrite Z2Pos.id by exact Hp.
  assert (Hv : (if 0 <=? Zdigits2 (Z.abs z) - 53
                then Z.abs z * 2 ^ k * 2 ^ (Zdigits2 (Z.abs z) - 53)
                else div_half_even (Z.abs z * 2 ^ k)
                       (2 ^ (- (Zdigits2 (Z.abs z) - 53))))
               = Z.abs z).
  { destruct (Z.leb_spec 0 (Zdigits2 (Z.abs z) - 53)).
    - subst k. replace (Zdigits2 (Z.abs z)) with 53 by lia. cbn. lia.
    - replace (- (Zdigits2 (Z.abs z) - 53)) with k by (subst k; lia).
      unfold div_half_even. rewrite Z.mod_mul, Z.div_mul by lia.
      cbn [Z.mul]. destruct (0 ?= 2 ^ k) eqn:E; try reflexivity.
      + apply Z.compare_eq in E. lia.
      + apply Z.compare_gt_iff in E. lia. }
  rewrite Hv. f_equal. destruct (Z.ltb_spec z 0); lia.
Qed.

Lemma eq_int_exact_float_at (z k : Z) :
  0 < z < 2 ^ 53 -> PyNum.eq_int (NFloat (exact_float z)) k = (z =? k).
Proof.
  intros Hz. pose proof (small_digits z Hz) as Hd.
  unfold exact_float, PyNum.eq_int, PyFloat.magnitude.
  replace (Z.abs z) with z by lia.
  assert (Hp : 0 < z * 2 ^ (53 - Zdigits2 z))
    by (apply Z.mul_pos_pos; [lia | apply Z.pow_pos_nonneg; lia]).
  rewrite Z2Pos.id by exact Hp.
  destruct (Z.ltb_spec z 0); [lia |].
  set (P := 2 ^ (53 - Zdigits2 z)) in *.
  assert (HP : 0 < P) by (apply Z.pow_pos_nonneg; lia).
  assert (Hval : forall a d,
             (if 0 <=? Zdigits2 z - 53
              then Some (z * P * 2 ^ (Zdigits2 z - 53), 1)
              else Some (z * P, 2 ^ (- (Zdigits2 z - 53)))) = Some (a, d) ->
             a = z * d /\ 0 < d).
  { intros a d. destruct (Z.leb_spec 0 (Zdigits2 z - 53)).
    - intros E. injection E as <- <-. subst P.
      replace (Zdigits2 z) with 53 by lia. cbn. lia.
    - replace (- (Zdigits2 z - 53)) with (53 - Zdigits2 z) by lia. fold P.
      intros E. injection E as <- <-. lia. }
  destruct (if 0 <=? Zdigits2 z - 53 then _ else _) as [[a d] |] eqn:E.
  2: { destruct (0 <=? Zdigits2 z - 53); discriminate. }
  destruct (Hval a d eq_refl) as [-> Hdpos].
  destruct (Z.eqb_spec k 0) as [-> | Hk0].
  - cbn [negb]. rewrite andb_false_r. cbn [andb].
    symmetry. apply Z.eqb_neq. lia.
  - cbn [negb]. rewrite andb_true_r.
    destruct (Z.ltb_spec k 0) as [Hneg | Hpos]; cbn [Bool.eqb].
    + rewrite andb_false_r. symmetry. apply Z.eqb_neq. lia.
    + rewrite andb_true_r. replace (Z.abs k) with k by lia.
      destruct (Z.eqb_spec z k), (Z.eqb_spec (z * d) (d * k));
        try reflexivity; nia.
Qed.

Lemma mem_ints_exact_float (z : Z) (ks : list Z) :
  0 < z < 2 ^ 53 ->
  PyNum.mem_ints (NFloat (exact_float z)) ks = existsb (Z.eqb z) ks.
Proof.
  intros Hz. unfold PyNum.mem_ints. induction ks as [| k ks IH]; cbn [existsb].
  - reflexivity.
  - now rewrite IH, eq_int_exact_float_at.
Qed.

(** ** Fractions in lowest terms *)

(** The fields [reduce] leaves, for a positive denominator below 2^53. *)
Lemma reduce_exact (f : My_Fraction.t) (dn : pynum) (n d : Z) :
  My_Fraction.denominator f = Some dn ->
  PyNum.eq_int (My_Fraction.numerator f) 0 = false ->
  PyNum.to_int (My_Fraction.numerator f) = Ok n ->
  PyNum.to_int dn = Ok d ->
  0 < d < 2 ^ 53 ->
  let g := Z.gcd (n mod d) d in
  let a := (n mod d) / g in
  let b := d / g in
  My_Fraction.reduce f
  = Ok (My_Fraction.mk (My_Fraction.sign f) (My_Fraction.whole f + n / d)
          (NFloat (if a =? 0 then S754_zero false else exact_float a))
          (Some (NFloat (exact_float b)))
          (My_Fraction.english_separator f))
  /\ 0 < g /\ n mod d = a * g /\ d = b * g
  /\ 0 <= a < b /\ b < 2 ^ 53 /\ Z.gcd a b = 1.
Proof.
  intros Hden Hnz Hn Hd Hdb g a b.
  pose proof (Z.mod_pos_bound n d ltac:(lia)) as Hr.
  assert (Hg : 0 < g).
  { subst g. pose proof (Z.gcd_nonneg (n mod d) d).
    destruct (Z.eq_dec (Z.gcd (n mod d) d) 0) as [E | E]; [| lia].
    apply Z.gcd_eq_0_r in E. lia. }
  destruct (Z.gcd_divide_l (n mod d) d) as [a' Ha].
  destruct (Z.gcd_divide_r (n mod d) d) as [b' Hb]. fold g in Ha, Hb.
  assert (Ea : a = a') by (subst a; rewrite Ha; apply Z.div_mul; lia).
  assert (Eb : b = b') by (subst b; rewrite Hb; apply Z.div_mul; lia).
  rewrite <- Ea in Ha. rewrite <- Eb in Hb. clear a' b' Ea Eb.
  assert (Hab : 0 <= a < b) by nia.
  assert (Hblt : b < 2 ^ 53) by nia.
  assert (Hgcd : Z.gcd a b = 1)
    by (subst a b; apply Z.gcd_div_gcd; [lia | reflexivity]).
  split; [| repeat split; try assumption; lia].
  unfold My_Fraction.reduce. rewrite Hden, Hnz, Hn, Hd. cbn [bind].
  destruct (Z.eqb_spec d 0); [lia |].
  replace (n - n / d * d) with (n mod d)
    by (rewrite Z.mod_eq by lia; ring).
  fold g.
  replace (PyFloat.int_true_div d g) with (PyFloat.int_true_div (b * g) g)
    by (now rewrite <- Hb).
  replace (PyFloat.int_true_div (n mod d) g)
    with (PyFloat.int_true_div (a * g) g) by (now rewrite <- Ha).
  rewrite (int_true_div_exact b g) by lia.
  destruct (Z.eqb_spec a 0) as [E0 | E0].
  - rewrite E0. cbn [Z.mul]. destruct g as [| pg | pg]; try lia.
    cbn [PyFloat.int_true_div bind Z.ltb Z.compare]. reflexivity.
  - rewrite (int_true_div_exact a g) by lia. reflexivity.
Qed.

(** X3: for a numerator other than zero and a positive denominator
    below 2^53, [reduce] moves the whole part of the fraction into
    [whole] and leaves a proper fraction in lowest terms of the same
    value. *)
Theorem reduce_lowest_terms (f : My_Fraction.t) (dn : pynum) (n d : Z) :
  My_Fraction.denominator f = Some dn ->
  PyNum.eq_int (My_Fraction.numerator f) 0 = false ->
  PyNum.to_int (My_Fraction.numerator f) = Ok n ->
  PyNum.to_int dn = Ok d ->
  0 < d < 2 ^ 53 ->
  exists f' a b,
    My_Fraction.reduce f = Ok f'
    /\ My_Fraction.sign f' = My_Fraction.sign f
    /\ My_Fraction.whole f' = My_Fraction.whole f + n / d
    /\ PyNum.to_int (My_Fraction.numerator f') = Ok a
    /\ option_map PyNum.to_int (My_Fraction.denominator f') = Some (Ok b)
    /\ 0 <= a < b
    /\ Z.gcd a b = 1
    /\ n * b = (n / d * b + a) * d.
Proof.
  intros Hden Hnz Hn Hd Hdb.
  destruct (reduce_exact f dn n d Hden Hnz Hn Hd Hdb)
    as (Hred & Hg & Hr & Hdg & Hab & Hb53 & Hgcd).
  set (g := Z.gcd (n mod d) d) in *.
  set (a := (n mod d) / g) in *. set (b := d / g) in *.
  eexists _, a, b. split; [exact Hred |].
  cbn [My_Fraction.sign My_Fraction.whole My_Fraction.numerator
       My_Fraction.denominator option_map PyNum.to_int].
  repeat split; try lia; try assumption.
  - destruct (Z.eqb_spec a 0) as [-> | Ha0]; [reflexivity |].
    apply to_Z_exact; lia.
  - now rewrite to_Z_exact by lia.
  - pose proof (Z.div_mod n d ltac:(lia)) as E. nia.
Qed.

Lemma reduce_lowest_terms_witness :
  exists f' a b,
    My_Fraction.reduce (My_Fraction.init (PStr " ") 1 10 (Some (NInt 4)))
    = Ok f'
    /\ My_Fraction.sign f'
       = My_Fraction.sign (My_Fraction.init (PStr " ") 1 10 (Some (NInt 4)))
    /\ My_Fraction.whole f'
       = My_Fraction.whole (My_Fraction.init (PStr " ") 1 10 (Some (NInt 4)))
         + 10 / 4
    /\ PyNum.to_int (My_Fraction.numerator f') = Ok a
    /\ option_map PyNum.to_int (My_Fraction.denominator f') = Some (Ok b)
    /\ 0 <= a < b
    /\ Z.gcd a b = 1
    /\ 10 * b = (10 / 4 * b + a) * 4.
Proof.
  apply (reduce_lowest_terms
           (My_Fraction.init (PStr " ") 1 10 (Some (NInt 4))) (NInt 4) 10 4).
  - reflexivity.
  - reflexivity.
  - reflexivity.
  - reflexivity.
  - lia.
Defined.

Lemma render_signed_text (f : My_Fraction.t) (sep : string) (w a b : Z) :
  My_Fraction.whole f = w ->
  0 <= w ->
  My_Fraction.english_separator f = PStr sep ->
  PyNum.eq_int (My_Fraction.numerator f) 0 = (a =? 0) ->
  PyNum.to_int (My_Fraction.numerator f) = Ok a ->
  (a =? 0) = true
  \/ (exists d, My_Fraction.denominator f = Some d /\ PyNum.to_int d = Ok b) ->
  My_Fraction.render f
  = Ok ((if (My_Fraction.sign f <? 0) && (w =? 0) && negb (a =? 0)
         then "-" else "") ++ text sep w a b).
Proof.
  intros Hw Hw0 He Hz Ha Hd.
  unfold My_Fraction.render, text, PyNum.fmt_d.
  rewrite Hw, He, Hz, Ha. clear Hw. cbn [bind].
  destruct (Z.eqb_spec a 0) as [-> | Hnz]; cbn [negb].
  - rewrite andb_false_r. destruct (Z.ltb_spec 0 w); cbn [bind].
    + destruct (Z.eqb_spec w 0); [lia | reflexivity].
    + assert (w = 0) by lia. subst w.
      destruct (My_Fraction.sign f <? 0); reflexivity.
  - destruct Hd as [Hd | (d & Hd & Hb)]; [discriminate |].
    rewrite Hd, Hb. cbn [bind]. rewrite andb_true_r.
    destruct (Z.ltb_spec 0 w); cbn [bind].
    + destruct (Z.eqb_spec w 0); [lia |]. rewrite andb_false_r. reflexivity.
    + assert (w = 0) by lia. subst w. cbn [Z.eqb]. rewrite andb_true_r.
      destruct (My_Fraction.sign f <? 0); reflexivity.
Qed.

(** [to_string] on a fraction with [int] fields and a positive
    denominator below 2^53. *)
Lemma to_string_exact (s w n d : Z) (sep : string) :
  0 <= w -> 0 <= n -> 0 < d < 2 ^ 53 ->
  let f := My_Fraction.mk s w (NInt n) (Some (NInt d)) (PStr sep) in
  let g := Z.gcd (n mod d) d in
  let a := (n mod d) / g in
  let b := d / g in
  exists f',
    My_Fraction.to_string f
    = Ok ((if (s <? 0) && (w + n / d =? 0) && negb (a =? 0) then "-" else "")
          ++ text sep (w + n / d) a b, f').
Proof.
  intros Hw Hn Hd f g a b. unfold My_Fraction.to_string.
  assert (Hq : 0 <= n / d) by (apply Z.div_pos; lia).
  destruct (Z.eq_dec n 0) as [-> | Hn0].
  - rewrite reduce_noop by (right; reflexivity). cbn [bind].
    assert (Ea : a = 0) by (subst a; rewrite Z.mod_0_l by lia; apply Z.div_0_l; subst g; rewrite Z.mod_0_l by lia; rewrite Z.gcd_0_l; lia).
    rewrite (render_signed_text f sep w 0 b); try reflexivity; try assumption.
    + cbn [bind]. rewrite Ea, Z.div_0_l, Z.add_0_r by lia. eauto.
    + now left.
  - destruct (reduce_exact f (NInt d) n d) as (Hred & Hg & Hr & Hdg & Hab & Hb53 & Hgcd);
      try reflexivity; try assumption.
    { cbn. apply Z.eqb_neq. exact Hn0. }
    fold g a b in Hred, Hg, Hr, Hdg, Hab, Hb53, Hgcd.
    rewrite Hred. cbn [bind].
    erewrite (render_signed_text _ sep (w + n / d) a b); cbn [My_Fraction.whole
      My_Fraction.sign My_Fraction.english_separator My_Fraction.numerator
      My_Fraction.denominator]; try reflexivity; try lia.
    + cbn [bind]. eauto.
    + destruct (Z.eqb_spec a 0); [reflexivity |].
      apply eq_int_exact_float.
    + destruct (Z.eqb_spec a 0) as [-> | Ha0]; [reflexivity |].
      apply to_Z_exact; lia.
    + right. eexists. split; [reflexivity |]. apply to_Z_exact; lia.
Qed.

(** X4: for [int] arguments and a positive denominator below 2^53,
    [to_string] prints [|whole| + |numerator| / denominator] as a whole
    part, the separator and a proper fraction in lowest terms, leaving
    out what is zero; a negative fraction has its '-' only when the
    whole part is zero. *)
Theorem to_string_mixed_fraction (sep : string) (w n d : Z) :
  0 < d < 2 ^ 53 ->
  let q := Z.abs w + Z.abs n / d in
  let g := Z.gcd (Z.abs n mod d) d in
  let a := (Z.abs n mod d) / g in
  let b := d / g in
  exists f',
    My_Fraction.to_string (My_Fraction.init (PStr sep) w n (Some (NInt d)))
    = Ok ((if ((w <? 0) || (n <? 0)) && (q =? 0) && negb (a =? 0)
           then "-" else "") ++ text sep q a b, f').
Proof.
  intros Hd q g a b. unfold My_Fraction.init.
  destruct (to_string_exact (if (w <? 0) || (n <? 0) then -1 else 1)
              (Z.abs w) (Z.abs n) d sep ltac:(lia) ltac:(lia) Hd) as [f' Hf].
  exists f'. rewrite Hf. subst q a b g.
  now destruct ((w <? 0) || (n <? 0)).
Qed.

Lemma to_string_mixed_fraction_witness :
  exists f',
    My_Fraction.to_string (My_Fraction.init (PStr " ") (-2) 6 (Some (NInt 4)))
    = Ok ("3 1/2", f').
Proof.
  destruct (to_string_mixed_fraction " " (-2) 6 4 ltac:(lia)) as [f' Hf].
  exists f'. rewrite Hf. vm_compute. reflexivity.
Defined.

(** ** Printing a length in English units *)

(** [increments_to_string] on an [int] for English units. *)
Lemma increments_to_string_exact (quant : PyDecimal.t) (u : Units.t)
    (sep : string) (n v : Z) :
  Units.metric u = false ->
  Units.english_separator u = PStr sep ->
  Units.increments_per_inch u = NInt n ->
  0 < n < 2 ^ 53 ->
  let g := Z.gcd (Z.abs v mod n) n in
  let a := (Z.abs v mod n) / g in
  let b := n / g in
  Units.increments_to_string quant u (NInt v) false
  = if (a =? 0) || existsb (Z.eqb b) Units.allow_denoms
    then Ok ((if (v <? 0) && (Z.abs v / n =? 0) then "-" else "")
             ++ text sep (Z.abs v / n) a b)
    else (fn <- PyFloat.of_Z (Units.num_increments u) ;;
          x <- PyNum.div (NInt v) (NFloat fn) ;;
          Ok (PyFmt.fmt_3f x)).
Proof.
  intros Hm Hsep Hipi Hn g a b.
  unfold Units.increments_to_string. rewrite Hm, Hsep, Hipi.
  cbn [Units.is_float PyNum.to_int bind].
  destruct (Z.eq_dec v 0) as [-> | Hv0].
  - unfold My_Fraction.init. cbn [Z.abs Z.ltb Z.compare orb].
    rewrite reduce_noop by (right; reflexivity). cbn [bind My_Fraction.numerator
      PyNum.eq_int Z.eqb negb andb].
    assert (Ea : a = 0) by (subst a g; cbn [Z.abs]; rewrite Z.mod_0_l by lia; reflexivity).
    rewrite Ea. cbn [Z.eqb orb].
    destruct (to_string_exact 1 0 0 n sep ltac:(lia) ltac:(lia) Hn) as [f' Hf].
    rewrite Hf. cbn [bind]. rewrite Z.mod_0_l, Z.div_0_l by lia.
    cbn [Z.div Z.abs Z.add Z.eqb andb Z.ltb Z.compare]. reflexivity.
  - destruct (reduce_exact (My_Fraction.init (PStr sep) 0 v (Some (NInt n)))
                (NInt n) (Z.abs v) n) as (Hred & Hg & Hr & Hdg & Hab & Hb53 & Hgcd);
      try reflexivity; try assumption.
    { cbn. apply Z.eqb_neq. lia. }
    fold g a b in Hred, Hg, Hr, Hdg, Hab, Hb53, Hgcd.
    rewrite Hred. cbn [bind My_Fraction.numerator My_Fraction.denominator].
    assert (Hz : PyNum.eq_int
                   (NFloat (if a =? 0 then S754_zero false else exact_float a)) 0
                 = (a =? 0)).
    { destruct (Z.eqb_spec a 0); [reflexivity | apply eq_int_exact_float]. }
    rewrite Hz, mem_ints_exact_float by lia.
    replace (negb (a =? 0) && negb (existsb (Z.eqb b) Units.allow_denoms))
      with (negb ((a =? 0) || existsb (Z.eqb b) Units.allow_denoms))
      by (now rewrite negb_orb).
    destruct ((a =? 0) || existsb (Z.eqb b) Units.allow_denoms) eqn:Hc;
      cbn [negb].
    2: { destruct (PyFloat.of_Z _); cbn [bind]; [| reflexivity].
         destruct (PyNum.div _ _); reflexivity. }
    unfold My_Fraction.to_string.
    assert (Hq : 0 <= Z.abs v / n) by (apply Z.div_pos; lia).
    assert (Hid : forall f1, My_Fraction.reduce (My_Fraction.init (PStr sep) 0 v (Some (NInt n))) = Ok f1 ->
                             My_Fraction.reduce f1 = Ok f1).
    { intros f1. apply reduce_idempotent_below_2_53.
      intros dn E. injection E as <-. exists n. split; [reflexivity | lia]. }
    rewrite (Hid _ Hred). cbn [bind].
    cbn [My_Fraction.init My_Fraction.sign My_Fraction.whole
         My_Fraction.english_separator Z.abs Z.ltb Z.compare orb].
    erewrite (render_signed_text _ sep (Z.abs v / n) a b);
      cbn [My_Fraction.whole My_Fraction.sign My_Fraction.english_separator
           My_Fraction.numerator My_Fraction.denominator];
      try reflexivity; try lia; try exact Hz.
    + cbn [bind Z.add]. f_equal. f_equal.
      destruct (Z.ltb_spec v 0) as [Hneg | Hpos].
      * cbn [orb Z.ltb Z.compare andb].
        destruct (Z.eqb_spec (Z.abs v / n) 0) as [E0 | E0]; [| reflexivity].
        cbn [andb]. destruct (Z.eqb_spec a 0) as [Ea | Ea]; [| reflexivity].
        exfalso. pose proof (Z.div_mod (Z.abs v) n ltac:(lia)) as E.
        rewrite E0, Hr, Ea in E. lia.
      * cbn [orb]. reflexivity.
    + destruct (Z.eqb_spec a 0) as [-> | Ha0]; [reflexivity |].
      apply to_Z_exact; lia.
    + right. eexists. split; [reflexivity |]. apply to_Z_exact; lia.
Qed.

(** X5: for English units with a positive number of increments per
    inch below 2^53, a non-negative [int] prints as the mixed fraction
    of [v / n] in lowest terms when the fraction vanishes or its
    denominator is one of 1, 2, 4, ..., 64, and as the three-decimal
    form of [v / float(num_increments)] otherwise. *)
Theorem increments_to_string_fraction (quant : PyDecimal.t) (u : Units.t)
    (sep : string) (n v : Z) :
  Units.metric u = false ->
  Units.english_separator u = PStr sep ->
  Units.increments_per_inch u = NInt n ->
  0 < n < 2 ^ 53 ->
  0 <= v ->
  let g := Z.gcd (v mod n) n in
  let a := (v mod n) / g in
  let b := n / g in
  Units.increments_to_string quant u (NInt v) false
  = if (a =? 0) || existsb (Z.eqb b) Units.allow_denoms
    then Ok (text sep (v / n) a b)
    else (fn <- PyFloat.of_Z (Units.num_increments u) ;;
          x <- PyNum.div (NInt v) (NFloat fn) ;;
          Ok (PyFmt.fmt_3f x)).
Proof.
  intros Hm Hsep Hipi Hn Hv g a b.
  rewrite (increments_to_string_exact quant u sep n v Hm Hsep Hipi Hn).
  replace (Z.abs v) with v by lia. fold g a b.
  destruct (Z.ltb_spec v 0); [lia |]. reflexivity.
Qed.

Lemma increments_to_string_fraction_witness :
  Units.increments_to_string Sample.quant3 Sample.english32 (NInt 33) false
  = Ok "1 1/32".
Proof.
  rewrite (increments_to_string_fraction Sample.quant3 Sample.english32
             " " 32 33).
  - vm_compute. reflexivity.
  - reflexivity.
  - reflexivity.
  - reflexivity.
  - lia.
  - lia.
Defined.

(** X6: for English units, a negative length whose fraction has an
    allowed denominator prints as its absolute value does, with a '-'
    in front only when it is shorter than one inch. *)
Theorem increments_to_string_negative (quant : PyDecimal.t) (u : Units.t)
    (sep : string) (n v : Z) :
  Units.metric u = false ->
  Units.english_separator u = PStr sep ->
  Units.increments_per_inch u = NInt n ->
  0 < n < 2 ^ 53 ->
  0 < v ->
  In (n / Z.gcd (v mod n) n) Units.allow_denoms ->
  exists s,
    Units.increments_to_string quant u (NInt v) false = Ok s
    /\ Units.increments_to_string quant u (NInt (- v)) false
       = Ok (if v <? n then "-" ++ s else s).
Proof.
  intros Hm Hsep Hipi Hn Hv Hb.
  rewrite !(increments_to_string_exact quant u sep n _ Hm Hsep Hipi Hn).
  rewrite Z.abs_opp. replace (Z.abs v) with v by lia.
  assert (Hc : existsb (Z.eqb (n / Z.gcd (v mod n) n)) Units.allow_denoms = true).
  { apply existsb_exists. eexists. split; [exact Hb | apply Z.eqb_refl]. }
  rewrite Hc, orb_true_r.
  destruct (Z.ltb_spec v 0); [lia |]. destruct (Z.ltb_spec (- v) 0); [| lia].
  cbn [andb]. eexists. split; [reflexivity |].
  f_equal.
  destruct (Z.ltb_spec v n) as [Hlt | Hge].
  - rewrite Z.div_small by lia. reflexivity.
  - destruct (Z.eqb_spec (v / n) 0) as [E | E]; [| reflexivity].
    exfalso. apply Z.div_small_iff in E; lia.
Qed.

Lemma increments_to_string_negative_witness :
  exists s,
    Units.increments_to_string Sample.quant3 Sample.english32 (NInt 48) false
    = Ok s
    /\ Units.increments_to_string Sample.quant3 Sample.english32
         (NInt (- 48)) false
       = Ok (if 48 <? 32 then "-" ++ s else s).
Proof.
  apply (increments_to_string_negative Sample.quant3 Sample.english32
           " " 32 48).
  - reflexivity.
  - reflexivity.
  - reflexivity.
  - lia.
  - lia.
  - vm_compute. tauto.
Defined.

(** X7: with units built for zero increments per unit length, an
    [int] other than 0 cannot be printed: English units raise
    [ZeroDivisionError] and print 0 as "0"; metric units raise
    [DivisionByZero], and [InvalidOperation] for 0. *)
Theorem increments_to_string_zero_increments (sep : pyval) (m : bool)
    (tr : option Units.translator) (u : Units.t) (q quant : PyDecimal.t)
    (v : Z) :
  Units.init sep m (Some 0) tr = Ok (u, q) ->
  Units.increments_to_string quant u (NInt v) false
  = if m then
      Raise (if v =? 0 then DecimalInvalidOperation else DecimalDivisionByZero)
    else if v =? 0 then Ok "0"
    else Raise ZeroDivisionError.
Proof.
  unfold Units.init. destruct m.
  - destruct (PyNum.mul _ _) as [ipi |]; [| discriminate]. cbn [bind].
    intros E. injection E as <- <-.
    unfold Units.increments_to_string.
    cbn [Units.metric Units.num_increments Units.decimal_of bind].
    unfold PyDecimal.div_quantize. cbn [Z.abs Z.eqb].
    destruct (Z.eqb_spec v 0) as [-> | Hv]; [reflexivity |].
    destruct (Z.eqb_spec (Z.abs v) 0); [lia | reflexivity].
  - intros E. injection E as <- <-.
    unfold Units.increments_to_string.
    cbn [Units.metric Units.is_float Units.increments_per_inch
         Units.english_separator PyNum.to_int bind].
    unfold My_Fraction.reduce, My_Fraction.init.
    cbn [My_Fraction.denominator My_Fraction.numerator PyNum.eq_int
         PyNum.to_int bind].
    destruct (Z.eqb_spec v 0) as [-> | Hv].
    + reflexivity.
    + destruct (Z.eqb_spec (Z.abs v) 0); [lia | reflexivity].
Qed.

Lemma increments_to_string_zero_increments_witness :
  Units.increments_to_string Sample.quant3
    (Units.mk (PStr " ") false None 0 (NInt 0)) (NInt 5) false
  = (if false then
       Raise (if 5 =? 0 then DecimalInvalidOperation
              else DecimalDivisionByZero)
     else if 5 =? 0 then Ok "0"
     else Raise ZeroDivisionError).
Proof.
  apply (increments_to_string_zero_increments (PStr " ") false None
           (Units.mk (PStr " ") false None 0 (NInt 0))
           (PyDecimal.mk false 1 (-3)) Sample.quant3 5).
  reflexivity.
Defined.

(** ** Reading a length *)

Lemma set_from_string_two_slashes (f : My_Fraction.t) (sep s : string) :
  My_Fraction.english_separator f = PStr sep ->
  lacks "/" sep = true ->
  lacks "." s = true ->
  (2 <= count "/" s)%nat ->
  My_Fraction.set_from_string f s = Raise ValueError.
Proof.
  intros Hsep Hl Hdot Hc. unfold My_Fraction.set_from_string, PyStr.find.
  rewrite find_lacks by exact Hdot.
  cbn [Z.eqb Pos.eqb Z.opp My_Fraction.english_separator].
  rewrite Hsep, separator_dispatch. cbn [bind].
  set (s' := if String.eqb sep " " then s else PyStr.replace_first sep " " s).
  assert (Hc' : count "/" s' = count "/" s).
  { subst s'. destruct (String.eqb sep " "); [reflexivity |].
    now apply count_replace_first. }
  pose proof (split_length "/" s') as Hlen. rewrite Hc' in Hlen.
  destruct (PyStr.split "/" s') as [| a [| b [| c l]]]; cbn in Hlen;
    try lia. reflexivity.
Qed.

(** X8: a string without a decimal point that holds two or more '/'
    is rejected with [ValueError], whatever separator without a '/' the
    units have. *)
Theorem string_to_increments_two_slashes (u : Units.t) (sep s : string)
    (as_integer : bool) :
  Units.english_separator u = PStr sep ->
  lacks "/" sep = true ->
  lacks "." s = true ->
  (2 <= count "/" s)%nat ->
  Units.string_to_increments u s as_integer = Raise ValueError.
Proof.
  intros Hsep Hl Hdot Hc.
  unfold Units.string_to_increments, Units.string_to_float.
  rewrite (set_from_string_two_slashes _ sep s); auto.
Qed.

Lemma string_to_increments_two_slashes_witness :
  Units.string_to_increments Sample.english32 "1/2/3" true = Raise ValueError.
Proof.
  apply (string_to_increments_two_slashes Sample.english32 " " "1/2/3" true).
  - reflexivity.
  - reflexivity.
  - reflexivity.
  - vm_compute. lia.
Defined.

(** X9: with a separator that is a string, not empty, without a '.'
    and not starting with a digit, a '/' or a '-', the text of a
    negative fraction without a whole part, "-a/b" with [0 < a] and
    [0 <= b], is read as 0: the numerator is negative, and the fraction
    is added only when the numerator is positive. *)
Theorem string_to_increments_negative_fraction (u : Units.t) (sep : string)
    (a b : Z) (as_integer : bool) :
  Units.english_separator u = PStr sep ->
  good_separator sep = true ->
  PyStr.starts_with "-" sep = false ->
  0 < a -> 0 <= b ->
  Units.string_to_increments u
    (String "-" (PyStr.of_Z a ++ "/" ++ PyStr.of_Z b)) as_integer
  = Ok (NInt 0).
Proof.
  intros Hsep Hg Hm Ha Hb.
  destruct (good_separator_inv sep Hg) as (c & r & Es & Hc & Hsl & Hdot).
  rewrite Es in Hm. cbn in Hm.
  destruct (of_Z_digits a ltac:(lia)) as [Hda Hna].
  destruct (of_Z_digits b Hb) as [Hdb Hnb].
  set (s := String "-" (PyStr.of_Z a ++ "/" ++ PyStr.of_Z b)).
  assert (Hlack : forall x, PyStr.is_digit x = false -> Ascii.eqb "-" x = false ->
                    Ascii.eqb "/" x = false -> lacks x s = true).
  { intros x Hx Hx1 Hx2. subst s. unfold lacks. cbn [all_chars].
    rewrite Hx1. cbn [negb andb]. rewrite !all_chars_app.
    fold (lacks x (PyStr.of_Z a)). fold (lacks x (PyStr.of_Z b)).
    rewrite !lacks_of_Z by (auto; lia). cbn [all_chars andb].
    now rewrite Hx2. }
  rewrite string_to_increments_finish, Hsep.
  unfold My_Fraction.set_from_string, PyStr.find.
  rewrite find_lacks by (apply Hlack; reflexivity).
  cbn [Z.eqb Pos.eqb Z.opp My_Fraction.english_separator My_Fraction.init].
  rewrite separator_dispatch. cbn [bind].
  assert (Hs' : (if String.eqb sep " " then s
                 else PyStr.replace_first sep " " s) = s).
  { destruct (String.eqb sep " "); [reflexivity |]. rewrite Es.
    apply replace_first_absent.
    apply Hlack; auto; now rewrite Ascii.eqb_sym. }
  rewrite Hs'. subst s.
  change (String "-" (PyStr.of_Z a ++ "/" ++ PyStr.of_Z b))
    with ((String "-" (PyStr.of_Z a)) ++ String "/" (PyStr.of_Z b)).
  rewrite split_at.
  - rewrite split_ws_nonspace.
    + rewrite to_Z_minus by lia. cbn [bind].
      rewrite split_ws_one by assumption. rewrite to_Z_of_Z by exact Hb.
      cbn [bind]. unfold finish.
      cbn [My_Fraction.whole My_Fraction.numerator My_Fraction.denominator
           PyNum.gt0].
      destruct (Z.ltb_spec 0 (- a)); [lia |]. cbn [bind PyNum.mul Z.mul].
      destruct as_integer; reflexivity.
    + cbn [all_chars]. rewrite digits_nonspace by exact Hda. reflexivity.
    + discriminate.
  - unfold lacks. cbn [all_chars]. fold (lacks "/" (PyStr.of_Z a)).
    rewrite lacks_of_Z by (auto; lia). reflexivity.
  - apply lacks_of_Z; [reflexivity | exact Hb].
Qed.

Lemma string_to_increments_negative_fraction_witness :
  Units.string_to_increments Sample.english32
    (String "-" (PyStr.of_Z 3 ++ "/" ++ PyStr.of_Z 4)) true
  = Ok (NInt 0).
Proof.
  apply (string_to_increments_negative_fraction Sample.english32 " " 3 4 true).
  - reflexivity.
  - reflexivity.
  - reflexivity.
  - lia.
  - lia.
Defined.

(** X10: with a separator that is a string, not empty, without a '.'
    and not starting with a digit or a '/', the decimal text of an
    integer [0 <= z] is read as exactly [z * num_increments]. *)
Theorem string_to_increments_whole_number (u : Units.t) (sep : string)
    (z : Z) (as_integer : bool) :
  Units.english_separator u = PStr sep ->
  good_separator sep = true ->
  0 <= z ->
  Units.string_to_increments u (PyStr.of_Z z) as_integer
  = Ok (NInt (z * Units.num_increments u)).
Proof.
  intros Hsep Hg Hz. rewrite string_to_increments_finish, Hsep.
  pose proof (set_from_string_text sep z 0 1 Hg Hz ltac:(lia) ltac:(lia)) as H.
  unfold text in H. cbn [Z.eqb] in H. rewrite H. cbn [bind].
  unfold finish. cbn [My_Fraction.whole My_Fraction.numerator PyNum.gt0
                      Z.ltb Z.compare bind PyNum.mul].
  destruct as_integer; reflexivity.
Qed.

Lemma string_to_increments_whole_number_witness :
  Units.string_to_increments Sample.english32 (PyStr.of_Z 5) true
  = Ok (NInt (5 * Units.num_increments Sample.english32)).
Proof.
  apply (string_to_increments_whole_number Sample.english32 " " 5 true).
  - reflexivity.
  - reflexivity.
  - lia.
Defined.

Lemma set_from_string_separator_free (sep s : string) :
  good_separator sep = true ->
  separator_free s = true ->
  My_Fraction.set_from_string (My_Fraction.init (PStr sep) 0 0 None) s
  = match My_Fraction.set_from_string (My_Fraction.init (PStr " ") 0 0 None) s with
    | Ok f => Ok (with_separator (PStr sep) f)
    | Raise e => Raise e
    end.
Proof.
  intros Hg Hf.
  destruct (good_separator_inv sep Hg) as (c & r & Es & Hc & _ & _).
  unfold My_Fraction.set_from_string.
  cbn [My_Fraction.init My_Fraction.sign My_Fraction.whole
       My_Fraction.numerator My_Fraction.denominator
       My_Fraction.english_separator].
  destruct (Z.eqb_spec (PyStr.find "." s) (-1)) as [Ef | Ef].
  - apply find_from_absent in Ef; [| lia].
    unfold separator_free in Hf. rewrite Ef in Hf. cbn [negb orb] in Hf.
    apply andb_true_iff in Hf as [Hd _].
    rewrite separator_dispatch.
    assert (Hs : (if String.eqb sep " " then s
                  else PyStr.replace_first sep " " s) = s).
    { destruct (String.eqb sep " "); [reflexivity |]. rewrite Es.
      apply replace_first_absent. now apply digits_lack. }
    rewrite Hs. cbn [bind].
    destruct (PyStr.split "/" s) as [| a [| b [| x l]]]; try reflexivity.
    + destruct (PyStr.to_Z a); reflexivity.
    + destruct (match PyStr.split_ws a with
                | [] => _ | _ => _ end) as [[w n] |]; [| reflexivity].
      cbn [bind].
      destruct (PyStr.split_ws b) as [| y [| z l]]; try reflexivity.
      destruct (PyStr.to_Z y); reflexivity.
  - destruct (if PyStr.is_empty _ then _ else _) as [w |]; [| reflexivity].
    cbn [bind].
    destruct (PyStr.is_empty (PyStr.strip (PyStr.drop _ s))); [reflexivity |].
    destruct (PyStr.to_Z _) as [n |]; [| reflexivity]. cbn [bind].
    destruct (My_Fraction.pow10 _) as [p |]; [| reflexivity]. cbn [bind].
    destruct (PyFloat.to_Z p) as [d |]; [| reflexivity]. cbn [bind].
    apply (reduce_with_separator (PStr sep)
             (My_Fraction.mk 1 w (NInt n) (Some (NInt d)) (PStr " "))).
Qed.

Lemma string_to_increments_separator_free (u : Units.t) (sep s : string)
    (b : bool) :
  Units.english_separator u = PStr sep ->
  good_separator sep = true ->
  separator_free s = true ->
  Units.string_to_increments u s b
  = Units.string_to_increments
      (Units.mk (PStr " ") (Units.metric u) None (Units.num_increments u)
         (Units.increments_per_inch u)) s b.
Proof.
  intros Hsep Hg Hf. rewrite !string_to_increments_finish, Hsep.
  cbn [Units.english_separator Units.num_increments].
  rewrite set_from_string_separator_free by assumption.
  destruct (My_Fraction.set_from_string _ s) as [f |]; reflexivity.
Qed.

Lemma in_round_trip_domain (v : Z) :
  0 <= v <= 10000 -> In v round_trip_domain.
Proof.
  intros Hv. unfold round_trip_domain. apply in_map_iff.
  exists (Z.to_nat v). split; [lia |]. apply in_seq. lia.
Qed.

Lemma init_plain (sep : pyval) (m : bool) (n : Z)
    (tr : option Units.translator) (u : Units.t) (q : PyDecimal.t) :
  Units.init sep m (Some n) tr = Ok (u, q) ->
  Units.metric u = m
  /\ Units.num_increments u = Units.num_increments (plain_units m n)
  /\ Units.increments_per_inch u = Units.increments_per_inch (plain_units m n)
  /\ Units.english_separator u = sep
  /\ q = PyDecimal.mk false 1 (if m then -2 else -3).
Proof.
  unfold plain_units, Units.init. destruct m.
  - destruct (PyNum.mul _ _) as [ipi |]; cbn [bind]; [| discriminate].
    intros E. injection E as <- <-. repeat split.
  - intros E. injection E as <- <-. repeat split.
Qed.

Lemma metric_round_trip_checked :
  forallb (fun n => forallb (metric_round_trip_check n) round_trip_domain)
          metric_units
  = true.
Proof. vm_compute. reflexivity. Qed.

(** X11: for metric units with 1 or 8 increments per mm, a separator
    that is a string, not empty, without a '.' and not starting with a
    digit or a '/', and the quantum their constructor leaves, the
    string [increments_to_string] gives for [0 <= v <= 10000] is read
    back by [string_to_increments] as [v]. *)
Theorem round_trip_metric (sep : string) (tr : option Units.translator)
    (u : Units.t) (q : PyDecimal.t) (n v : Z) :
  Units.init (PStr sep) true (Some n) tr = Ok (u, q) ->
  In n metric_units ->
  good_separator sep = true ->
  0 <= v <= 10000 ->
  exists s,
    Units.increments_to_string q u (NInt v) false = Ok s
    /\ Units.string_to_increments u s true = Ok (NInt v).
Proof.
  intros Hu Hn Hg Hv.
  destruct (init_plain _ _ _ _ _ _ Hu) as (Hm & Hnum & Hipi & Hsep & ->).
  pose proof metric_round_trip_checked as H.
  rewrite forallb_forall in H. specialize (H n Hn).
  rewrite forallb_forall in H. specialize (H v (in_round_trip_domain v Hv)).
  unfold metric_round_trip_check in H.
  assert (Hpm : Units.metric (plain_units true n) = true)
    by (destruct Hn as [<- | [<- | []]]; reflexivity).
  assert (Hps : Units.english_separator (plain_units true n) = PStr " ")
    by (destruct Hn as [<- | [<- | []]]; reflexivity).
  assert (Es : Units.increments_to_string (PyDecimal.mk false 1 (-2)) u
                 (NInt v) false
               = Units.increments_to_string (PyDecimal.mk false 1 (-2))
                   (plain_units true n) (NInt v) false).
  { unfold Units.increments_to_string. now rewrite Hm, Hpm, Hnum. }
  rewrite Es.
  destruct (Units.increments_to_string _ (plain_units true n) _ _) as [s |];
    [| discriminate].
  apply andb_true_iff in H as [Hfree Hback].
  exists s. split; [reflexivity |].
  rewrite (string_to_increments_separator_free u sep s true Hsep Hg Hfree).
  rewrite Hm, Hnum, Hipi.
  replace (Units.mk (PStr " ") true None
             (Units.num_increments (plain_units true n))
             (Units.increments_per_inch (plain_units true n)))
    with (plain_units true n)
    by (destruct Hn as [<- | [<- | []]]; reflexivity).
  destruct (Units.string_to_increments (plain_units true n) s true)
    as [[z | f] |]; try discriminate.
  apply Z.eqb_eq in Hback. now subst.
Qed.

Lemma round_trip_metric_witness :
  exists s,
    Units.increments_to_string Sample.quant2 Sample.metric8 (NInt 3) false
    = Ok s
    /\ Units.string_to_increments Sample.metric8 s true = Ok (NInt 3).
Proof.
  apply (round_trip_metric " " (Some Sample.tr_id) Sample.metric8
           Sample.quant2 8 3).
  - vm_compute. reflexivity.
  - vm_compute. tauto.
  - reflexivity.
  - lia.
Defined.

(** ** Increments, inches and unit lengths *)

Lemma SFmul_comm (x y : spec_float) :
  SFmul PyFloat.prec PyFloat.emax x y = SFmul PyFloat.prec PyFloat.emax y x.
Proof.
  destruct x as [sx | sx | | sx mx ex], y as [sy | sy | | sy my ey];
    cbn [SFmul]; try reflexivity; try (now rewrite xorb_comm).
  now rewrite xorb_comm, Pos.mul_comm, Z.add_comm.
Qed.

Lemma mul_float_int_comm (x : spec_float) (n : Z) :
  PyNum.mul (NFloat x) (NInt n) = PyNum.mul (NInt n) (NFloat x).
Proof.
  unfold PyNum.mul, PyNum.to_float. cbn [bind].
  destruct (PyFloat.of_Z n) as [y |]; cbn [bind]; [| reflexivity].
  unfold PyFloat.mul. now rewrite SFmul_comm.
Qed.

(** For English units a unit length is an inch: the two conversions
    from increments are one computation, and so are the two back. *)
Lemma english_length_is_inches (u : Units.t) (v : Z) :
  Units.increments_per_inch u = NInt (Units.num_increments u) ->
  inches_check u v = true -> length_check u v = true.
Proof.
  intros Hipi. unfold inches_check, length_check.
  unfold Units.increments_to_inches, Units.increments_to_length.
  rewrite Hipi.
  destruct (bind (PyNum.to_float (NInt v)) _) as [x |]; [| discriminate].
  unfold Units.inches_to_increments, Units.length_to_increments.
  rewrite Hipi, mul_float_int_comm.
  destruct (PyNum.mul _ _) as [i |]; cbn [bind]; [| discriminate].
  destruct (my_round i) as [z |]; cbn [bind result_Z_eqb]; [| discriminate].
  auto.
Qed.

Lemma inches_checked :
  forallb (fun mn => forallb (inches_check (plain_units (fst mn) (snd mn)))
                             round_trip_domain)
          conversion_units
  = true.
Proof. vm_compute. reflexivity. Qed.

Lemma inches_check_at (m : bool) (n v : Z) :
  In (m, n) conversion_units -> 0 <= v <= 10000 ->
  inches_check (plain_units m n) v = true.
Proof.
  intros Hmn Hv. pose proof inches_checked as H.
  rewrite forallb_forall in H. specialize (H (m, n) Hmn).
  rewrite forallb_forall in H. apply H. now apply in_round_trip_domain.
Qed.

Lemma length_checked_metric :
  forallb (length_check (plain_units true 1)) round_trip_domain = true.
Proof. vm_compute. reflexivity. Qed.

Lemma length_check_at (m : bool) (n v : Z) :
  In (m, n) conversion_units -> 0 <= v <= 10000 ->
  length_check (plain_units m n) v = true.
Proof.
  intros Hmn Hv. destruct m.
  - assert (n = 1) as -> by (cbn in Hmn; intuition congruence).
    pose proof length_checked_metric as H.
    rewrite forallb_forall in H. apply H. now apply in_round_trip_domain.
  - apply english_length_is_inches; [reflexivity |].
    now apply inches_check_at.
Qed.

(** X12: for English units with 32, 64 or 96 increments per inch and
    for metric units with one increment per mm, [inches_to_increments]
    gives back every [0 <= v <= 10000] from the inches
    [increments_to_inches] computes for it. *)
Theorem inches_round_trip (sep : pyval) (m : bool) (n : Z)
    (tr : option Units.translator) (u : Units.t) (q : PyDecimal.t) (v : Z) :
  Units.init sep m (Some n) tr = Ok (u, q) ->
  In (m, n) conversion_units ->
  0 <= v <= 10000 ->
  exists x,
    Units.increments_to_inches u (NInt v) = Ok x
    /\ Units.inches_to_increments u (NFloat x) = Ok v.
Proof.
  intros Hu Hmn Hv.
  destruct (init_plain _ _ _ _ _ _ Hu) as (_ & _ & Hipi & _).
  pose proof (inches_check_at m n v Hmn Hv) as Hc.
  unfold inches_check in Hc.
  unfold Units.increments_to_inches, Units.inches_to_increments in *.
  rewrite Hipi.
  destruct (bind (PyNum.to_float (NInt v)) _) as [x |]; [| discriminate].
  exists x. split; [reflexivity |]. now apply result_Z_eqb_eq.
Qed.

Lemma inches_round_trip_witness :
  exists x,
    Units.increments_to_inches Sample.english32 (NInt 33) = Ok x
    /\ Units.inches_to_increments Sample.english32 (NFloat x) = Ok 33.
Proof.
  apply (inches_round_trip (PStr " ") false 32 (Some Sample.tr_id)
           Sample.english32 Sample.quant3 33).
  - reflexivity.
  - vm_compute. tauto.
  - lia.
Defined.

(** X13: for the same unit systems, [length_to_increments] gives back
    every [0 <= v <= 10000] from the length [increments_to_length]
    computes for it. *)
Theorem length_round_trip (sep : pyval) (m : bool) (n : Z)
    (tr : option Units.translator) (u : Units.t) (q : PyDecimal.t) (v : Z) :
  Units.init sep m (Some n) tr = Ok (u, q) ->
  In (m, n) conversion_units ->
  0 <= v <= 10000 ->
  exists x,
    Units.increments_to_length u (NInt v) = Ok x
    /\ Units.length_to_increments u (NFloat x) true = Ok (NInt v).
Proof.
  intros Hu Hmn Hv.
  destruct (init_plain _ _ _ _ _ _ Hu) as (_ & Hnum & _).
  pose proof (length_check_at m n v Hmn Hv) as Hc.
  unfold length_check in Hc.
  unfold Units.increments_to_length, Units.length_to_increments in *.
  rewrite Hnum.
  destruct (bind (PyNum.to_float (NInt v)) _) as [x |]; [| discriminate].
  exists x. split; [reflexivity |].
  destruct (bind (PyNum.mul (NFloat x) _) _) as [[z | f] |]; try discriminate.
  apply Z.eqb_eq in Hc. now subst.
Qed.

Lemma length_round_trip_witness :
  exists x,
    Units.increments_to_length Sample.english32 (NInt 33) = Ok x
    /\ Units.length_to_increments Sample.english32 (NFloat x) true
       = Ok (NInt 33).
Proof.
  apply (length_round_trip (PStr " ") false 32 (Some Sample.tr_id)
           Sample.english32 Sample.quant3 33).
  - reflexivity.
  - vm_compute. tauto.
  - lia.
Defined.

(** X14: [abstract_to_increments] on an [int] [a] returns
    [a * num_increments] exactly when the two factors and the product
    are below 2^53 in magnitude: every step of the way through [float]
    is exact. *)
Theorem abstract_to_increments_int (u : Units.t) (a : Z) :
  Z.abs a < 2 ^ 53 ->
  Z.abs (Units.num_increments u) < 2 ^ 53 ->
  Z.abs (a * Units.num_increments u) < 2 ^ 53 ->
  Units.abstract_to_increments u (PNum (NInt a)) true
  = Ok (NInt (a * Units.num_increments u)).
Proof.
  intros Ha Hn Han. set (n := Units.num_increments u) in *.
  unfold Units.abstract_to_increments, Units.float_of, Units.length_to_increments,
    my_round, PyNum.to_float, PyNum.mul. fold n.
  destruct (Z.eq_dec a 0) as [-> | Ha0].
  - cbn [PyFloat.of_Z binary_normalize bind PyNum.to_float].
    destruct (Z.eq_dec n 0) as [-> | Hn0]; [reflexivity |].
    rewrite of_Z_exact by assumption. reflexivity.
  - rewrite of_Z_exact by assumption. cbn [bind PyNum.to_float].
    destruct (Z.eq_dec n 0) as [-> | Hn0].
    + cbn [PyFloat.of_Z binary_normalize bind]. rewrite Z.mul_0_r. reflexivity.
    + rewrite of_Z_exact by assumption. cbn [bind].
      rewrite mul_exact by assumption. cbn [PyNum.round].
      rewrite round_exact; [reflexivity | nia | assumption].
Qed.

Lemma abstract_to_increments_int_witness :
  Units.abstract_to_increments Sample.english32 (PNum (NInt (-3))) true
  = Ok (NInt (-3 * Units.num_increments Sample.english32)).
Proof.
  apply (abstract_to_increments_int Sample.english32 (-3));
    vm_compute; reflexivity.
Defined.
(** ** Numbering output files *)

Lemma rfind_from_lacks (c : ascii) (s : string) (i last : Z) :
  lacks c s = true -> PyStr.rfind_from c s i last = last.
Proof.
  revert i last. induction s as [| d s IH]; intros i last; cbn; [reflexivity |].
  intros H. apply andb_true_iff in H as [Hd Hs].
  destruct (Ascii.eqb d c); [discriminate | now apply IH].
Qed.

Lemma rfind_from_at (c : ascii) (a n : string) (i last : Z) :
  lacks c n = true ->
  PyStr.rfind_from c (a ++ String c n) i last
  = i + Z.of_nat (String.length a).
Proof.
  intros Hn. revert i last. induction a as [| d a IH]; intros i last.
  - cbn. rewrite Ascii.eqb_refl, rfind_from_lacks by exact Hn. lia.
  - cbn [String.append PyStr.rfind_from String.length]. rewrite IH. lia.
Qed.

Lemma basename_lacks (n : string) :
  lacks "/" n = true -> PosixPath.basename n = n.
Proof.
  intros Hn. unfold PosixPath.basename, PyStr.rfind.
  now rewrite rfind_from_lacks.
Qed.

Lemma basename_at (a n : string) :
  lacks "/" n = true -> PosixPath.basename (a ++ String "/" n) = n.
Proof.
  intros Hn. unfold PosixPath.basename, PyStr.rfind.
  rewrite rfind_from_at by exact Hn.
  replace (Z.to_nat (0 + Z.of_nat (String.length a) + 1))
    with (String.length (a ++ "/")) by (rewrite length_append; cbn; lia).
  replace (a ++ String "/" n) with ((a ++ "/") ++ n)
    by (now rewrite append_assoc).
  apply drop_app.
Qed.

Lemma ends_with_inv (c : ascii) (a : string) :
  PyStr.ends_with c a = true -> exists a', a = a' ++ String c "".
Proof.
  induction a as [| d a IH]; cbn; [discriminate |].
  destruct a as [| e a].
  - intros H. apply Ascii.eqb_eq in H. subst d. now exists "".
  - intros H. destruct (IH H) as [a' Ha']. exists (String d a').
    cbn. now rewrite <- Ha'.
Qed.

Lemma basename_join (path name : string) :
  lacks "/" name = true ->
  PosixPath.basename (PosixPath.join path name) = name.
Proof.
  intros Hn. unfold PosixPath.join.
  assert (Hs : PyStr.starts_with "/" name = false).
  { destruct name as [| d r]; [reflexivity |]. cbn in *.
    apply andb_true_iff in Hn as [Hd _]. now destruct (Ascii.eqb d "/"). }
  rewrite Hs. destruct path as [| p0 path'] eqn:Ep.
  - cbn. now apply basename_lacks.
  - rewrite <- Ep. replace (PyStr.is_empty path) with false by now subst.
    cbn [orb]. destruct (PyStr.ends_with "/" path) eqn:He.
    + destruct (ends_with_inv _ _ He) as [a' ->].
      rewrite append_assoc. now apply basename_at.
    + now apply basename_at.
Qed.

Lemma index_text_of (path prefix suffix digits : string) :
  lacks "/" prefix = true -> lacks "/" suffix = true ->
  lacks "/" digits = true ->
  index_text prefix suffix
    (PosixPath.join path (prefix ++ digits ++ "." ++ suffix))
  = digits.
Proof.
  intros Hp Hs Hd. unfold index_text. rewrite basename_join.
  - unfold PyStr.drop_last.
    replace (prefix ++ digits ++ "." ++ suffix)
      with ((prefix ++ digits) ++ ("." ++ suffix))
      by (now rewrite append_assoc).
    replace (String.length ((prefix ++ digits) ++ "." ++ suffix)
             - (String.length suffix + 1))%nat
      with (String.length (prefix ++ digits))
      by (rewrite !length_append; cbn [String.length]; lia).
    rewrite take_app. apply drop_app.
  - unfold lacks in *. rewrite !all_chars_app, Hp, Hd, Hs. reflexivity.
Qed.

Lemma fold_index_spec (prefix suffix : string) (files : list string) :
  forall index,
    let k := fold_left (next_index prefix suffix) files index in
    index <= k
    /\ (forall f i, In f files ->
          PyStr.to_Z (index_text prefix suffix f) = Ok i -> i <= k)
    /\ (k = index
        \/ exists f, In f files
                     /\ PyStr.to_Z (index_text prefix suffix f) = Ok k).
Proof.
  induction files as [| f files IH]; intros index; cbn [fold_left].
  - repeat split; [lia | intros f i [] | now left].
  - specialize (IH (next_index prefix suffix index f)).
    cbn zeta in IH. destruct IH as (Hle & Hall & Hex).
    set (k := fold_left _ files _) in *.
    assert (Hstep : index <= next_index prefix suffix index f).
    { unfold next_index. destruct (PyStr.to_Z _) as [i |]; [| lia].
      destruct (Z.ltb_spec index i); lia. }
    split; [lia |]. split.
    + intros g i [<- | Hg] Hi; [| eauto].
      assert (i <= next_index prefix suffix index f); [| lia].
      unfold next_index. rewrite Hi. destruct (Z.ltb_spec index i); lia.
    + destruct Hex as [Hk | (g & Hg & Hi)].
      * rewrite Hk. unfold next_index.
        destruct (PyStr.to_Z (index_text prefix suffix f)) as [i |] eqn:Ei;
          [| now left].
        destruct (Z.ltb_spec index i); [| now left].
        right. exists f. split; [now left | exact Ei].
      * right. exists g. split; [now right | exact Hi].
Qed.

(** The separator 0x1c is white space for [strip] and none for [int]:
    a file whose number follows it is passed over. *)
Lemma get_file_index_skips_separator :
  PyStr.strip (String (ascii_of_nat 28) "7") = "7"
  /\ PyStr.to_Z (String (ascii_of_nat 28) "7") = Raise ValueError
  /\ get_file_index
       (fun _ => Ok ["out/joint" ++ String (ascii_of_nat 28) "7.png"])
       "out" "joint" "png"
     = Ok 0.
Proof. repeat split; vm_compute; reflexivity. Qed.

Lemma get_file_index_fold (glob : string -> result (list string))
    (path prefix suffix : string) (files : list string) :
  glob (PosixPath.join path (prefix ++ "*." ++ suffix)) = Ok files ->
  get_file_index glob path prefix suffix
  = Ok (fold_left (next_index prefix suffix) files (-1) + 1).
Proof. intros Hg. unfold get_file_index. now rewrite Hg. Qed.

(** X15: when the directory can be listed, [get_file_index] returns
    an index that is at least 0 and above every number read from a
    listed name, and that is 0 or one more than such a number; a name
    [int] rejects is passed over. *)
Theorem get_file_index_next
    (glob : string -> result (list string)) (path prefix suffix : string)
    (files : list string) :
  glob (PosixPath.join path (prefix ++ "*." ++ suffix)) = Ok files ->
  exists k,
    get_file_index glob path prefix suffix = Ok k
    /\ 0 <= k
    /\ (forall f i, In f files ->
          PyStr.to_Z (index_text prefix suffix f) = Ok i -> i < k)
    /\ (k = 0
        \/ exists f, In f files
                     /\ PyStr.to_Z (index_text prefix suffix f) = Ok (k - 1)).
Proof.
  intros Hg. rewrite (get_file_index_fold _ _ _ _ _ Hg).
  destruct (fold_index_spec prefix suffix files (-1)) as (Hle & Hall & Hex).
  set (m := fold_left _ files _) in *.
  exists (m + 1). split; [reflexivity |]. split; [lia |]. split.
  - intros f i Hf Hi. specialize (Hall f i Hf Hi). lia.
  - destruct Hex as [-> | (f & Hf & Hi)]; [now left | right].
    exists f. split; [exact Hf |]. now replace (m + 1 - 1) with m by lia.
Qed.

Lemma get_file_index_next_witness :
  exists k,
    get_file_index (fun _ => Ok listed_files) "out" "joint" "png" = Ok k
    /\ 0 <= k
    /\ (forall f i, In f listed_files ->
          PyStr.to_Z (index_text "joint" "png" f) = Ok i -> i < k)
    /\ (k = 0
        \/ exists f, In f listed_files
                     /\ PyStr.to_Z (index_text "joint" "png" f) = Ok (k - 1)).
Proof.
  apply (get_file_index_next (fun _ => Ok listed_files) "out" "joint" "png"
           listed_files).
  reflexivity.
Defined.

(** X16: for a prefix and a suffix without a '/', the file named by
    the returned index, [path/prefixINDEX.suffix], is none of the
    listed files. *)
Theorem get_file_index_fresh
    (glob : string -> result (list string)) (path prefix suffix : string)
    (files : list string) (k : Z) :
  lacks "/" prefix = true -> lacks "/" suffix = true ->
  glob (PosixPath.join path (prefix ++ "*." ++ suffix)) = Ok files ->
  get_file_index glob path prefix suffix = Ok k ->
  ~ In (PosixPath.join path (prefix ++ PyStr.of_Z k ++ "." ++ suffix)) files.
Proof.
  intros Hp Hs Hg Hk Hin.
  rewrite (get_file_index_fold _ _ _ _ _ Hg) in Hk. injection Hk as Hk.
  destruct (fold_index_spec prefix suffix files (-1)) as (Hle & Hall & _).
  set (m := fold_left _ files _) in *.
  assert (Hpos : 0 <= k) by lia.
  specialize (Hall _ k Hin).
  rewrite index_text_of in Hall; try assumption.
  - specialize (Hall (to_Z_of_Z k Hpos)). lia.
  - apply lacks_of_Z; [reflexivity | exact Hpos].
Qed.

Lemma get_file_index_fresh_witness :
  get_file_index (fun _ => Ok listed_files) "out" "joint" "png" = Ok 13
  /\ ~ In (PosixPath.join "out" ("joint" ++ PyStr.of_Z 13 ++ "." ++ "png"))
         listed_files.
Proof.
  split; [reflexivity |].
  apply (get_file_index_fresh (fun _ => Ok listed_files) "out" "joint" "png"
           listed_files 13); reflexivity.
Defined.

(** ** The tick interval of a slider *)

(** X17: [set_slider_tick_interval] leaves the range of the slider as
    it is and sets an interval of at least 1: 1 for a range of at most
    30, and otherwise the interval that gives at least 30 and fewer
    than 60 ticks, [diff // 30]. *)
Theorem set_slider_tick_interval_reasonable (slider : QSlider.t) :
  let s := set_slider_tick_interval slider in
  let diff := QSlider.maximum slider - QSlider.minimum slider in
  QSlider.minimum s = QSlider.minimum slider
  /\ QSlider.maximum s = QSlider.maximum slider
  /\ 1 <= QSlider.tickInterval s
  /\ (diff <= 30 -> QSlider.tickInterval s = 1)
  /\ (30 < diff ->
      30 * QSlider.tickInterval s <= diff < 30 * (QSlider.tickInterval s + 1)
      /\ diff < 60 * QSlider.tickInterval s).
Proof.
  intros s diff. subst s. unfold set_slider_tick_interval. fold diff.
  destruct (Z.ltb_spec 30 diff) as [H | H]; unfold QSlider.setTickInterval;
    cbn [QSlider.minimum QSlider.maximum QSlider.tickInterval].
  - pose proof (Z.div_mod diff 30 ltac:(lia)) as E.
    pose proof (Z.mod_pos_bound diff 30 ltac:(lia)) as B.
    assert (1 <= diff / 30) by (apply Z.div_le_lower_bound; lia).
    rewrite Z.max_r by lia. repeat split; lia.
  - repeat split; lia.
Qed.

(** ** Tables of fewer than four boards *)

(** X18: with fewer than four boards [print_table] raises
    [IndexError] and opens no file: the world is left as it was. *)
Theorem print_table_needs_four_boards (fuel : nat) (quant : PyDecimal.t)
    (filename : string) (boards : list Board) (title : string) (w : world) :
  (List.length boards < 4)%nat ->
  print_table fuel quant filename boards title w = Some (w, Raise IndexError).
Proof.
  intros Hlen.
  destruct boards as [| b0 [| b1 [| b2 [| b3 more]]]];
    [reflexivity | reflexivity | reflexivity | reflexivity |].
  cbn [List.length] in Hlen. lia.
Qed.

Lemma print_table_needs_four_boards_witness :
  print_table 10 Sample.quant3 "table.txt"
    [Sample.board_of Sample.english32 [] []] "T" Sample.full_disk
  = Some (Sample.full_disk, Raise IndexError).
Proof.
  apply (print_table_needs_four_boards 10 Sample.quant3 "table.txt"
           [Sample.board_of Sample.english32 [] []] "T" Sample.full_disk).
  cbn. lia.
Defined.

(** X19: when the units of the first of at least four boards have no
    translator, [print_table] raises [AttributeError] at the header and
    opens no file. *)
Theorem print_table_needs_translator (fuel : nat) (quant : PyDecimal.t)
    (filename : string) (b0 b1 b2 b3 : Board) (more : list Board)
    (title : string) (w : world) :
  Units.transl (units b0) = None ->
  print_table fuel quant filename (b0 :: b1 :: b2 :: b3 :: more) title w
  = Some (w, Raise AttributeError).
Proof.
  intros Htr. unfold print_table.
  rewrite load_cuts_four.
  rewrite (index_nth_Z _ 0 b0) by first [lia | reflexivity].
  cbn [bind]. unfold Units.tr. rewrite Htr. reflexivity.
Qed.

Lemma print_table_needs_translator_witness :
  print_table 10 Sample.quant3 "table.txt"
    (Sample.board_of (Units.mk (PStr " ") false None 32 (NInt 32)) [] []
     :: Sample.board_of Sample.english32 [] []
     :: Sample.board_of Sample.english32 [] []
     :: Sample.board_of Sample.english32 [] []
     :: []) "T" Sample.full_disk
  = Some (Sample.full_disk, Raise AttributeError).
Proof.
  apply (print_table_needs_translator 10 Sample.quant3 "table.txt"
           (Sample.board_of (Units.mk (PStr " ") false None 32 (NInt 32))
              [] [])
           (Sample.board_of Sample.english32 [] [])
           (Sample.board_of Sample.english32 [] [])
           (Sample.board_of Sample.english32 [] [])
           [] "T" Sample.full_disk).
  reflexivity.
Defined.

(** ** Saving and loading a design *)

(** X20: [serialize] raises [IndexError] on an empty list of boards,
    and otherwise writes 10 objects for English units and 9 for metric
    ones. *)
Theorem serialize_needs_a_board {Spacing : Type} `{Collaborators Spacing}
    (bit : Router_Bit) (sp : Spacing) (config : Config) :
  serialize bit [] sp config = Raise IndexError
  /\ forall b0 rest,
       exists s,
         serialize bit (b0 :: rest) sp config = Ok s
         /\ List.length s
            = if Units.metric (bit_units bit) then 9%nat else 10%nat.
Proof.
  split; [reflexivity |]. intros b0 rest. unfold serialize.
  rewrite (index_nth_Z _ 0 b0) by first [lia | reflexivity]. cbn [bind].
  destruct (Units.metric (bit_units bit)),
           (String.eqb (PyStr.take 4 (description sp)) "Edit");
    eexists; split; reflexivity.
Qed.

Lemma make_boards_spec {Spacing : Type} `{Collaborators Spacing}
    (n : nat) (bit : Router_Bit) (w : pyval) (bs : list Board) :
  make_boards n bit w = Ok bs ->
  List.length bs = n /\ Forall (fun b => new_Board bit w = Ok b) bs.
Proof.
  revert bs. induction n as [| n IH]; intros bs; cbn [make_boards].
  - intros E. injection E as <-. split; [reflexivity | constructor].
  - destruct (new_Board bit w) as [b |] eqn:Eb; [| discriminate]. cbn [bind].
    destruct (make_boards n bit w) as [bs' |]; [| discriminate]. cbn [bind].
    intros E. injection E as <-. destruct (IH bs' eq_refl) as [Hl Hf].
    split; [cbn; now rewrite Hl | now constructor].
Qed.

Lemma make_boards_total {Spacing : Type} `{Collaborators Spacing}
    (n : nat) (bit : Router_Bit) (w : pyval) (b : Board) :
  new_Board bit w = Ok b -> exists bs, make_boards n bit w = Ok bs.
Proof.
  intros Hb. induction n as [| n [bs IH]]; cbn [make_boards].
  - now exists [].
  - rewrite Hb, IH. cbn. eauto.
Qed.

(** X21: when the collaborators' constructors and [set_cuts] raise
    nothing, what [serialize] writes for English units is read by
    [unserialize] as a bit of the same width, depth and angle, as many
    boards as were saved, each built from the new bit and the width of
    the first saved board, and a spacing of the saved kind that was
    given the saved cuts or parameters. *)
Theorem unserialize_serialize_english {Spacing : Type} `{Collaborators Spacing}
    (bit : Router_Bit) (b0 : Board) (rest : list Board) (sp : Spacing)
    (config : Config) :
  let tag := PyStr.take 4 (description sp) in
  let w := PNum (NInt (width b0)) in
  Units.metric (bit_units bit) = false ->
  (forall b, exists x, new_Board b w = Ok x) ->
  (forall b bs, exists x, Edit_Spaced b bs config = Ok x) ->
  (forall b bs, exists x, Equally_Spaced b bs config = Ok x) ->
  (forall b bs, exists x, Variable_Spaced b bs config = Ok x) ->
  (forall x c, exists y, set_cuts x c = Ok y) ->
  exists s bit' boards' sp0 sp',
    serialize bit (b0 :: rest) sp config = Ok s
    /\ unserialize s config = Ok (bit', boards', sp', PStr tag)
    /\ bit_width bit' = bit_width bit
    /\ bit_depth bit' = bit_depth bit
    /\ bit_angle bit' = bit_angle bit
    /\ List.length boards' = List.length (b0 :: rest)
    /\ Forall (fun b => new_Board bit' w = Ok b) boards'
    /\ (if String.eqb tag "Edit"
        then Edit_Spaced bit' boards' config = Ok sp0
             /\ set_cuts sp0 (Some (cuts sp)) = Ok sp'
        else (if String.eqb tag "Equa"
              then Equally_Spaced bit' boards' config
              else Variable_Spaced bit' boards' config) = Ok sp0
             /\ set_cuts (set_params sp0 (params sp)) None = Ok sp').
Proof.
  intros tag w Hm Hnb Hed Heq Hva Hsc.
  unfold serialize. rewrite Hm. cbn [negb PyList.index List.length].
  rewrite (index_nth_Z _ 0 b0) by first [lia | reflexivity]. cbn [bind List.app].
  fold tag.
  set (bit' := mk_Router_Bit
                 (Units.mk (PNum (Units.increments_per_inch (bit_units bit)))
                    false None 32 (NInt 32))
                 (bit_width bit) (bit_depth bit) (bit_angle bit)).
  destruct (Hnb bit') as [x Hx].
  destruct (make_boards_total (S (List.length rest)) bit' w x Hx) as [bs Hbs].
  destruct (make_boards_spec _ _ _ _ Hbs) as [Hlen Hall].
  assert (Hrun : forall payload,
    unserialize
      [PStr VERSION; PBool false;
       PNum (Units.increments_per_inch (bit_units bit));
       bit_width bit; bit_depth bit; bit_angle bit;
       PNum (NInt (Z.of_nat (S (List.length rest)))); w; PStr tag; payload]
      config
    = (sp' <- (if String.eqb tag "Edit"
               then sp0 <- Edit_Spaced bit' bs config ;;
                    set_cuts sp0 (Some payload)
               else sp0 <- (if String.eqb tag "Equa"
                            then Equally_Spaced bit' bs config
                            else Variable_Spaced bit' bs config) ;;
                    set_cuts (set_params sp0 payload) None) ;;
       Ok (bit', bs, sp', PStr tag))).
  { intros payload. unfold unserialize, ld_bind, ld_lift, ld_ret, load.
    cbn [truthy Units.call Units.init bind lrange_len].
    rewrite Nat2Z.id. fold bit'. fold w. rewrite Hbs. cbn [eq_str].
    destruct (String.eqb tag "Edit").
    - destruct (Edit_Spaced bit' bs config) as [s0 |]; [| reflexivity].
      cbn [bind]. destruct (set_cuts s0 (Some payload)); reflexivity.
    - destruct (String.eqb tag "Equa");
        [destruct (Equally_Spaced bit' bs config) as [s0 |]
        | destruct (Variable_Spaced bit' bs config) as [s0 |]];
        try reflexivity; cbn [bind]; destruct (set_cuts _ None); reflexivity. }
  destruct (String.eqb tag "Edit") eqn:Et.
  - destruct (Hed bit' bs) as [sp0 Hsp0].
    destruct (Hsc sp0 (Some (cuts sp))) as [sp' Hsp'].
    eexists _, bit', bs, sp0, sp'. split; [reflexivity |].
    rewrite Hrun; rewrite ?Et; rewrite Hsp0. cbn [bind]. rewrite Hsp'. cbn [bind].
    repeat split; auto.
  - assert (Hc : exists sp0,
               (if String.eqb tag "Equa" then Equally_Spaced bit' bs config
                else Variable_Spaced bit' bs config) = Ok sp0)
      by (destruct (String.eqb tag "Equa"); auto).
    destruct Hc as [sp0 Hsp0].
    destruct (Hsc (set_params sp0 (params sp)) None) as [sp' Hsp'].
    eexists _, bit', bs, sp0, sp'. split; [reflexivity |].
    rewrite Hrun; rewrite ?Et; rewrite Hsp0. cbn [bind]. rewrite Hsp'. cbn [bind].
    repeat split; auto.
Qed.

Lemma unserialize_serialize_english_witness :
  exists s bit' boards' sp0 sp',
    serialize (Sample.bit_of Sample.english64)
      [Sample.board_of Sample.english64 [] []] Sample.equal_spacing
      Sample.config = Ok s
    /\ unserialize s Sample.config
       = Ok (bit', boards', sp',
             PStr (PyStr.take 4 (description Sample.equal_spacing)))
    /\ bit_width bit' = bit_width (Sample.bit_of Sample.english64)
    /\ bit_depth bit' = bit_depth (Sample.bit_of Sample.english64)
    /\ bit_angle bit' = bit_angle (Sample.bit_of Sample.english64)
    /\ List.length boards'
       = List.length [Sample.board_of Sample.english64 [] []]
    /\ Forall (fun b =>
                 new_Board bit'
                   (PNum (NInt (width (Sample.board_of Sample.english64
                                         [] []))))
                 = Ok b) boards'
    /\ (if String.eqb (PyStr.take 4 (description Sample.equal_spacing))
                      "Edit"
        then Edit_Spaced bit' boards' Sample.config = Ok sp0
             /\ set_cuts sp0 (Some (cuts Sample.equal_spacing)) = Ok sp'
        else (if String.eqb
                   (PyStr.take 4 (description Sample.equal_spacing)) "Equa"
              then Equally_Spaced bit' boards' Sample.config
              else Variable_Spaced bit' boards' Sample.config) = Ok sp0
             /\ set_cuts (set_params sp0 (params Sample.equal_spacing)) None
                = Ok sp').
Proof.
  apply (unserialize_serialize_english (Spacing := Sample.spacing)
           (Sample.bit_of Sample.english64)
           (Sample.board_of Sample.english64 [] []) []
           Sample.equal_spacing Sample.config).
  - reflexivity.
  - intros b. eexists. reflexivity.
  - intros b bs. eexists. reflexivity.
  - intros b bs. eexists. reflexivity.
  - intros b bs. eexists. reflexivity.
  - intros x [c |]; eexists; reflexivity.
Defined.

Lemma unserialize_shape {Spacing : Type} `{Collaborators Spacing}
    (s : stream) (config : Config)
    (r : Router_Bit * list Board * Spacing * pyval) :
  unserialize s config = Ok r ->
  exists v m ipi w d a nb bw tag payload rest n boards,
    s = v :: m :: ipi :: w :: d :: a :: nb :: bw :: tag :: payload :: rest
    /\ truthy m = false
    /\ lrange_len nb = Ok n
    /\ make_boards n (mk_Router_Bit (Units.mk ipi false None 32 (NInt 32)) w d a)
         bw = Ok boards
    /\ (eq_str tag "Edit" = false ->
        exists sp0,
          (if eq_str tag "Equa"
           then Equally_Spaced
                  (mk_Router_Bit (Units.mk ipi false None 32 (NInt 32)) w d a)
                  boards config
           else Variable_Spaced
                  (mk_Router_Bit (Units.mk ipi false None 32 (NInt 32)) w d a)
                  boards config) = Ok sp0).
Proof.
  unfold unserialize, ld_bind, ld_lift, ld_ret, load.
  destruct s as [| v [| m s]]; try discriminate.
  destruct (truthy m) eqn:Hm; [discriminate |].
  destruct s as [| ipi s]; [discriminate |].
  cbn [Units.call Units.init bind].
  destruct s as [| w [| d [| a [| nb [| bw s]]]]]; try discriminate.
  destruct (lrange_len nb) as [n |] eqn:Hn; [| discriminate].
  destruct (make_boards n _ bw) as [bs |] eqn:Hb; [| discriminate].
  destruct s as [| tag s]; [discriminate |].
  destruct (eq_str tag "Edit") eqn:Et.
  - destruct s as [| payload rest]; [discriminate |]. intros _.
    exists v, m, ipi, w, d, a, nb, bw, tag, payload, rest, n, bs.
    repeat split; auto. intros E; congruence.
  - destruct (eq_str tag "Equa") eqn:Eq.
    + destruct (Equally_Spaced _ bs config) as [s0 |] eqn:Es; [| discriminate].
      destruct s as [| payload rest]; [discriminate |]. intros _.
      exists v, m, ipi, w, d, a, nb, bw, tag, payload, rest, n, bs.
      repeat split; auto. intros _. rewrite Eq. eauto.
    + destruct (Variable_Spaced _ bs config) as [s0 |] eqn:Es; [| discriminate].
      destruct s as [| payload rest]; [discriminate |]. intros _.
      exists v, m, ipi, w, d, a, nb, bw, tag, payload, rest, n, bs.
      repeat split; auto. intros _. rewrite Eq. eauto.
Qed.

(** X22: a stream [unserialize] reads cannot be read once it is cut
    short: its first [k] objects, for every [k] below 10, raise
    [EOFError]. *)
Theorem unserialize_truncated {Spacing : Type} `{Collaborators Spacing}
    (s : stream) (config : Config)
    (r : Router_Bit * list Board * Spacing * pyval) (k : nat) :
  unserialize s config = Ok r ->
  (k < 10)%nat ->
  unserialize (firstn k s) config = Raise EOFError.
Proof.
  intros Hr Hk.
  destruct (unserialize_shape s config r Hr)
    as (v & m & ipi & w & d & a & nb & bw & tag & payload & rest & n & boards
        & -> & Hm & Hn & Hb & Hsp).
  unfold unserialize, ld_bind, ld_lift, ld_ret, load.
  do 10 (destruct k as [| k]; [cbn [firstn]; rewrite ?Hm;
                               cbn [Units.call Units.init bind];
                               rewrite ?Hn, ?Hb; try reflexivity |]).
  - destruct (eq_str tag "Edit") eqn:Et; [reflexivity |].
    destruct (Hsp eq_refl) as [sp0 Hsp0].
    destruct (eq_str tag "Equa"); rewrite Hsp0; reflexivity.
  - lia.
Qed.

Lemma unserialize_truncated_witness :
  unserialize (Spacing := Sample.spacing) (firstn 9 Sample.stream64)
    Sample.config
  = Raise EOFError.
Proof.
  destruct (unserialize (Spacing := Sample.spacing) Sample.stream64
              Sample.config) as [r |] eqn:E.
  - apply (unserialize_truncated (Spacing := Sample.spacing) Sample.stream64
             Sample.config r 9 E).
    lia.
  - vm_compute in E. discriminate E.
Defined.

(** X23: [unserialize] reads ten objects at most: what follows them
    in the stream changes neither the result nor the exception. *)
Theorem unserialize_reads_ten {Spacing : Type} `{Collaborators Spacing}
    (s : stream) (config : Config) :
  unserialize (firstn 10 s) config = unserialize s config.
Proof.
  do 10 (destruct s as [| ? s]; [reflexivity |]).
  cbn [firstn]. unfold unserialize, ld_bind, ld_lift, ld_ret, load.
  destruct (truthy p0); [reflexivity |].
  cbn [Units.call Units.init bind].
  destruct (lrange_len p5); [| reflexivity].
  destruct (make_boards _ _ p6); [| reflexivity].
  destruct (eq_str p7 "Edit").
  - destruct (Edit_Spaced _ _ config); [| reflexivity].
    destruct (set_cuts _ _); reflexivity.
  - destruct (eq_str p7 "Equa");
      [destruct (Equally_Spaced _ _ config) | destruct (Variable_Spaced _ _ config)];
      try reflexivity; destruct (set_cuts _ _); reflexivity.
Qed.
